(* ===== verification/_CoqProject ===== *)
-Q . S2P
Prelude.v
Tier.v
Codec.v
Retry.v
Api.v
Submit.v
SubmitFlow.v
Wallet.v
Pages.v
Startup.v
StartBat.v
ExplorerFlow.v
DashView.v
VerifierView.v
SubmitView.v
ExplorerView.v
Transport.v
