(* ===== verification/Prelude.v ===== *)
(** * verifi-ed: a verification development of the frontend and its start script

    The repository ([src/]) holds the React frontend of verifi-ed, a
    service that analyses a developer's evidence (a GitHub repository or
    an uploaded certificate or project), scores it, and lets the wallet
    owner record the score on Algorand as a [SkillRecord]; the records are
    read back by the backend to build a reputation.  The backend (the
    analyzers, the scoring and reputation engines, the contract, the
    record decoder) is not under [src/]; it is described by [spec.md].
    The frontend is in [src/frontend/src/context/WalletContext.jsx],
    [src/frontend/src/pages/RecordsPage.jsx] and the concatenated sources
    [src/unnamed/part_001] (API client, Submit page, Explorer),
    [part_002] (Verifier), [part_003] (Navbar), [part_004] (ScoreCircle);
    [part_005] is the [start.sh] launcher and [src/start.bat] its Windows
    twin; [part_000] and [part_006] are
    documentation.

    How the parts interact: the wallet context provides the address; the
    Submit page asks the backend for an analysis through the api client,
    then calls [submit_skill_record] on the contract with arguments it
    builds from the analysis; the Dashboard, Verifier and Explorer query
    the backend and show the scores with a credibility tier; [start.sh]
    starts the backend and the frontend dev server.

    Files (each one a [Module] of the same name), in dependency order:
    - [Prelude] (this file): the [result] error monad with stdpp's
      [mret]/[≫=], JavaScript truthiness of optional strings
      ([a || b], notation [||ₛ]), [Math.round] and [toFixed] on exact
      rationals ([js_round], [js_to_fixed]), [slice] and [toLowerCase] on
      strings, the [vp] hint databases and their lemmas.
    - [Tier]: every tier ladder of the UI ([ScoreCircle] colour and label,
      the Submit page, Explorer, Verifier and Dashboard ladders), a
      reference classifier [tier_of] they are proved equal to, the spec's
      credibility bands ([spec_level], written from spec.md), and
      [ScoreCircle]'s drawing ([score_circle]) over the reals.  Theorems:
      the ladders classify as the spec says; the Explorer and the
      Dashboard ring, which classify the rounded score, differ from the
      spec's level exactly on the half-unit bands below each threshold;
      the ring fits its box.
    - [Codec]: the ARC-4 wire format of [SkillRecord] blobs as spec
      sections 4.1 and 6 state it.  The contract and the decoder are not
      under [src/]: this file is the specification the Submit page's
      arguments are checked against and translates no source lines.  The
      blob decoder runs on fuel; [decode_blob] gives it the blob's
      length, enough since every record consumes at least one byte.
    - [Retry]: [fetchWithRetry] (part_001 lines 13–67) as a function of the
      outcome of each attempt (an oracle [nat -> attempt]), returning the
      result and the trace of fetches and sleeps; the abort timer
      ([timed]), which bounds the wait for the response headers only
      (line 40 clears it before the body is read, and the time a call
      spends is not modelled); and the same function with [retries] a
      JavaScript integer, which recurses on [retries - 1] rather than
      structurally and so runs on fuel, one unit per attempt.  Theorems:
      the default call follows the documented policy (at most four
      attempts, backoff 1000/2000/4000 ms, retries on 429 and 5xx only);
      timeouts, network errors and client errors are not retried;
      [retries + 1] units of fuel always suffice, and for the budgets the
      api uses the integer version is the structural one.
    - [Api]: the [api] object (part_001 lines 13 and 69–144): the base URL
      from [VITE_API_URL] and each endpoint as the request it makes
      through [fetchWithRetry], used by [Transport] to compare the pages'
      own requests with the client's.
    - [Submit]: the Submit page's handlers (part_001 lines 177–340): the
      arguments of [submit_skill_record], [handleSubmit] and
      [handleAnalyze] each split at their awaits into a start (the guards
      and the state set before the first [await]) and a finish (every
      outcome of the [try] block and the [finally]).  The record the
      contract stores for the arguments ([record_of_args]) is written
      from the spec, the contract not being under [src/].  Theorems: a
      submission decodes back to the analysis's fields (through
      [Codec]), the handler's guards, it always settles.
    - [SubmitFlow]: the page as a UI state machine whose events are the
      user's clicks and key presses and the arrival of replies, with the
      enabling conditions of the rendered buttons; analysis and
      submission requests are in flight until their reply event, so any
      event can come between a handler's start and its finish.
      Theorems: with the buttons only, at most one analysis is in flight;
      the Enter key bypasses that guard and a stale answer wins; a tab
      switched during a submission leaves its result without an
      analysis.
    - [Wallet]: the wallet provider (WalletContext.jsx) and its
      [localStorage] key as a labelled step relation with reachability,
      and the Navbar's render.  Theorems: every reachable state agrees
      with storage, a reload restores the session, the Navbar shows the
      stored address; an empty account list, from any state, breaks
      this.
    - [Pages]: the Dashboard ([RecordsPage.jsx]), Verifier (part_002) and
      Explorer lookups, each split into its start and its finish.
      Theorems: lookups only query plausible addresses and always settle;
      the Explorer keeps a stale domain filter and hides server errors.
    - [Startup]: [start.sh] (part_005) as statements run by a small shell
      whose outside world (the [.env] file, the health check, the
      frontend) is an oracle, with a Ctrl+C before any statement.  The
      interrupt reaches the script and its jobs (one process group);
      before the trap, which jobs stop is a parameter [stops], each
      program deciding (uvicorn handles SIGINT itself).  The brute-force
      lemmas enumerate all eight oracles.  Theorems: the outcome of a
      run, and that a Ctrl+C once the trap is installed stops everything
      whatever [stops] is.
    - [StartBat]: [src/start.bat], the Windows twin of [start.sh], as its
      own statements run by a small [cmd] interpreter over the service
      windows it opens, against the same oracle.  Theorems: its outcomes
      (a failed health probe leaves the backend's window open); a Ctrl+C
      leaves the service windows running.  [taskkill /F] without [/T]
      closes a window's [cmd.exe]; whether the service it started exits
      too is not modelled.
    - [ExplorerFlow]: the Explorer with several requests in flight, as a
      state machine with reachability.  Theorems: once every request is
      answered, in any order, the page settles (a liveness property
      stated over the finite list of answers); the last answer shown wins,
      whatever query it answers.
    - [DashView], [VerifierView], [SubmitView], [ExplorerView]: what each
      page renders, as the list of widgets it shows for a state.
      The Dashboard's manual lookup starts two lookups that overlap and
      are answered in either order.  Theorems: a lookup by itself leaves
      exactly one status panel, while the two of a manual lookup, one
      failing and one succeeding, leave the error card beside the
      profile, and a manual lookup queries twice; the Verifier's button is enabled exactly when
      it acts, except for a short connected address; the language pills
      are sorted with shares summing to 100; the success panel follows a
      submission; Explorer cards agree with their tiers.

    - [Transport]: the pages' own [fetch] calls: their hard-coded base URL
      and what one attempt gives a page, run against the network of
      [Retry].  Theorem: the pages ignore [VITE_API_URL] and do not retry
      where the api client would.

    Not modelled: CSS and the markup's layout (only what each page shows
    is); the charts [DomainChart] and [Timeline], whose sources are not
    under [src/]; the backend analyzers, scoring and reputation engines
    (spec 4.2–4.4); the time spent reading a response body; the Algorand SDK, Pera Wallet and SHA-256, which are
    only called; [URLSearchParams] encoding, kept abstract; what the
    health probe's [curl -s] counts as an answer (an oracle); the
    documentation (part_000, part_006, the Markdown files), read as the
    specification the findings compare the code with.
    Numbers are exact rationals, not IEEE doubles.  JSON bodies are
    abstract types with the field accessors the code reads, as Section
    variables. *)

From Stdlib Require Import ZArith QArith Qround Lia Lqa Ascii.
From stdpp Require Import base decidable option list strings.

Declare Scope vp_scope.
Delimit Scope vp_scope with vp.
Open Scope vp_scope.

Create HintDb vp.
Create Rewrite HintDb vp_rw.

(** ** Results of fallible code *)

(** [Ok a] is a normal return, [Err e] a thrown or returned error. *)
Inductive result (E A : Type) : Type :=
| Ok (a : A)
| Err (e : E).
Arguments Ok {E A} a.
Arguments Err {E A} e.

#[export] Instance result_ret {E} : MRet (result E) := fun _ a => Ok a.
#[export] Instance result_bind {E} : MBind (result E) :=
  fun _ _ k r => match r with Ok a => k a | Err e => Err e end.
#[export] Instance result_fmap {E} : FMap (result E) :=
  fun _ _ f r => match r with Ok a => Ok (f a) | Err e => Err e end.

Definition is_ok {E A} (r : result E A) : bool :=
  match r with Ok _ => true | Err _ => false end.

Lemma bind_Ok {E A B} (a : A) (k : A -> result E B) : (Ok a ≫= k) = k a.
Proof. reflexivity. Qed.

Lemma bind_Err {E A B} (e : E) (k : A -> result E B) : (Err e ≫= k) = Err e.
Proof. reflexivity. Qed.

Lemma bind_eq_Ok {E A B} (r : result E A) (k : A -> result E B) b :
  (r ≫= k) = Ok b -> exists a, r = Ok a /\ k a = Ok b.
Proof. destruct r; simpl; [eauto | discriminate]. Qed.

#[export] Hint Rewrite @bind_Ok @bind_Err : vp_rw.

(** ** JavaScript truthiness on optional strings *)

(** A property that may be [undefined] ([None]) or a string; [""] and
    [undefined] are falsy. *)
Definition truthy (o : option string) : bool :=
  match o with
  | Some s => negb (String.eqb s "")
  | None => false
  end.

(** [a || b] on optional strings: [a] when truthy, otherwise [b]. *)
Definition js_or (a b : option string) : option string :=
  if truthy a then a else b.

(** [a || "default"]: the chain ends in a literal, so the result is a string. *)
Definition js_or_default (a : option string) (d : string) : string :=
  match js_or a (Some d) with Some s => s | None => d end.

Infix "||ₛ" := js_or (at level 50, left associativity) : vp_scope.

Lemma truthy_Some (a : string) : truthy (Some a) = true <-> a <> "".
Proof.
  unfold truthy. destruct (String.eqb_spec a ""); simpl; split; intros H; congruence.
Qed.

Lemma truthy_Some_false (a : string) : truthy (Some a) = false <-> a = "".
Proof.
  unfold truthy. destruct (String.eqb_spec a ""); simpl; split; intros H; congruence.
Qed.

Lemma js_or_default_truthy (s d : string) :
  s <> "" -> js_or_default (Some s) d = s.
Proof.
  intros Hs. unfold js_or_default, js_or, truthy.
  destruct (String.eqb_spec s ""); [contradiction | reflexivity].
Qed.

Lemma js_or_default_falsy (o : option string) (d : string) :
  truthy o = false -> js_or_default o d = d.
Proof. intros H. unfold js_or_default, js_or. now rewrite H. Qed.

Lemma js_or_truthy_l (a b : option string) : truthy a = true -> (a ||ₛ b) = a.
Proof. intros H. unfold js_or. now rewrite H. Qed.

Lemma js_or_falsy_l (a b : option string) : truthy a = false -> (a ||ₛ b) = b.
Proof. intros H. unfold js_or. now rewrite H. Qed.

#[export] Hint Rewrite js_or_truthy_l js_or_falsy_l using reflexivity : vp_rw.

(** [s.slice(0, n)] and [s.slice(-n)] (the whole string when it is
    shorter). *)
Definition slice_head (n : nat) (s : string) : string := String.substring 0 n s.
Definition slice_tail (n : nat) (s : string) : string :=
  String.substring (String.length s - n) n s.

(** [toLowerCase] on ASCII letters (the names it is applied to are ASCII). *)
Definition lower_ascii (c : ascii) : ascii :=
  let n := nat_of_ascii c in
  if (65 <=? n)%nat && (n <=? 90)%nat then ascii_of_nat (n + 32) else c.

Fixpoint to_lower (s : string) : string :=
  match s with EmptyString => EmptyString | String c s' => String (lower_ascii c) (to_lower s') end.

(** ** JavaScript's [Math.round] on exact rationals *)

(** [Math.round(x)] is [floor(x + 1/2)]: halves round towards +∞.
    Numbers are modelled as exact rationals, not IEEE doubles. *)
Definition js_round (q : Q) : Z := Qfloor (q + (1 # 2)).

(** [x.toFixed(d)] as the integer [n] it prints with [d] decimals
    ([n / 10^d]): the nearest such number, the larger one on a tie, the
    sign taken apart. *)
Definition js_to_fixed (d : nat) (q : Q) : Z :=
  let scale := inject_Z (10 ^ Z.of_nat d) in
  if Qle_bool 0 q then Qfloor (q * scale + (1 # 2)) else (- Qfloor (- q * scale + (1 # 2)))%Z.

Lemma js_round_lower (a : Z) (q : Q) : (inject_Z a <= q)%Q -> (a <= js_round q)%Z.
Proof.
  intros Ha. unfold js_round.
  pose proof (Qlt_floor (q + (1 # 2))) as Hlt.
  rewrite inject_Z_plus in Hlt. change (inject_Z 1) with 1%Q in Hlt.
  assert (inject_Z a < inject_Z (Qfloor (q + (1 # 2)) + 1))%Q as H.
  { rewrite inject_Z_plus. change (inject_Z 1) with 1%Q. lra. }
  rewrite <- Zlt_Qlt in H. lia.
Qed.

Lemma js_round_upper (b : Z) (q : Q) : (q <= inject_Z b)%Q -> (js_round q <= b)%Z.
Proof.
  intros Hb. unfold js_round.
  pose proof (Qfloor_le (q + (1 # 2))) as Hle.
  assert (inject_Z (Qfloor (q + (1 # 2))) < inject_Z (b + 1))%Q as H.
  { rewrite inject_Z_plus. change (inject_Z 1) with 1%Q. lra. }
  rewrite <- Zlt_Qlt in H. lia.
Qed.

(** The generic bound: rounding a rational between two integers stays
    between them. *)
Lemma js_round_bounds (a b : Z) (q : Q) :
  (inject_Z a <= q <= inject_Z b)%Q -> (a <= js_round q <= b)%Z.
Proof.
  intros [Ha Hb]. split; [apply js_round_lower | apply js_round_upper]; assumption.
Qed.

Lemma js_round_Z (z : Z) : js_round (inject_Z z) = z.
Proof.
  apply Z.le_antisymm; [apply js_round_upper | apply js_round_lower]; apply Qle_refl.
Qed.

Lemma js_round_mono (q1 q2 : Q) : (q1 <= q2)%Q -> (js_round q1 <= js_round q2)%Z.
Proof. intros H. unfold js_round. apply Qfloor_resp_le. lra. Qed.

(** An integer threshold is below [floor x] exactly when it is below [x]. *)
Lemma Qfloor_ge_iff (b : Z) (x : Q) : (b <= Qfloor x)%Z <-> (inject_Z b <= x)%Q.
Proof.
  split; intros H.
  - apply Qle_trans with (inject_Z (Qfloor x)); [|apply Qfloor_le].
    now rewrite <- Zle_Qle.
  - rewrite <- (Qfloor_Z b). now apply Qfloor_resp_le.
Qed.

Lemma Zleb_Qfloor (b : Z) (x : Q) : (b <=? Qfloor x)%Z = Qle_bool (inject_Z b) x.
Proof.
  destruct (Qle_bool _ _) eqn:E.
  - apply Z.leb_le, Qfloor_ge_iff, Qle_bool_iff, E.
  - apply Z.leb_gt. destruct (Z.lt_ge_cases (Qfloor x) b) as [H|H]; [exact H|].
    apply Qfloor_ge_iff, Qle_bool_iff in H. congruence.
Qed.

#[export] Hint Resolve js_round_bounds js_round_mono : vp.

(** ** Tactics *)

(** Case on every boolean test and [match] of the goal, simplifying as we go. *)
Ltac vp_case :=
  repeat (simpl in *; match goal with
  | |- context [if ?b then _ else _] => destruct b eqn:?
  | |- context [match ?x with _ => _ end] => destruct x eqn:?
  end); try discriminate; try congruence.
