(* ===== verification/Tier.v ===== *)
(** * Tier: the credibility-tier ladders of the frontend

    The frontend classifies a 0–100 score into five tiers in five places,
    each an inline chain of [>=] tests:
    - [src/unnamed/part_004] lines 9–19 ([ScoreCircle]: colour and title);
    - [src/unnamed/part_001] line 195 ([SubmitPage]), line 915
      ([ExplorerPage]);
    - [src/unnamed/part_002] lines 41–46 and 192 ([VerifierPage]).
    Each ladder is translated as written, and proved equal to one
    reference classifier [tier_of]; [tier_of] is proved to follow the
    spec's credibility levels (spec §4.4 step 9).  The ring geometry of
    [ScoreCircle] (lines 5–7) is modelled over the reals. *)

From Stdlib Require Import Reals Lra Qreals.
From Stdlib Require Import ZArith QArith Qround Lia Lqa.
From stdpp Require Import base decidable strings.
From S2P Require Import Prelude.

Local Open Scope string_scope.

Module Tier.

(** The five tiers, in decreasing order. *)
Inductive tier := Exceptional | Strong | Moderate | Developing | Minimal.

#[export] Instance tier_eq_dec : EqDecision tier.
Proof. solve_decision. Defined.

(** Rank used to compare tiers: [Minimal] is 0, [Exceptional] 4. *)
Definition tier_rank (t : tier) : nat :=
  match t with
  | Exceptional => 4 | Strong => 3 | Moderate => 2 | Developing => 1 | Minimal => 0
  end.

(** The reference ladder, on exact rationals. *)
Definition tier_of (s : Q) : tier :=
  if Qle_bool 90 s then Exceptional
  else if Qle_bool 70 s then Strong
  else if Qle_bool 50 s then Moderate
  else if Qle_bool 30 s then Developing
  else Minimal.

(** The lower-case CSS class names used by [SubmitPage], [ExplorerPage]
    and [VerifierPage]. *)
Definition tier_class (t : tier) : string :=
  match t with
  | Exceptional => "exceptional" | Strong => "strong" | Moderate => "moderate"
  | Developing => "developing" | Minimal => "minimal"
  end.

(** [ScoreCircle] lines 9–13: the ring colour. *)
Definition score_circle_color (score : Q) : string :=
  if Qle_bool 90 score then "var(--tier-exceptional)"
  else if Qle_bool 70 score then "var(--tier-strong)"
  else if Qle_bool 50 score then "var(--tier-moderate)"
  else if Qle_bool 30 score then "var(--tier-developing)"
  else "var(--tier-minimal)".

(** [ScoreCircle] lines 15–19: the capitalised title. *)
Definition score_circle_label (score : Q) : string :=
  if Qle_bool 90 score then "Exceptional"
  else if Qle_bool 70 score then "Strong"
  else if Qle_bool 50 score then "Moderate"
  else if Qle_bool 30 score then "Developing"
  else "Minimal".

(** [SubmitPage] line 195, on the integer score of line 194. *)
Definition submit_tier_label (score : Z) : string :=
  if (90 <=? score)%Z then "exceptional"
  else if (70 <=? score)%Z then "strong"
  else if (50 <=? score)%Z then "moderate"
  else if (30 <=? score)%Z then "developing"
  else "minimal".

(** JavaScript [a || b] on numbers: [undefined] and [0] are falsy. *)
Definition js_num_or (a : option Q) (b : Q) : Q :=
  match a with
  | Some x => if Qeq_bool x 0 then b else x
  | None => b
  end.

(** [ExplorerPage] lines 914–915: the card score and its tier. *)
Definition explorer_score (total_reputation credibility_score : option Q) : Z :=
  js_round (js_num_or total_reputation (js_num_or credibility_score 0)).

Definition explorer_tier (total_reputation credibility_score : option Q) : string :=
  let score := explorer_score total_reputation credibility_score in
  if (90 <=? score)%Z then "exceptional"
  else if (70 <=? score)%Z then "strong"
  else if (50 <=? score)%Z then "moderate"
  else if (30 <=? score)%Z then "developing"
  else "minimal".

(** [VerifierPage] lines 41–46: the label is empty while no data is
    loaded; an absent [credibility_score] compares false everywhere. *)
Definition verifier_tier_label (data_loaded : bool) (credibility_score : option Q) : string :=
  if data_loaded then
    match credibility_score with
    | Some cs =>
        if Qle_bool 90 cs then "exceptional"
        else if Qle_bool 70 cs then "strong"
        else if Qle_bool 50 cs then "moderate"
        else if Qle_bool 30 cs then "developing"
        else "minimal"
    | None => "minimal"
    end
  else "".

(** [VerifierPage] lines 191–192: a record's score with [?? 0]. *)
Definition record_tier (score : option Q) : string :=
  let rScore := match score with Some s => s | None => 0%Q end in
  if Qle_bool 90 rScore then "exceptional"
  else if Qle_bool 70 rScore then "strong"
  else if Qle_bool 50 rScore then "moderate"
  else if Qle_bool 30 rScore then "developing"
  else "minimal".

(** The spec's credibility level of a total reputation (spec §4.4 step 9):
    each band is given by its two bounds, lower bound inclusive. *)
Definition spec_level (r : Q) : tier :=
  if Qle_bool 90 r then Exceptional
  else if Qle_bool 70 r && negb (Qle_bool 90 r) then Strong
  else if Qle_bool 50 r && negb (Qle_bool 70 r) then Moderate
  else if Qle_bool 30 r && negb (Qle_bool 50 r) then Developing
  else Minimal.

(** [ScoreCircle] lines 5–7: ring radius, circumference and dash offset. *)
Definition ring_radius (size : R) : R := ((size - 12) / 2)%R.
Definition ring_circumference (size : R) : R := (2 * PI * ring_radius size)%R.
Definition ring_offset (size score : R) : R :=
  (ring_circumference size - (score / 100) * ring_circumference size)%R.

(** [ScoreCircle] lines 4 and 21–52: what it draws; [size] and [label]
    default to 120 and ["Score"]. *)
Record circle := {
  c_size : R; c_r : R; c_cx : R; c_cy : R; c_stroke_width : R;
  c_bg_stroke : string; c_fill_stroke : string;
  c_dash : R * R; c_offset : R;
  c_number : Q; c_number_color : string; c_label : string
}.

Definition score_circle (score : Q) (size : R) (label : string) : circle :=
  {| c_size := size; c_r := ring_radius size; c_cx := (size / 2)%R; c_cy := (size / 2)%R;
     c_stroke_width := 4%R; c_bg_stroke := "var(--border-subtle)";
     c_fill_stroke := score_circle_color score;
     c_dash := (ring_circumference size, ring_circumference size);
     c_offset := ring_offset size (Q2R score);
     c_number := score; c_number_color := score_circle_color score; c_label := label |}.

Definition score_circle_default (score : Q) : circle := score_circle score 120 "Score".

(** ** Lemmas *)

Lemma Qle_bool_Z (a b : Z) : Qle_bool (inject_Z a) (inject_Z b) = (a <=? b)%Z.
Proof.
  destruct (Qle_bool _ _) eqn:E; symmetry.
  - apply Qle_bool_iff in E. rewrite <- Zle_Qle in E. now apply Z.leb_le.
  - apply Z.leb_gt. destruct (Z.lt_ge_cases b a) as [H|H]; [exact H|].
    rewrite Zle_Qle, <- Qle_bool_iff in H. congruence.
Qed.

Lemma Qle_bool_le (a b : Q) : Qle_bool a b = true <-> (a <= b)%Q.
Proof. apply Qle_bool_iff. Qed.

Lemma Qle_bool_gt (a b : Q) : Qle_bool a b = false <-> (b < a)%Q.
Proof.
  split; intros H.
  - apply Qnot_le_lt. intros H'. apply Qle_bool_iff in H'. congruence.
  - destruct (Qle_bool a b) eqn:E; [|reflexivity].
    apply Qle_bool_iff in E. exfalso. apply (Qlt_not_le _ _ H E).
Qed.

(** Unfold the ladders and split on each of their tests. *)
Ltac ladder :=
  repeat match goal with
  | |- context [Qle_bool ?a ?b] =>
      let E := fresh "E" in destruct (Qle_bool a b) eqn:E;
      [apply Qle_bool_le in E | apply Qle_bool_gt in E]
  end; simpl; try reflexivity; try (exfalso; lra).

Lemma tier_of_Z (z : Z) :
  tier_of (inject_Z z) =
  if (90 <=? z)%Z then Exceptional else if (70 <=? z)%Z then Strong
  else if (50 <=? z)%Z then Moderate else if (30 <=? z)%Z then Developing
  else Minimal.
Proof.
  unfold tier_of.
  rewrite <- (Qle_bool_Z 90), <- (Qle_bool_Z 70), <- (Qle_bool_Z 50), <- (Qle_bool_Z 30).
  reflexivity.
Qed.

(** The capitalised titles and ring colours of [ScoreCircle], per tier. *)
Definition tier_title (t : tier) : string :=
  match t with
  | Exceptional => "Exceptional" | Strong => "Strong" | Moderate => "Moderate"
  | Developing => "Developing" | Minimal => "Minimal"
  end.

Definition tier_color (t : tier) : string := "var(--tier-" ++ tier_class t ++ ")".

Lemma Qle_bool_inject_Z (a : Z) (q : Q) :
  Qle_bool (inject_Z a) q = true <-> (inject_Z a <= q)%Q.
Proof. apply Qle_bool_iff. Qed.

(** Classifying [floor x] is classifying [x]: the thresholds are integers. *)
Lemma tier_of_floor (x : Q) : tier_of (inject_Z (Qfloor x)) = tier_of x.
Proof. rewrite tier_of_Z, !Zleb_Qfloor. reflexivity. Qed.

Lemma score_circle_color_tier (q : Q) : score_circle_color q = tier_color (tier_of q).
Proof. unfold score_circle_color, tier_of. repeat destruct (Qle_bool _ _); reflexivity. Qed.

Lemma submit_tier_label_class (z : Z) : submit_tier_label z = tier_class (tier_of (inject_Z z)).
Proof.
  rewrite tier_of_Z. unfold submit_tier_label. repeat destruct (_ <=? _)%Z; reflexivity.
Qed.

Lemma explorer_tier_label (a b : option Q) :
  explorer_tier a b = submit_tier_label (explorer_score a b).
Proof. reflexivity. Qed.

(** The reference ladder is the spec's credibility level. *)
Lemma tier_of_spec_level (r : Q) : tier_of r = spec_level r.
Proof. unfold tier_of, spec_level. ladder. Qed.

(** A score just below a tier threshold, by less than one half. *)
Definition half_band (r : Q) : Prop :=
  exists b : Z, (b = 30 \/ b = 50 \/ b = 70 \/ b = 90)%Z /\
    (inject_Z b - (1 # 2) <= r < inject_Z b)%Q.

(** Rounding before classifying moves a score up one tier exactly on the
    half-open bands [b - 1/2, b) below each threshold b ∈ {30, 50, 70, 90}. *)
Lemma round_tier_shift (r : Q) :
  tier_of (inject_Z (js_round r)) <> tier_of r <->
  half_band r.
Proof.
  unfold half_band, js_round. rewrite tier_of_floor. unfold tier_of.
  ladder; split; intros H;
  try (exfalso; apply H; reflexivity);
  try (destruct H as (b & Hb & Hr1 & Hr2);
       destruct Hb as [Hb | [Hb | [Hb | Hb]]]; subst b; unfold inject_Z in *;
       exfalso; lra);
  try discriminate;
  first [ exists 90%Z; unfold inject_Z; split; [lia | split; lra]
        | exists 70%Z; unfold inject_Z; split; [lia | split; lra]
        | exists 50%Z; unfold inject_Z; split; [lia | split; lra]
        | exists 30%Z; unfold inject_Z; split; [lia | split; lra] ].
Qed.

Lemma tier_class_inj (a b : tier) : tier_class a <> tier_class b <-> a <> b.
Proof. destruct a, b; split; intros H; solve [discriminate | congruence | now exfalso]. Qed.

Lemma tier_color_inj (a b : tier) : tier_color a <> tier_color b <-> a <> b.
Proof. destruct a, b; split; intros H; solve [discriminate | congruence | now exfalso]. Qed.

(** [p.total_reputation || p.credibility_score || 0] with a reputation
    [r]: a reputation of [0] falls through to [0] as well. *)
Lemma explorer_score_some (r : Q) : explorer_score (Some r) None = js_round r.
Proof.
  unfold explorer_score, js_num_or. simpl. destruct (Qeq_bool r 0) eqn:E; [|reflexivity].
  apply Qeq_bool_iff in E. unfold js_round. apply Qfloor_comp. now rewrite E.
Qed.

(** ** Theorems *)

(** C6: The five inline ladders of the frontend (ScoreCircle's colour and
    title, SubmitPage's label, VerifierPage's header and record labels)
    classify every score exactly as the spec's credibility levels do
    (spec §4.4 step 9: exceptional from 90, strong on [70,90), moderate on
    [50,70), developing on [30,50), minimal below 30). *)
Theorem ui_ladders_agree (q : Q) (z : Z) :
  score_circle_color q = tier_color (spec_level q) /\
  score_circle_label q = tier_title (spec_level q) /\
  verifier_tier_label true (Some q) = tier_class (spec_level q) /\
  record_tier (Some q) = tier_class (spec_level q) /\
  submit_tier_label z = tier_class (spec_level (inject_Z z)).
Proof.
  rewrite <- !tier_of_spec_level, score_circle_color_tier, submit_tier_label_class.
  unfold score_circle_label, verifier_tier_label, record_tier, tier_of.
  repeat split; repeat destruct (Qle_bool _ _); reflexivity.
Qed.

Lemma tier_rank_mono (q1 q2 : Q) :
  (q1 <= q2)%Q -> (tier_rank (tier_of q1) <= tier_rank (tier_of q2))%nat.
Proof. intros H. unfold tier_of. ladder; lia. Qed.

(** C22: The Explorer's card tier and the Dashboard's score ring classify
    the rounded reputation, so they differ from the spec's credibility
    level of the reputation exactly on the half-open bands [b - 1/2, b)
    below each threshold b ∈ {30, 50, 70, 90}: a reputation of 89.5 is
    shown as exceptional while its level is strong. *)
Theorem round_then_classify_shift (r : Q) :
  (explorer_tier (Some r) None <> tier_class (spec_level r) <-> half_band r) /\
  (score_circle_color (inject_Z (js_round r)) <> tier_color (spec_level r) <-> half_band r).
Proof.
  rewrite explorer_tier_label, explorer_score_some, submit_tier_label_class,
    score_circle_color_tier, <- !tier_of_spec_level, tier_class_inj, tier_color_inj.
  split; apply round_tier_shift.
Qed.

(** For a ring wider than its 12-pixel stroke margin and a score in
    [0, 100], ScoreCircle's dash offset lies between 0 (full ring) and the
    circumference (empty ring); a score above 100 gives a negative offset. *)
Theorem ring_offset_bounds (size score : R) :
  (12 < size)%R ->
  ((0 <= score <= 100)%R -> (0 <= ring_offset size score <= ring_circumference size)%R) /\
  ((100 < score)%R -> (ring_offset size score < 0)%R).
Proof.
  intros Hs. unfold ring_offset, ring_circumference, ring_radius.
  pose proof PI_RGT_0 as Hpi.
  assert (0 < 2 * PI * ((size - 12) / 2))%R as Hc
    by (apply Rmult_lt_0_compat; Lra.lra).
  set (c := (2 * PI * ((size - 12) / 2))%R) in *.
  split.
  - intros [H0 H1]. split.
    + assert (score / 100 * c <= c)%R.
      { replace c with (1 * c)%R at 2 by ring.
        apply Rmult_le_compat_r; Lra.lra. }
      Lra.lra.
    + assert (0 <= score / 100 * c)%R by (apply Rmult_le_pos; Lra.lra). Lra.lra.
  - intros H. assert (c < score / 100 * c)%R.
    { replace c with (1 * c)%R at 1 by ring. apply Rmult_lt_compat_r; Lra.lra. }
    Lra.lra.
Qed.

(** ScoreCircle draws both circles, stroke included, inside its
    [size] x [size] box with a 4-pixel margin on every side, centred,
    with a positive radius whenever the box is wider than 12 pixels; the
    ring and the number are drawn in the same tier colour. *)
Theorem score_circle_fits (score : Q) (size : R) (label : string) :
  (12 < size)%R ->
  let c := score_circle score size label in
  (0 < c_r c)%R /\ c_cx c = c_cy c /\
  (c_cx c - (c_r c + c_stroke_width c / 2) = 4)%R /\
  (c_cx c + c_r c + c_stroke_width c / 2 = size - 4)%R /\
  c_fill_stroke c = c_number_color c.
Proof.
  intros Hs. simpl. unfold ring_radius.
  repeat split; [Lra.lra | Lra.lra | Lra.lra].
Qed.

(** ** Witnesses *)

Lemma score_circle_fits_witness :
  (12 < 120)%R /\ (0 < c_r (score_circle_default 87))%R.
Proof.
  assert (H : (12 < 120)%R) by Lra.lra.
  split; [exact H | exact (proj1 (score_circle_fits 87 120 "Score" H))].
Defined.

Lemma ring_offset_bounds_witness :
  (0 <= ring_offset 130 80 <= ring_circumference 130)%R /\ (ring_offset 130 120 < 0)%R.
Proof.
  destruct (ring_offset_bounds 130 80 ltac:(Lra.lra)) as [H1 _].
  destruct (ring_offset_bounds 130 120 ltac:(Lra.lra)) as [_ H2].
  split; [apply H1; Lra.lra | apply H2; Lra.lra].
Defined.

(** A total reputation of 89.5: the rounded ring shows exceptional while
    the spec's level is strong. *)
Example dashboard_boundary_example :
  tier_of (inject_Z (js_round (179 # 2))) = Exceptional /\ spec_level (179 # 2) = Strong.
Proof. split; reflexivity. Qed.

End Tier.
