(* ===== verification/Codec.v ===== *)
(** * Codec: the ARC-4 wire format of skill records

    The contract stores, per wallet, a blob of records
    [[2B BE length][ARC-4 struct]] appended one after another (spec §4.1,
    §6).  The struct is the ARC-4 tuple
    [(string mode, string domain, uint64 score, string artifact_hash,
    uint64 timestamp)]: a 22-byte head (2-byte offsets for the strings,
    8-byte big-endian integers) and a tail holding each string as
    [[2B BE length][UTF-8 bytes]] at its offset, offsets counted from the
    start of the struct.  The encoder lives in the contract and the
    decoder in [backend/core/arc4_decoder.py], neither in the sources: this
    file states their format from the spec, as the specification that the
    records built by the Submit page ([Submit.record_of_args]) are checked
    against; it translates no source lines.  Bytes are [Init.Byte.byte]; integers are
    [Z] kept at their width by the encoder's [mod 256^n]. *)

From Stdlib Require Import ZArith Lia List String.
From Stdlib Require Strings.Byte.
From stdpp Require Import base decidable.
From S2P Require Import Prelude.
Import ListNotations.

Module Codec.

Abbreviation byte := Init.Byte.byte.

(** ** Bytes and big-endian integers *)

Definition byte_val (b : byte) : Z := Z.of_N (Byte.to_N b).

Definition byte_of_Z (z : Z) : byte :=
  match Byte.of_N (Z.to_N (z mod 256)) with Some b => b | None => Byte.x00 end.

(** [n] bytes, most significant first, of [z mod 256^n]. *)
Fixpoint be_encode (n : nat) (z : Z) : list byte :=
  match n with
  | O => []
  | S n' => be_encode n' (z / 256)%Z ++ [byte_of_Z z]
  end.

(** The unsigned value of a big-endian byte string. *)
Definition be_decode (bs : list byte) : Z :=
  fold_left (fun acc b => (acc * 256 + byte_val b)%Z) bs 0%Z.

(** [bs[k : k + n]] *)
Definition sub (k n : nat) (bs : list byte) : list byte := firstn n (skipn k bs).

Lemma byte_val_range (b : byte) : (0 <= byte_val b < 256)%Z.
Proof.
  unfold byte_val. pose proof (Byte.to_N_bounded b). lia.
Qed.

Lemma byte_val_of_Z (z : Z) : byte_val (byte_of_Z z) = (z mod 256)%Z.
Proof.
  unfold byte_of_Z, byte_val.
  pose proof (Z.mod_pos_bound z 256 ltac:(lia)) as Hr.
  pose proof (Byte.to_of_N_option_map (Z.to_N (z mod 256))) as H.
  replace (N.leb (Z.to_N (z mod 256)) 255) with true in H
    by (symmetry; apply N.leb_le; lia).
  destruct (Byte.of_N _) as [b|]; simpl in H; [|discriminate].
  injection H as H. rewrite H. lia.
Qed.

Lemma byte_of_Z_val (b : byte) : byte_of_Z (byte_val b) = b.
Proof.
  unfold byte_of_Z, byte_val. pose proof (Byte.to_N_bounded b).
  rewrite Z.mod_small by lia. rewrite N2Z.id, Byte.of_to_N. reflexivity.
Qed.

Lemma be_encode_length (n : nat) (z : Z) : length (be_encode n z) = n.
Proof.
  revert z. induction n as [|n IH]; intros z; simpl; [reflexivity|].
  rewrite length_app, IH. simpl. lia.
Qed.

Lemma be_decode_snoc (bs : list byte) (b : byte) :
  be_decode (bs ++ [b]) = (be_decode bs * 256 + byte_val b)%Z.
Proof. unfold be_decode. now rewrite fold_left_app. Qed.

Lemma be_decode_encode (n : nat) (z : Z) :
  be_decode (be_encode n z) = (z mod 256 ^ Z.of_nat n)%Z.
Proof.
  revert z. induction n as [|n IH]; intros z.
  - simpl. now rewrite Z.mod_1_r.
  - simpl be_encode. rewrite be_decode_snoc, IH, byte_val_of_Z.
    rewrite Nat2Z.inj_succ, Z.pow_succ_r by lia.
    rewrite (Z.rem_mul_r z 256 (256 ^ Z.of_nat n)) by (try apply Z.pow_pos_nonneg; lia).
    lia.
Qed.

(** An in-range value survives encoding. *)
Lemma be_decode_encode_small (n : nat) (z : Z) :
  (0 <= z < 256 ^ Z.of_nat n)%Z -> be_decode (be_encode n z) = z.
Proof. intros H. rewrite be_decode_encode. now apply Z.mod_small. Qed.

Lemma be_decode_range (bs : list byte) :
  (0 <= be_decode bs < 256 ^ Z.of_nat (length bs))%Z.
Proof.
  induction bs as [|b bs IH] using rev_ind.
  - unfold be_decode. cbn. lia.
  - rewrite be_decode_snoc, length_app, Nat2Z.inj_add, Z.pow_add_r by lia.
    pose proof (byte_val_range b). simpl (Z.of_nat (length [b])). nia.
Qed.

Lemma skipn_app_exact (a b : list byte) (k : nat) :
  k = length a -> skipn k (a ++ b) = b.
Proof. intros ->. rewrite skipn_app, skipn_all, Nat.sub_diag. reflexivity. Qed.

Lemma firstn_app_exact (a b : list byte) (k : nat) :
  k = length a -> firstn k (a ++ b) = a.
Proof. intros ->. rewrite firstn_app, Nat.sub_diag, firstn_all. apply app_nil_r. Qed.

Lemma sub_app (a b c : list byte) (k n : nat) :
  k = length a -> n = length b -> sub k n (a ++ b ++ c) = b.
Proof.
  intros Hk Hn. unfold sub. rewrite (skipn_app_exact a) by exact Hk.
  now apply firstn_app_exact.
Qed.

#[export] Hint Rewrite be_encode_length be_decode_snoc byte_val_of_Z byte_of_Z_val : vp_rw.

(** ** UTF-8 validity (RFC 3629, as Python's strict [bytes.decode]) *)

Definition in_range (lo hi : Z) (b : byte) : bool :=
  (lo <=? byte_val b)%Z && (byte_val b <=? hi)%Z.

Definition cont (b : byte) : bool := in_range 0x80 0xBF b.

(** Shortest forms only: no overlong sequences, no surrogates
    ([ED A0..BF]), nothing above U+10FFFF. *)
Fixpoint utf8_valid (bs : list byte) : bool :=
  match bs with
  | [] => true
  | b :: rest =>
      let v := byte_val b in
      if (v <=? 0x7F)%Z then utf8_valid rest
      else if (0xC2 <=? v)%Z && (v <=? 0xDF)%Z then
        match rest with
        | c1 :: r => cont c1 && utf8_valid r
        | [] => false
        end
      else if (0xE0 <=? v)%Z && (v <=? 0xEF)%Z then
        match rest with
        | c1 :: c2 :: r =>
            in_range (if (v =? 0xE0)%Z then 0xA0 else 0x80)
                     (if (v =? 0xED)%Z then 0x9F else 0xBF) c1
            && cont c2 && utf8_valid r
        | _ => false
        end
      else if (0xF0 <=? v)%Z && (v <=? 0xF4)%Z then
        match rest with
        | c1 :: c2 :: c3 :: r =>
            in_range (if (v =? 0xF0)%Z then 0x90 else 0x80)
                     (if (v =? 0xF4)%Z then 0x8F else 0xBF) c1
            && cont c2 && cont c3 && utf8_valid r
        | _ => false
        end
      else false
  end.

(** ** Records and decode errors *)

(** One attestation (spec §3).  The string fields hold their UTF-8 bytes. *)
Record SkillRecord := mkRecord {
  mode : list byte;
  domain : list byte;
  score : Z;
  artifact_hash : list byte;
  timestamp : Z
}.

(** The decoder's error taxonomy (spec §4.1, §7). *)
Inductive DecodeError :=
| TruncatedRecordError
| InvalidOffsetError
| Utf8DecodeError
| FieldBoundsError.

#[export] Instance DecodeError_eq_dec : EqDecision DecodeError.
Proof. solve_decision. Defined.

(** ** Encoder *)

(** Size of the struct head: three 2-byte offsets and two uint64. *)
Definition head_size : nat := 22.

(** An ARC-4 string: 2-byte big-endian length, then the bytes. *)
Definition encode_string (s : list byte) : list byte :=
  be_encode 2 (Z.of_nat (length s)) ++ s.

Definition encode_struct (r : SkillRecord) : list byte :=
  let m := encode_string (mode r) in
  let d := encode_string (domain r) in
  let h := encode_string (artifact_hash r) in
  let mode_off := head_size in
  let domain_off := (mode_off + length m)%nat in
  let hash_off := (domain_off + length d)%nat in
  be_encode 2 (Z.of_nat mode_off) ++ be_encode 2 (Z.of_nat domain_off) ++
  be_encode 8 (score r) ++ be_encode 2 (Z.of_nat hash_off) ++
  be_encode 8 (timestamp r) ++ m ++ d ++ h.

(** One stored record: the struct behind its 2-byte length. *)
Definition encode_record (r : SkillRecord) : list byte :=
  let s := encode_struct r in be_encode 2 (Z.of_nat (length s)) ++ s.

(** ** Decoder *)

Definition read_uint (s : list byte) (k n : nat) : Z := be_decode (sub k n s).

(** The string whose 2-byte length sits at [off]; the length field and the
    payload must both lie inside the struct. *)
Definition read_string (s : list byte) (off : Z) : result DecodeError (list byte) :=
  let o := Z.to_nat off in
  if length s <? o + 2 then Err InvalidOffsetError else
  let n := Z.to_nat (read_uint s o 2) in
  if length s <? o + 2 + n then Err InvalidOffsetError else
  let payload := sub (o + 2) n s in
  if utf8_valid payload then Ok payload else Err Utf8DecodeError.

Definition decode_struct (s : list byte) : result DecodeError SkillRecord :=
  if length s <? head_size then Err TruncatedRecordError else
  m ← read_string s (read_uint s 0 2);
  d ← read_string s (read_uint s 2 2);
  h ← read_string s (read_uint s 12 2);
  let sc := read_uint s 4 8 in
  if (100 <? sc)%Z then Err FieldBoundsError else
  Ok (mkRecord m d sc h (read_uint s 14 8)).

(** Consume one [[2B length][struct]] frame from the front of the blob. *)
Definition decode_record (bs : list byte) : result DecodeError (SkillRecord * list byte) :=
  if length bs <? 2 then Err TruncatedRecordError else
  let n := Z.to_nat (read_uint bs 0 2) in
  if length bs <? 2 + n then Err TruncatedRecordError else
  r ← decode_struct (sub 2 n bs);
  Ok (r, skipn (2 + n) bs).

(** The records the encoder can store and the decoder gives back: valid
    UTF-8 strings, the spec's score range, a uint64 timestamp, and a struct
    short enough for the 2-byte frame length. *)
Definition record_wf (r : SkillRecord) : bool :=
  utf8_valid (mode r) && utf8_valid (domain r) && utf8_valid (artifact_hash r) &&
  (0 <=? score r)%Z && (score r <=? 100)%Z &&
  (0 <=? timestamp r)%Z && (timestamp r <? 2 ^ 64)%Z &&
  (Z.of_nat (length (encode_struct r)) <? 65536)%Z.

(** ** Lemmas on the layout *)

Lemma encode_string_length (x : list byte) :
  length (encode_string x) = (2 + length x)%nat.
Proof. unfold encode_string. rewrite length_app, be_encode_length. reflexivity. Qed.

Lemma encode_struct_length (r : SkillRecord) :
  length (encode_struct r) =
    (28 + length (mode r) + length (domain r) + length (artifact_hash r))%nat.
Proof.
  unfold encode_struct. rewrite !length_app, !be_encode_length, !encode_string_length.
  unfold head_size. lia.
Qed.

Lemma read_uint_at (pre x post : list byte) (k n : nat) :
  k = length pre -> n = length x -> read_uint (pre ++ x ++ post) k n = be_decode x.
Proof. intros Hk Hn. unfold read_uint. now rewrite sub_app. Qed.

Lemma read_uint_be (pre post : list byte) (k n : nat) (z : Z) :
  k = length pre -> (0 <= z < 256 ^ Z.of_nat n)%Z ->
  read_uint (pre ++ be_encode n z ++ post) k n = z.
Proof.
  intros Hk Hz. rewrite read_uint_at by (rewrite ?be_encode_length; auto).
  now apply be_decode_encode_small.
Qed.

(** Reading the string stored at offset [o]. *)
Lemma read_string_at (s : list byte) (o : nat) (x rest : list byte) :
  skipn o s = encode_string x ++ rest -> (Z.of_nat (length x) < 65536)%Z ->
  read_string s (Z.of_nat o) = if utf8_valid x then Ok x else Err Utf8DecodeError.
Proof.
  intros Hs Hx. unfold read_string. rewrite Nat2Z.id.
  assert (Hlen : length s = (o + 2 + length x + length rest)%nat).
  { assert (length (skipn o s) = (2 + length x + length rest)%nat) as L
      by (rewrite Hs, length_app, encode_string_length; lia).
    rewrite List.length_skipn in L. lia. }
  assert (Hn : read_uint s o 2 = Z.of_nat (length x)).
  { unfold read_uint, sub. rewrite Hs. unfold encode_string.
    rewrite <- app_assoc, firstn_app_exact by (now rewrite be_encode_length).
    apply be_decode_encode_small. simpl. lia. }
  rewrite Hn, Nat2Z.id.
  replace (length s <? o + 2) with false by (symmetry; apply Nat.ltb_ge; lia).
  replace (length s <? o + 2 + length x) with false by (symmetry; apply Nat.ltb_ge; lia).
  assert (Hp : sub (o + 2) (length x) s = x).
  { unfold sub. rewrite Nat.add_comm, <- skipn_skipn, Hs. unfold encode_string.
    rewrite <- app_assoc, skipn_app_exact by (now rewrite be_encode_length).
    now apply firstn_app_exact. }
  now rewrite Hp.
Qed.

Lemma record_wf_iff (r : SkillRecord) :
  record_wf r = true <->
  utf8_valid (mode r) = true /\ utf8_valid (domain r) = true /\
  utf8_valid (artifact_hash r) = true /\ (0 <= score r <= 100)%Z /\
  (0 <= timestamp r < 2 ^ 64)%Z /\ (Z.of_nat (length (encode_struct r)) < 65536)%Z.
Proof.
  unfold record_wf. rewrite !andb_true_iff, !Z.leb_le, !Z.ltb_lt. tauto.
Qed.

(** The encoded struct of [r], with its three strings and offsets named. *)
Lemma encode_struct_eq (r : SkillRecord) :
  encode_struct r =
  be_encode 2 (Z.of_nat 22) ++
  be_encode 2 (Z.of_nat (22 + length (encode_string (mode r)))) ++
  be_encode 8 (score r) ++
  be_encode 2 (Z.of_nat (22 + length (encode_string (mode r))
                            + length (encode_string (domain r)))) ++
  be_encode 8 (timestamp r) ++
  encode_string (mode r) ++ encode_string (domain r) ++ encode_string (artifact_hash r).
Proof. reflexivity. Qed.

(** The decoder's verdict on an encoded struct whose integers fit their
    widths: UTF-8 errors first, then the score bound, else the record. *)
Lemma decode_encode_struct_cases (r : SkillRecord) :
  (0 <= score r < 2 ^ 64)%Z -> (0 <= timestamp r < 2 ^ 64)%Z ->
  (Z.of_nat (length (encode_struct r)) < 65536)%Z ->
  decode_struct (encode_struct r) =
    if utf8_valid (mode r) && utf8_valid (domain r) && utf8_valid (artifact_hash r)
    then (if (100 <? score r)%Z then Err FieldBoundsError else Ok r)
    else Err Utf8DecodeError.
Proof.
  intros Hsc Hts Hlen.
  rewrite encode_struct_length in Hlen.
  unfold decode_struct. rewrite encode_struct_eq.
  set (M := encode_string (mode r)). set (D := encode_string (domain r)).
  set (H := encode_string (artifact_hash r)).
  assert (LM : length M = (2 + length (mode r))%nat) by apply encode_string_length.
  assert (LD : length D = (2 + length (domain r))%nat) by apply encode_string_length.
  assert (LH : length H = (2 + length (artifact_hash r))%nat) by apply encode_string_length.
  set (o2 := Z.of_nat (22 + length M)). set (o3 := Z.of_nat (22 + length M + length D)).
  set (S := be_encode 2 (Z.of_nat 22) ++ be_encode 2 o2 ++ be_encode 8 (score r) ++
            be_encode 2 o3 ++ be_encode 8 (timestamp r) ++ M ++ D ++ H).
  assert (LS : length S = (22 + length M + length D + length H)%nat)
    by (unfold S; rewrite !length_app, !be_encode_length; lia).
  replace (length S <? head_size) with false by (symmetry; apply Nat.ltb_ge; unfold head_size; lia).
  assert (R0 : read_uint S 0 2 = Z.of_nat 22)
    by (apply (read_uint_be []); [reflexivity | simpl; lia]).
  assert (R2 : read_uint S 2 2 = o2)
    by (apply (read_uint_be (be_encode 2 _)); [reflexivity | unfold o2; simpl; lia]).
  assert (R4 : read_uint S 4 8 = score r).
  { unfold S. rewrite (app_assoc (be_encode 2 _)).
    apply read_uint_be; [reflexivity | simpl; lia]. }
  assert (R12 : read_uint S 12 2 = o3).
  { unfold S. rewrite (app_assoc (be_encode 2 _)), (app_assoc (_ ++ _)).
    apply read_uint_be; [rewrite !length_app, !be_encode_length; reflexivity
                        | unfold o3; simpl; lia]. }
  assert (R14 : read_uint S 14 8 = timestamp r).
  { unfold S. rewrite (app_assoc (be_encode 2 _)), (app_assoc (_ ++ _)), (app_assoc (_ ++ _)).
    apply read_uint_be; [rewrite !length_app, !be_encode_length; reflexivity | simpl; lia]. }
  assert (SM : skipn 22 S = M ++ D ++ H).
  { replace S with ((be_encode 2 (Z.of_nat 22) ++ be_encode 2 o2 ++ be_encode 8 (score r) ++
                      be_encode 2 o3 ++ be_encode 8 (timestamp r)) ++ (M ++ D ++ H))
      by (unfold S; now rewrite <- !app_assoc).
    apply skipn_app_exact. rewrite !length_app, !be_encode_length. reflexivity. }
  assert (SD : skipn (22 + length M) S = D ++ H).
  { rewrite Nat.add_comm, <- skipn_skipn, SM. now apply skipn_app_exact. }
  assert (SH : skipn (22 + length M + length D) S = H ++ []).
  { rewrite Nat.add_comm, <- skipn_skipn, SD, app_nil_r. now apply skipn_app_exact. }
  rewrite R0, (read_string_at S 22 (mode r) (D ++ H)) by (auto; lia).
  destruct (utf8_valid (mode r)); [|reflexivity]. cbn [mbind result_bind].
  rewrite R2. unfold o2. rewrite (read_string_at S _ (domain r) H) by (auto; lia).
  destruct (utf8_valid (domain r)); [|reflexivity]. cbn [mbind result_bind].
  rewrite R12. unfold o3. rewrite (read_string_at S _ (artifact_hash r) []) by (auto; lia).
  destruct (utf8_valid (artifact_hash r)); [|reflexivity]. cbn [mbind result_bind andb].
  rewrite R4, R14. destruct (100 <? score r)%Z; [reflexivity|].
  destruct r; reflexivity.
Qed.

Lemma decode_encode_struct (r : SkillRecord) :
  record_wf r = true -> decode_struct (encode_struct r) = Ok r.
Proof.
  intros Hwf. apply record_wf_iff in Hwf.
  destruct Hwf as (Hm & Hd & Hh & Hsc & Hts & Hlen).
  rewrite decode_encode_struct_cases by (auto; lia). rewrite Hm, Hd, Hh.
  replace (100 <? score r)%Z with false by (symmetry; apply Z.ltb_ge; lia).
  reflexivity.
Qed.

(** Decoding the frame of an encoded record decodes its struct and leaves
    the rest of the blob untouched. *)
Lemma decode_encode_record_frame (r : SkillRecord) (rest : list byte) :
  (Z.of_nat (length (encode_struct r)) < 65536)%Z ->
  decode_record (encode_record r ++ rest) =
    (x ← decode_struct (encode_struct r); Ok (x, rest)).
Proof.
  intros Hlen. unfold decode_record, encode_record.
  set (S := encode_struct r) in *.
  rewrite <- app_assoc.
  assert (L : length (be_encode 2 (Z.of_nat (length S)) ++ S ++ rest) =
              (2 + length S + length rest)%nat)
    by (rewrite !length_app, be_encode_length; lia).
  rewrite L.
  replace (2 + length S + length rest <? 2) with false by (symmetry; apply Nat.ltb_ge; lia).
  assert (R : read_uint (be_encode 2 (Z.of_nat (length S)) ++ S ++ rest) 0 2 =
              Z.of_nat (length S))
    by (apply (read_uint_be []); [reflexivity | change (256 ^ Z.of_nat 2)%Z with 65536%Z; lia]).
  rewrite R, Nat2Z.id.
  replace (2 + length S + length rest <? 2 + length S) with false
    by (symmetry; apply Nat.ltb_ge; lia).
  rewrite sub_app by (rewrite ?be_encode_length; reflexivity).
  rewrite app_assoc, skipn_app_exact; [reflexivity|].
  rewrite length_app, be_encode_length. reflexivity.
Qed.

Lemma decode_encode_record (r : SkillRecord) (rest : list byte) :
  record_wf r = true -> decode_record (encode_record r ++ rest) = Ok (r, rest).
Proof.
  intros Hwf. pose proof Hwf as Hw. apply record_wf_iff in Hw.
  rewrite decode_encode_record_frame by tauto.
  now rewrite decode_encode_struct.
Qed.

(** Each decoded frame consumes at least its 2-byte length. *)
Lemma decode_record_progress (bs : list byte) (r : SkillRecord) (rest : list byte) :
  decode_record bs = Ok (r, rest) -> (length rest < length bs)%nat.
Proof.
  unfold decode_record. intros E.
  destruct (length bs <? 2) eqn:E1; [discriminate|]. apply Nat.ltb_ge in E1.
  destruct (length bs <? _) eqn:E2; [discriminate|].
  destruct (decode_struct _); simpl in E; [|discriminate].
  injection E as <- <-. rewrite List.length_skipn. lia.
Qed.

(** ** The interface of a record format *)

(** What the blob decoder needs of a record format: an encoder, a decoder
    that consumes one record from the front of a byte string, the records
    the encoder handles, their round trip, and progress of the decoder. *)
Class RecordCodec (A : Type) := {
  rc_encode : A -> list byte;
  rc_decode : list byte -> result DecodeError (A * list byte);
  rc_valid : A -> bool;
  rc_decode_encode : forall a rest,
    rc_valid a = true -> rc_decode (rc_encode a ++ rest) = Ok (a, rest);
  rc_progress : forall bs a rest,
    rc_decode bs = Ok (a, rest) -> (length rest < length bs)%nat
}.

#[export] Instance skill_record_codec : RecordCodec SkillRecord := {
  rc_encode := encode_record;
  rc_decode := decode_record;
  rc_valid := record_wf;
  rc_decode_encode := decode_encode_record;
  rc_progress := decode_record_progress
}.

(** ** Blobs: records appended one after another *)

Section Blob.
Context {A : Type} `{RecordCodec A}.

(** Decode records until the blob is exhausted; each step consumes at least
    one byte, so [length bs] steps of fuel are enough. *)
Fixpoint decode_all_fuel (fuel : nat) (bs : list byte) : result DecodeError (list A) :=
  match bs with
  | [] => Ok []
  | _ :: _ =>
      match fuel with
      | O => Err TruncatedRecordError
      | S f => '(a, rest) ← rc_decode bs; l ← decode_all_fuel f rest; Ok (a :: l)
      end
  end.

Definition decode_all (bs : list byte) : result DecodeError (list A) :=
  decode_all_fuel (length bs) bs.

Definition encode_all (l : list A) : list byte := concat (map rc_encode l).

Lemma decode_all_fuel_indep (f1 f2 : nat) (bs : list byte) :
  (length bs <= f1)%nat -> (length bs <= f2)%nat ->
  decode_all_fuel f1 bs = decode_all_fuel f2 bs.
Proof.
  revert f2 bs. induction f1 as [|f1 IH]; intros f2 bs H1 H2.
  - destruct bs; [destruct f2; reflexivity | simpl in H1; lia].
  - destruct bs as [|b bs']; [destruct f2; reflexivity|].
    destruct f2 as [|f2]; [simpl in H2; lia|]. simpl.
    destruct (rc_decode (b :: bs')) as [[a rest]|e] eqn:E; [|reflexivity].
    simpl. apply rc_progress in E. simpl in E, H1, H2.
    rewrite (IH f2 rest) by lia. reflexivity.
Qed.

Lemma encode_valid_nonempty (a : A) (rest : list byte) :
  rc_valid a = true -> (length rest < length (rc_encode a ++ rest))%nat.
Proof. intros Hv. eapply rc_progress, rc_decode_encode, Hv. Qed.

Lemma decode_all_nonempty (bs : list byte) :
  bs <> [] ->
  decode_all bs = ('(a, rest) ← rc_decode bs; l ← decode_all rest; Ok (a :: l)).
Proof.
  intros Hne. unfold decode_all.
  destruct bs as [|b bs']; [contradiction|]. simpl length. simpl decode_all_fuel.
  destruct (rc_decode (b :: bs')) as [[a rest]|e] eqn:E; [|reflexivity]. simpl.
  apply rc_progress in E. simpl in E.
  rewrite (decode_all_fuel_indep _ (length rest)) by lia. reflexivity.
Qed.

Lemma decode_all_cons (a : A) (rest : list byte) :
  rc_valid a = true ->
  decode_all (rc_encode a ++ rest) = (l ← decode_all rest; Ok (a :: l)).
Proof.
  intros Hv. pose proof (encode_valid_nonempty a rest Hv) as Hlt.
  rewrite decode_all_nonempty by (intros E; rewrite E in Hlt; simpl in Hlt; lia).
  rewrite rc_decode_encode by exact Hv. reflexivity.
Qed.

(** Decoding valid encoded records followed by any bytes [t]: the records
    come first, and the outcome on [t], error included, is the outcome on
    the whole. *)
Lemma decode_all_app (l : list A) (t : list byte) :
  Forall (fun a => rc_valid a = true) l ->
  decode_all (encode_all l ++ t) = fmap (fun l' => l ++ l') (decode_all t).
Proof.
  induction 1 as [|a l Ha Hl IH].
  - simpl. destruct (decode_all t); reflexivity.
  - unfold encode_all. simpl. rewrite <- app_assoc, decode_all_cons by exact Ha.
    fold (encode_all l). rewrite IH. destruct (decode_all t); reflexivity.
Qed.

End Blob.

(** The stored blob of a wallet, decoded with the skill-record format. *)
Definition encode_blob (rs : list SkillRecord) : list byte := encode_all rs.
Definition decode_blob (bs : list byte) : result DecodeError (list SkillRecord) :=
  decode_all bs.

(** ** Theorems *)

(** Round trip of the wire format: decoding the concatenated encodings
    of well-formed records gives back exactly those records, in append
    order (spec §4.1 and §8). *)
Theorem decode_blob_roundtrip (rs : list SkillRecord) :
  Forall (fun r => record_wf r = true) rs -> decode_blob (encode_blob rs) = Ok rs.
Proof.
  intros H. unfold decode_blob, encode_blob.
  rewrite <- (app_nil_r (encode_all rs)), decode_all_app by exact H.
  cbn. now rewrite app_nil_r.
Qed.

(** A blob whose last frame declares more bytes than remain is rejected
    with [TruncatedRecordError], however many valid records precede it: no
    partial record and no partial list is returned. *)
Theorem decode_blob_truncated (rs : list SkillRecord) (t : list byte) :
  Forall (fun r => record_wf r = true) rs ->
  (2 <= length t)%nat -> (length t < 2 + Z.to_nat (read_uint t 0 2))%nat ->
  decode_blob (encode_blob rs ++ t) = Err TruncatedRecordError.
Proof.
  intros Hrs H2 Hn. unfold decode_blob, encode_blob.
  rewrite decode_all_app by exact Hrs.
  rewrite decode_all_nonempty by (intros E; subst; simpl in H2; lia).
  simpl. unfold decode_record.
  replace (length t <? 2) with false by (symmetry; apply Nat.ltb_ge; lia).
  replace (length t <? 2 + _) with true by (symmetry; apply Nat.ltb_lt; lia).
  reflexivity.
Qed.

(** The blob decoder terminates: fuel equal to the blob's length is
    enough, and any larger fuel gives the same result. *)
Theorem decode_blob_fuel_enough (bs : list byte) (fuel : nat) :
  (length bs <= fuel)%nat ->
  @decode_all_fuel SkillRecord _ fuel bs = decode_blob bs.
Proof. intros H. unfold decode_blob, decode_all. apply decode_all_fuel_indep; lia. Qed.

(** The decoder's verdict on one stored frame whose integers fit their
    widths, on every branch: [Utf8DecodeError] when a string field is not
    UTF-8, otherwise [FieldBoundsError] when the score exceeds 100,
    otherwise the record and the untouched rest of the blob. *)
Theorem decode_record_cases (r : SkillRecord) (rest : list byte) :
  (0 <= score r < 2 ^ 64)%Z -> (0 <= timestamp r < 2 ^ 64)%Z ->
  (Z.of_nat (length (encode_struct r)) < 65536)%Z ->
  decode_record (encode_record r ++ rest) =
    if utf8_valid (mode r) && utf8_valid (domain r) && utf8_valid (artifact_hash r)
    then (if (100 <? score r)%Z then Err FieldBoundsError else Ok (r, rest))
    else Err Utf8DecodeError.
Proof.
  intros Hsc Hts Hlen. rewrite decode_encode_record_frame by exact Hlen.
  rewrite decode_encode_struct_cases by assumption.
  destruct (_ && _ && _); [destruct (100 <? score r)%Z|]; reflexivity.
Qed.

(** A struct whose first string offset points past the struct's end is
    rejected with [InvalidOffsetError]. *)
Theorem decode_struct_invalid_offset (s : list byte) :
  (head_size <= length s)%nat -> (length s < Z.to_nat (read_uint s 0 2) + 2)%nat ->
  decode_struct s = Err InvalidOffsetError.
Proof.
  intros H1 H2. unfold decode_struct, read_string.
  replace (length s <? head_size) with false by (symmetry; apply Nat.ltb_ge; lia).
  replace (length s <? Z.to_nat (read_uint s 0 2) + 2) with true
    by (symmetry; apply Nat.ltb_lt; lia).
  reflexivity.
Qed.

(** ** Witnesses on concrete records *)

Definition sample_hash : list byte :=
  list_byte_of_string "9f86d081884c7d659a2feaa0c55ad015a3bf4f1b2b0b822cd15d6c15b0f00a08".

Definition sample_record : SkillRecord :=
  mkRecord (list_byte_of_string "ai-graded") (list_byte_of_string "python:web3")
           85 sample_hash 1708560000.

Definition sample_record2 : SkillRecord :=
  mkRecord (list_byte_of_string "self-attested") (list_byte_of_string "solidity")
           60 sample_hash 1710000000.

Lemma decode_blob_roundtrip_witness :
  Forall (fun r => record_wf r = true) [sample_record; sample_record2] /\
  decode_blob (encode_blob [sample_record; sample_record2]) = Ok [sample_record; sample_record2].
Proof.
  assert (H : Forall (fun r => record_wf r = true) [sample_record; sample_record2])
    by (repeat constructor).
  split; [exact H | apply decode_blob_roundtrip; exact H].
Defined.

Lemma decode_blob_truncated_witness :
  decode_blob (encode_blob [sample_record] ++ [Byte.x00; Byte.x10; Byte.x01])
    = Err TruncatedRecordError.
Proof.
  apply decode_blob_truncated; [repeat constructor | simpl; lia | vm_compute; lia].
Defined.

Lemma decode_blob_fuel_enough_witness :
  @decode_all_fuel SkillRecord _ 1000 (encode_blob [sample_record])
    = decode_blob (encode_blob [sample_record]).
Proof. apply decode_blob_fuel_enough. vm_compute. lia. Defined.

Definition sample_out_of_range : SkillRecord :=
  mkRecord (list_byte_of_string "ai-graded") (list_byte_of_string "python")
           150 sample_hash 1708560000.

Lemma decode_record_cases_witness :
  decode_record (encode_record sample_out_of_range ++ []) = Err FieldBoundsError.
Proof.
  rewrite decode_record_cases;
    [vm_compute; reflexivity | simpl; lia | simpl; lia | vm_compute; reflexivity].
Defined.

Lemma decode_struct_invalid_offset_witness :
  decode_struct (Byte.x00 :: Byte.x30 :: repeat Byte.x00 20) = Err InvalidOffsetError.
Proof. apply decode_struct_invalid_offset; vm_compute; lia. Defined.

End Codec.
