(* ===== verification/Retry.v ===== *)
(** * Retry: the API client's [fetchWithRetry]

    [src/unnamed/part_001] lines 13–67.  One call makes an attempt (a
    [fetch] under a 30-second abort timer); a failed attempt is retried,
    after sleeping [2^(MAX_RETRIES - retries) * 1000] ms, only when the
    thrown error carries status 429 or a status of at least 500 and
    retries remain.  The network is an oracle [nat -> attempt] giving the
    outcome of the k-th attempt; the function returns the result (a JSON
    body or the thrown error) and the trace of fetches and sleeps.
    [timed] turns the latency of an answer into an abort when it reaches
    [TIMEOUT]; the timer is cleared once the response headers arrive
    (line 40), so the time spent reading a body is not bounded and is
    not modelled.
    [fetch_with_retry] counts [retries] down structurally on [nat];
    [fetch_with_retry_js] takes it as the JavaScript integer it is and
    runs on fuel, and the two are proved to agree for the budgets the
    [api] object uses. *)

From Stdlib Require Import ZArith QArith Lia List String.
From stdpp Require Import base decidable.
From S2P Require Import Prelude.
Import ListNotations.

Module Retry.

(** Lines 14–15. *)
Definition TIMEOUT : Z := 30000.
Definition MAX_RETRIES : nat := 3.

Section WithJson.
(** The JSON values the server returns, and their [detail] field. *)
Context {Json : Type} (detail : Json -> option string).

(** What one [fetch] attempt gives [fetchWithRetry]. *)
Inductive attempt :=
| Aborted                      (** the abort timer fired first: [AbortError] *)
| NetworkFailure               (** [fetch] rejected without a status ([TypeError]) *)
| Response (status : Z) (statusText : string) (body : option Json).
    (** a response; [body] is [None] when it is not JSON *)

(** The message of an [APIError] (lines 45 and 56). *)
Inductive api_message :=
| MsgDetail (d : string)                 (** [errorData.detail] *)
| MsgHttp (status : Z) (statusText : string)  (** [`HTTP ${status}: ${statusText}`] *)
| MsgTimeout.                            (** ['Request timeout'] *)

(** Errors raised inside the [try] block and thrown out of the call. *)
Inductive fetch_error :=
| AbortError
| TypeErrorNetwork
| SyntaxErrorBody                        (** [response.json()] of an OK response failed *)
| APIError (message : api_message) (status : Z) (data : option Json).
    (** [data] is [errorData]; [None] stands for the [{}] of line 43 *)

(** Effects, in order. *)
Inductive event :=
| Fetch (k : nat)                        (** the k-th attempt *)
| Sleep (ms : Z).                        (** [await new Promise(... setTimeout(resolve, delay))] *)

(** [response.ok]. *)
Definition response_ok (status : Z) : bool := (200 <=? status)%Z && (status <=? 299)%Z.

(** Line 45: [errorData.detail || `HTTP ${status}: ${statusText}`]. *)
Definition error_message (body : option Json) (status : Z) (statusText : string) : api_message :=
  match body ≫= detail with
  | Some d => if String.eqb d "" then MsgHttp status statusText else MsgDetail d
  | None => MsgHttp status statusText
  end.

(** Lines 31–51: the [try] block of one attempt. *)
Definition try_attempt (a : attempt) : result fetch_error Json :=
  match a with
  | Aborted => Err AbortError
  | NetworkFailure => Err TypeErrorNetwork
  | Response status statusText body =>
      if response_ok status then
        match body with Some j => Ok j | None => Err SyntaxErrorBody end
      else Err (APIError (error_message body status statusText) status body)
  end.

(** Line 59: [error.status === 429 || error.status >= 500]; only an
    [APIError] has a status. *)
Definition retryable (e : fetch_error) : bool :=
  match e with
  | APIError _ status _ => (status =? 429)%Z || (500 <=? status)%Z
  | _ => false
  end.

(** Line 60. *)
Definition backoff_delay (retries : nat) : Z :=
  (2 ^ Z.of_nat (MAX_RETRIES - retries) * 1000)%Z.

(** Lines 26–67.  [k] numbers the attempt, [retries] is the parameter. *)
Fixpoint fetch_with_retry (net : nat -> attempt) (k retries : nat)
  : result fetch_error Json * list event :=
  match try_attempt (net k) with
  | Ok j => (Ok j, [Fetch k])
  | Err AbortError => (Err (APIError MsgTimeout 408 None), [Fetch k])
  | Err e =>
      match retries with
      | S r =>
          if retryable e then
            let '(res, tr) := fetch_with_retry net (S k) r in
            (res, Fetch k :: Sleep (backoff_delay retries) :: tr)
          else (Err e, [Fetch k])
      | O => (Err e, [Fetch k])
      end
  end.

(** A call as the [api] object makes it: attempts numbered from 0 and
    [MAX_RETRIES] retries. *)
Definition fetch_default (net : nat -> attempt) : result fetch_error Json * list event :=
  fetch_with_retry net 0 MAX_RETRIES.

(** ** The abort timer *)

(** Lines 27–28 and 40: the timer aborts the fetch [TIMEOUT] ms after it
    starts unless the response (or the network failure) came first; an
    attempt whose answer would take [ms] milliseconds is [Aborted] when
    [ms >= TIMEOUT].  The timer is cleared before the body of an OK
    response is read (line 40), so only the wait for the response is
    bounded. *)
Definition timed (ms : Z) (a : attempt) : attempt :=
  if (TIMEOUT <=? ms)%Z then Aborted else a.

(** ** [retries] as the JavaScript number it is *)

(** Line 60 on any number of retries: for [retries > MAX_RETRIES] the
    exponent is negative and the delay a fraction of a second. *)
Definition backoff_delay_js (retries : Z) : Q :=
  (Qpower 2 (Z.of_nat MAX_RETRIES - retries) * 1000)%Q.

Inductive js_event :=
| JFetch (k : nat)
| JSleep (ms : Q).

Definition to_js (e : event) : js_event :=
  match e with Fetch k => JFetch k | Sleep ms => JSleep (inject_Z ms) end.

(** Lines 26–67 with [retries] a JavaScript integer ([retries > 0],
    [retries - 1]); the recursion is not structural, so the function runs
    on [fuel], one unit per attempt, and answers [None] when it runs out. *)
Fixpoint fetch_with_retry_js (fuel : nat) (net : nat -> attempt) (k : nat) (retries : Z)
  : option (result fetch_error Json * list js_event) :=
  match fuel with
  | O => None
  | S fuel' =>
      match try_attempt (net k) with
      | Ok j => Some (Ok j, [JFetch k])
      | Err AbortError => Some (Err (APIError MsgTimeout 408 None), [JFetch k])
      | Err e =>
          if (0 <? retries)%Z && retryable e then
            match fetch_with_retry_js fuel' net (S k) (retries - 1) with
            | Some (res, tr) => Some (res, JFetch k :: JSleep (backoff_delay_js retries) :: tr)
            | None => None
            end
          else Some (Err e, [JFetch k])
      end
  end.

Definition js_fetches (tr : list js_event) : nat :=
  length (List.filter (fun e => match e with JFetch _ => true | JSleep _ => false end) tr).

(** ** The abstract contract of a call *)

(** The outcome of an attempt as the caller sees it when it is the last:
    a timeout surfaces as an [APIError] with status 408. *)
Definition final_of (r : result fetch_error Json) : result fetch_error Json :=
  match r with
  | Err AbortError => Err (APIError MsgTimeout 408 None)
  | _ => r
  end.

(** Whether an attempt fails in a way that is retried. *)
Definition retry_failure (a : attempt) : bool :=
  match try_attempt a with Err e => retryable e | Ok _ => false end.

(** The trace of a call that retried [n] times from attempt [k] with
    [r] retries available: fetch, sleep, fetch, ..., fetch. *)
Definition retry_trace (k r n : nat) : list event :=
  flat_map (fun i => [Fetch (k + i); Sleep (backoff_delay (r - i))]) (seq 0 n)
  ++ [Fetch (k + n)].

Lemma retry_trace_0 (k r : nat) : retry_trace k r 0 = [Fetch k].
Proof. unfold retry_trace. simpl. now rewrite Nat.add_0_r. Qed.

Lemma retry_trace_S (k r n : nat) :
  retry_trace k (S r) (S n) = Fetch k :: Sleep (backoff_delay (S r)) :: retry_trace (S k) r n.
Proof.
  unfold retry_trace. simpl. rewrite ?Nat.add_0_r, ?Nat.sub_0_r. do 2 f_equal.
  rewrite <- seq_shift, !flat_map_concat_map, map_map.
  f_equal; [f_equal; apply map_ext; intros i; repeat f_equal; lia | repeat f_equal; lia].
Qed.

(** Lines 26–67 implement the contract: the call settles on the first
    attempt [k + n] that is not a retried failure, or on the last one the
    retry budget allows, returns that attempt's outcome, and its trace
    alternates fetches with the backoff sleeps. *)
Lemma fetch_with_retry_shape (net : nat -> attempt) (r k : nat) :
  exists n, (n <= r)%nat /\
    (forall i, (i < n)%nat -> retry_failure (net (k + i)%nat) = true) /\
    ((n < r)%nat -> retry_failure (net (k + n)%nat) = false) /\
    fetch_with_retry net k r = (final_of (try_attempt (net (k + n)%nat)), retry_trace k r n).
Proof.
  revert k. induction r as [|r IH]; intros k.
  - exists 0%nat. rewrite Nat.add_0_r, retry_trace_0. repeat split; try lia.
    simpl. destruct (try_attempt (net k)) as [j|[| | |m st d]]; reflexivity.
  - simpl. unfold retry_failure.
    destruct (try_attempt (net k)) as [j|e] eqn:E.
    + exists 0%nat. rewrite Nat.add_0_r, retry_trace_0, E. repeat split; try lia.
    + destruct (retryable e) eqn:R; [destruct e as [| | |m st d]; try discriminate|].
      * destruct (IH (S k)) as (n & Hn & Hpre & Hlast & Heq). rewrite Heq.
        exists (S n). split; [lia|]. split; [|split].
        -- intros [|i] Hi; [rewrite Nat.add_0_r, E; exact R|].
           replace (k + S i)%nat with (S k + i)%nat by lia. apply Hpre. lia.
        -- intros Hlt. replace (k + S n)%nat with (S k + n)%nat by lia. apply Hlast. lia.
        -- rewrite retry_trace_S. replace (k + S n)%nat with (S k + n)%nat by lia.
           reflexivity.
      * exists 0%nat. rewrite Nat.add_0_r, retry_trace_0, E.
        split; [lia|]. split; [intros; lia|]. split; [intros _; exact R|].
        destruct e as [| | |m st d]; try reflexivity; simpl in R; now rewrite R.
Qed.

(** ** The documented retry policy *)

(** A transient failure: a response with status 429 or 5xx. *)
Definition transient (a : attempt) : bool :=
  match a with
  | Response st _ _ => (st =? 429)%Z || (500 <=? st)%Z
  | _ => false
  end.

(** The trace of the default call when it settles on attempt [n]: the
    i-th retry waits [1000 * 2^i] ms. *)
Definition default_trace (n : nat) : list event :=
  flat_map (fun i => [Fetch i; Sleep (1000 * 2 ^ Z.of_nat i)%Z]) (seq 0 n) ++ [Fetch n].

(** The sleeps of a trace, in order. *)
Definition sleeps (tr : list event) : list Z :=
  flat_map (fun e => match e with Sleep ms => [ms] | Fetch _ => [] end) tr.

(** The attempts of a trace, in order. *)
Definition fetches (tr : list event) : list nat :=
  flat_map (fun e => match e with Fetch k => [k] | Sleep _ => [] end) tr.

Lemma retry_failure_transient (a : attempt) : retry_failure a = transient a.
Proof.
  destruct a as [| |st txt body]; try reflexivity.
  unfold retry_failure, try_attempt, transient, response_ok.
  destruct (200 <=? st)%Z eqn:E1, (st <=? 299)%Z eqn:E2; simpl;
    try reflexivity.
  apply Z.leb_le in E1, E2.
  replace (st =? 429)%Z with false by (symmetry; apply Z.eqb_neq; lia).
  replace (500 <=? st)%Z with false by (symmetry; apply Z.leb_gt; lia).
  destruct body; reflexivity.
Qed.

Lemma retry_trace_default (n : nat) :
  (n <= MAX_RETRIES)%nat -> retry_trace 0 MAX_RETRIES n = default_trace n.
Proof.
  intros Hn. unfold retry_trace, default_trace, backoff_delay. f_equal.
  rewrite !flat_map_concat_map. f_equal.
  apply map_ext_in. intros i Hi. apply in_seq in Hi. simpl.
  unfold MAX_RETRIES in *. replace (3 - (3 - i))%nat with i by lia.
  rewrite Z.mul_comm. reflexivity.
Qed.

Lemma sleeps_app (a b : list event) : sleeps (a ++ b) = sleeps a ++ sleeps b.
Proof. apply flat_map_app. Qed.

Lemma fetches_app (a b : list event) : fetches (a ++ b) = fetches a ++ fetches b.
Proof. apply flat_map_app. Qed.

Lemma sleeps_pairs (g : nat -> Z) (l : list nat) :
  sleeps (flat_map (fun i => [Fetch i; Sleep (g i)]) l) = map g l.
Proof. induction l as [|i l IH]; simpl; [reflexivity|]. now rewrite IH. Qed.

Lemma fetches_pairs (g : nat -> Z) (l : list nat) :
  fetches (flat_map (fun i => [Fetch i; Sleep (g i)]) l) = l.
Proof. induction l as [|i l IH]; simpl; [reflexivity|]. now rewrite IH. Qed.

Lemma default_trace_sleeps (n : nat) :
  sleeps (default_trace n) = map (fun i => 1000 * 2 ^ Z.of_nat i)%Z (seq 0 n).
Proof.
  unfold default_trace. rewrite sleeps_app, sleeps_pairs. apply app_nil_r.
Qed.

Lemma default_trace_fetches (n : nat) : fetches (default_trace n) = seq 0 (S n).
Proof.
  unfold default_trace. rewrite fetches_app, fetches_pairs, seq_S. reflexivity.
Qed.

(** ** Theorems *)

(** C2: The default call implements the documented policy: it settles on
    the first attempt [n <= 3] that is not a 429/5xx response (or on the
    fourth attempt), returns that attempt's outcome with a timeout shown as
    status 408, and its trace alternates fetches with sleeps of 1000, 2000,
    4000 ms. *)
Theorem fetch_default_contract (net : nat -> attempt) :
  exists n, (n <= 3)%nat /\
    (forall i, (i < n)%nat -> transient (net i) = true) /\
    ((n < 3)%nat -> transient (net n) = false) /\
    fetch_default net = (final_of (try_attempt (net n)), default_trace n).
Proof.
  destruct (fetch_with_retry_shape net MAX_RETRIES 0) as (n & Hn & Hpre & Hlast & Heq).
  exists n. unfold fetch_default. rewrite Heq, retry_trace_default by exact Hn.
  unfold MAX_RETRIES in *. split; [exact Hn|]. split; [|split].
  - intros i Hi. rewrite <- retry_failure_transient. apply (Hpre i Hi).
  - intros Hlt. rewrite <- retry_failure_transient. apply (Hlast Hlt).
  - reflexivity.
Qed.

(** C30: An attempt whose answer takes [TIMEOUT] ms or more is aborted
    by the timer, and the timeout is surfaced at once as
    [APIError('Request timeout', 408)] and never retried, whatever the
    server would have answered and whatever the retry budget. *)
Theorem fetch_timeout_not_retried (net : nat -> attempt) (k r : nat) (ms : Z) (a : attempt) :
  net k = timed ms a -> (TIMEOUT <= ms)%Z ->
  fetch_with_retry net k r = (Err (APIError MsgTimeout 408 None), [Fetch k]).
Proof.
  intros H Hms. unfold timed in H. rewrite (proj2 (Z.leb_le _ _) Hms) in H.
  destruct r; simpl; rewrite H; reflexivity.
Qed.

(** C31: A client error (a non-OK status that is neither 429 nor 5xx) is
    thrown at once with the server's [detail] or the HTTP status line. *)
Theorem fetch_client_error_not_retried (net : nat -> attempt) (k r : nat)
    (st : Z) (txt : string) (body : option Json) :
  net k = Response st txt body -> response_ok st = false -> transient (net k) = false ->
  fetch_with_retry net k r = (Err (APIError (error_message body st txt) st body), [Fetch k]).
Proof.
  intros Hk Hok Ht. rewrite Hk in Ht. simpl in Ht.
  destruct r; simpl; rewrite Hk; simpl; rewrite Hok; simpl; try rewrite Ht; reflexivity.
Qed.

Lemma fetch_network_not_retried (net : nat -> attempt) (k r : nat) :
  net k = NetworkFailure -> fetch_with_retry net k r = (Err TypeErrorNetwork, [Fetch k]).
Proof. intros H. destruct r; simpl; rewrite H; reflexivity. Qed.

Lemma backoff_delay_js_nat (r : nat) :
  (0 < r <= MAX_RETRIES)%nat -> backoff_delay_js (Z.of_nat r) = inject_Z (backoff_delay r).
Proof. unfold MAX_RETRIES. intros Hr. destruct r as [|[|[|[|r]]]]; try lia; reflexivity. Qed.

(** C20: [fetchWithRetry] terminates for every integer [retries], negative
    or larger than [MAX_RETRIES] included: [retries + 1] attempts' worth of
    fuel is enough to give its result, and it makes at most that many
    attempts ([1] when [retries <= 0]). *)
Theorem fetch_js_terminates (fuel : nat) (net : nat -> attempt) (k : nat) (retries : Z) :
  (Z.to_nat retries < fuel)%nat ->
  exists res tr, fetch_with_retry_js fuel net k retries = Some (res, tr) /\
    (js_fetches tr <= S (Z.to_nat retries))%nat.
Proof.
  revert k retries. induction fuel as [|fuel IH]; intros k retries Hf; [lia|].
  cbn [fetch_with_retry_js]. destruct (try_attempt (net k)) as [j|[| | |m st d]];
    try (eexists _, _; split; [reflexivity | unfold js_fetches; simpl; lia]);
    destruct ((0 <? retries)%Z && retryable _) eqn:B;
    try (eexists _, _; split; [reflexivity | unfold js_fetches; simpl; lia]);
    apply andb_true_iff in B as [B _]; apply Z.ltb_lt in B;
    destruct (IH (S k) (retries - 1)%Z ltac:(lia)) as (res & tr & -> & Hn);
    eexists _, _; split; try reflexivity; unfold js_fetches in *; simpl; lia.
Qed.

(** For the retry budgets the api uses (at most [MAX_RETRIES]), the call
    on a JavaScript number is the call of [fetch_with_retry]: same result,
    same attempts, same sleeps. *)
Theorem fetch_js_nat (net : nat -> attempt) (fuel r k : nat) :
  (r <= MAX_RETRIES)%nat -> (r < fuel)%nat ->
  fetch_with_retry_js fuel net k (Z.of_nat r) =
    Some (fst (fetch_with_retry net k r), map to_js (snd (fetch_with_retry net k r))).
Proof.
  revert fuel k. induction r as [|r IH]; intros fuel k Hr Hf;
    destruct fuel as [|fuel]; try lia; cbn [fetch_with_retry_js fetch_with_retry].
  - destruct (try_attempt (net k)) as [j|[| | |m st d]]; reflexivity.
  - replace (0 <? Z.of_nat (S r))%Z with true by (symmetry; apply Z.ltb_lt; lia).
    replace (Z.of_nat (S r) - 1)%Z with (Z.of_nat r) by lia.
    rewrite (IH fuel (S k)) by lia.
    destruct (try_attempt (net k)) as [j|[| | |m st d]]; try reflexivity; cbn [andb].
    destruct (retryable _); [|reflexivity].
    destruct (fetch_with_retry net (S k) r) as [res tr]. simpl.
    rewrite backoff_delay_js_nat by lia. reflexivity.
Qed.

End WithJson.

Arguments attempt : clear implicits.
Arguments fetch_error : clear implicits.

(** ** Witnesses, with JSON values modelled as their [detail] string *)

Local Open Scope string_scope.

Definition str_detail (j : string) : option string := Some j.

Lemma fetch_timeout_not_retried_witness :
  fetch_with_retry str_detail (fun _ => timed 45000 (Response 503 "Service Unavailable" None)) 0 3
    = (Err (APIError MsgTimeout 408 None), [Fetch 0]).
Proof. apply (fetch_timeout_not_retried _ _ 0 3 45000 (Response 503 "Service Unavailable" None)); [reflexivity | unfold TIMEOUT; lia]. Defined.

(** A negative budget: one attempt, even for a retried status. *)
Lemma fetch_js_terminates_witness :
  exists res tr, fetch_with_retry_js str_detail 1 (fun _ => Response 503 "Service Unavailable" None) 0 (-5)
                   = Some (res, tr) /\ (js_fetches tr <= 1)%nat.
Proof. exact (fetch_js_terminates str_detail 1 _ 0 (-5) ltac:(vm_compute; lia)). Defined.

Lemma fetch_client_error_not_retried_witness :
  error_message str_detail (Some "Wallet not found") 404 "Not Found" = MsgDetail "Wallet not found" /\
  fetch_with_retry str_detail (fun _ => Response 404 "Not Found" (Some "Wallet not found")) 0 3
    = (Err (APIError (error_message str_detail (Some "Wallet not found") 404 "Not Found")
                     404 (Some "Wallet not found")), [Fetch 0]).
Proof.
  split; [reflexivity|].
  apply (fetch_client_error_not_retried str_detail _ 0 3 404 "Not Found"); reflexivity.
Defined.

(** Four 503 responses: four attempts and the full backoff. *)
Example fetch_all_unavailable :
  fetch_default str_detail (fun _ => Response 503 "Service Unavailable" None)
    = (Err (APIError (MsgHttp 503 "Service Unavailable") 503 None),
       [Fetch 0; Sleep 1000; Fetch 1; Sleep 2000; Fetch 2; Sleep 4000; Fetch 3]).
Proof. reflexivity. Qed.

End Retry.
