(* ===== verification/Api.v ===== *)
(** * Api: the endpoint table of the API client

    [src/unnamed/part_001] lines 13 and 69–144: the [api] object.  Each
    method builds one request (method, URL, JSON body) and hands it to
    [fetchWithRetry] ([Retry.fetch_default]).  Requests are data; the
    network answers a request with the outcome of each attempt. *)

From Stdlib Require Import ZArith List String Ascii.
From stdpp Require Import base decidable.
From S2P Require Import Prelude Retry.
Import ListNotations.

Module Api.

Local Open Scope string_scope.

(** Line 13: [import.meta.env.VITE_API_URL || 'http://localhost:8000'],
    the build-time setting [vite]. *)
Definition api_url (vite : option string) : string := js_or_default vite "http://localhost:8000".

(** The client as built without [VITE_API_URL]. *)
Definition API_URL : string := api_url None.

(** A JSON body: an object literal of string or [null] fields, in the
    order the source writes them, or a value passed through as it is. *)
Inductive api_body {Json : Type} :=
| NoBody
| Fields (kv : list (string * option string))
| Raw (d : Json).
Arguments api_body : clear implicits.

Record api_request {Json : Type} := {
  rq_method : string;
  rq_url : string;
  rq_body : api_body Json
}.
Arguments api_request : clear implicits.

(** The methods of [api]; an optional argument is [None] when the caller
    leaves it out. *)
Inductive endpoint {Json : Type} :=
| AnalyzeRepo (repoUrl : string) (mode : option string)               (** lines 71–76 *)
| AnalyzeCertificate (filePath : string) (mode : option string)       (** lines 78–83 *)
| AnalyzeProject (projectPath : string) (mode : option string)        (** lines 85–90 *)
| VerifyRepo (repoUrl : string) (wallet : option string)              (** lines 93–98 *)
| VerifyCertificate (filePath : string)                               (** lines 100–105 *)
| VerifyProject (projectPath : string)                                (** lines 107–112 *)
| SubmitRecord (data : Json)                                          (** lines 115–120 *)
| GetWalletRecords (wallet : string)                                  (** lines 123–125 *)
| GetTimeline (wallet : string)                                       (** lines 127–129 *)
| GetReputation (wallet : string)                                     (** lines 132–134 *)
| VerifyWallet (wallet : string)                                      (** lines 136–138 *)
| Health.                                                             (** lines 141–143 *)
Arguments endpoint : clear implicits.

Section WithJson.
Context {Json : Type}.

Definition post (path : string) (b : api_body Json) : api_request Json :=
  {| rq_method := "POST"; rq_url := API_URL ++ path; rq_body := b |}.

Definition get (path : string) : api_request Json :=
  {| rq_method := "GET"; rq_url := API_URL ++ path; rq_body := NoBody |}.

(** A default parameter: [mode = 'DEVELOPER'] applies when the argument is
    left out. *)
Definition with_default (o : option string) (d : string) : option string :=
  Some (match o with Some v => v | None => d end).

(** Lines 69–144. *)
Definition request_of (e : endpoint Json) : api_request Json :=
  match e with
  | AnalyzeRepo u m =>
      post "/analyze/repo" (Fields [("repo_url", Some u); ("mode", with_default m "DEVELOPER")])
  | AnalyzeCertificate p m =>
      post "/analyze/certificate"
        (Fields [("file_path", Some p); ("mode", with_default m "LEARNER")])
  | AnalyzeProject p m =>
      post "/analyze/project"
        (Fields [("project_path", Some p); ("mode", with_default m "DEVELOPER")])
  | VerifyRepo u w => post "/verify-evidence/repo" (Fields [("repo_url", Some u); ("wallet", w)])
  | VerifyCertificate p => post "/verify-evidence/certificate" (Fields [("file_path", Some p)])
  | VerifyProject p => post "/verify-evidence/project" (Fields [("project_path", Some p)])
  | SubmitRecord d => post "/submit" (Raw d)
  | GetWalletRecords w => get ("/wallet/" ++ w)
  | GetTimeline w => get ("/timeline/" ++ w)
  | GetReputation w => get ("/reputation/" ++ w)
  | VerifyWallet w => get ("/verify/" ++ w)
  | Health => get "/health"
  end.

(** Every method is [fetchWithRetry(url, options)] with the default retry
    budget; [net] gives the outcome of each attempt of a request. *)
Definition api_call (detail : Json -> option string)
    (net : api_request Json -> nat -> Retry.attempt Json) (e : endpoint Json)
  : result (Retry.fetch_error Json) Json * list Retry.event :=
  Retry.fetch_default detail (net (request_of e)).

Definition is_get (e : endpoint Json) : bool :=
  match e with
  | GetWalletRecords _ | GetTimeline _ | GetReputation _ | VerifyWallet _ | Health => true
  | _ => false
  end.

End WithJson.

End Api.
