(* ===== verification/Submit.v ===== *)
(** * Submit: the evidence submission page

    [src/unnamed/part_001] lines 177–340 ([SubmitPage]): the score shown
    for an analysis (line 194), the wallet guard of [handleSetWallet]
    (lines 198–202), the source tabs (line 422), [handleAnalyze]
    (lines 205–245) and [handleSubmit] (lines 248–340), which builds the
    five ABI arguments of [submit_skill_record] and sends the application
    call.  React state is a record; each handler is a function from the
    state and the outcomes of its external calls (fetch, algod, the Pera
    signer) to the new state and the list of calls it made.  The record
    the contract appends is connected to the ledger codec of [Codec]. *)

From Stdlib Require Import ZArith QArith Lia Lqa List String Ascii.
From stdpp Require Import base decidable pretty.
From S2P Require Import Prelude Codec.
Import ListNotations.

Module Submit.

Local Open Scope string_scope.

(** ** The analysis returned by the backend *)

(** [analysis.domains[i]]: [domain] and [subdomain] may be missing. *)
Record domain_entry := { de_domain : option string; de_subdomain : option string }.

(** The fields of the analysis JSON that the handlers read. *)
Record analysis := {
  overall_score : Q;
  meta_artifact_hash : option string;   (** [analysis.metadata?.artifact_hash] *)
  meta_sha256 : option string;          (** [analysis.metadata?.sha256] *)
  meta_project_hash : option string;    (** [analysis.metadata?.project_hash] *)
  domains : list domain_entry;          (** [analysis.domains], [[]] when absent *)
  source_type : option string           (** [analysis.source_type] *)
}.

(** Line 194: the score shown for the current analysis. *)
Definition page_score (a : option analysis) : Z :=
  match a with Some a => js_round (overall_score a * 100) | None => 0%Z end.

(** ** The arguments of [submit_skill_record] (lines 287–295) *)

(** [ '0'.repeat(64) ] *)
Definition zero_hash : string := string_of_list_ascii (repeat "0"%char 64).

(** [Math.floor(Date.now() / 1000)] for a clock in milliseconds. *)
Definition unix_seconds (now_ms : Z) : Z := (now_ms / 1000)%Z.

Definition artifact_hash_arg (a : analysis) : string :=
  js_or_default (meta_artifact_hash a ||ₛ meta_sha256 a ||ₛ meta_project_hash a) zero_hash.

Definition score_arg (a : analysis) : Z := js_round (overall_score a * 100).

(** Lines 290–293: [domains[0].domain || 'general'], then [":" + subdomain]
    when the first entry has a truthy subdomain. *)
Definition domain_arg (a : analysis) : string :=
  let d0 := head (domains a) in
  let base := js_or_default (d0 ≫= de_domain) "general" in
  match d0 ≫= de_subdomain with
  | Some sub => if truthy (Some sub) then base ++ ":" ++ sub else base
  | None => base
  end.

Definition mode_arg (a : analysis) : string := js_or_default (source_type a) "ai-graded".

(** [methodArgs: [modeVal, domainVal, scoreVal, artifactHash, timestamp]]. *)
Record method_args := {
  arg_mode : string; arg_domain : string; arg_score : Z; arg_hash : string; arg_timestamp : Z
}.

Definition submission_args (a : analysis) (now_ms : Z) : method_args :=
  {| arg_mode := mode_arg a; arg_domain := domain_arg a; arg_score := score_arg a;
     arg_hash := artifact_hash_arg a; arg_timestamp := unix_seconds now_ms |}.

(** The record the contract appends for these arguments: strings as their
    UTF-8 bytes (the characters of the model are single bytes). *)
Definition record_of_args (m : method_args) : Codec.SkillRecord :=
  Codec.mkRecord (list_byte_of_string (arg_mode m)) (list_byte_of_string (arg_domain m))
                 (arg_score m) (list_byte_of_string (arg_hash m)) (arg_timestamp m).

(** ** Page state and external calls *)

Inductive source_kind := SrcRepo | SrcCertificate | SrcProject.

(** Line 272 and line 153. *)
Definition APP_ID : Z := 755779875.
Definition EXPLORER : string := "https://testnet.explorer.perawallet.app/tx/".

(** Lines 325–332: the success panel. *)
Record submit_result := {
  sr_txid : string; sr_skill_id : string; sr_score : Z; sr_status : string; sr_explorer_url : string
}.

(** The React state of [SubmitPage] (lines 178–191). *)
Record page_state := {
  ps_address : string;                  (** [address] from the wallet context *)
  ps_pera : bool;                       (** [peraWallet] instance present *)
  ps_mode : string;
  ps_source : source_kind;
  ps_repo_url : string;
  ps_file : option string;              (** [selectedFile] *)
  ps_analysis : option analysis;
  ps_submit_result : option submit_result;
  ps_analyzing : bool;
  ps_submitting : bool;
  ps_error : string;
  ps_wallet_input : string
}.

(** Calls to the outside world, in the order the handlers make them. *)
Inductive call :=
| PostVerifyRepo (repo_url wallet mode : string)     (** line 216 *)
| PostUpload (endpoint : string) (mode : string)     (** line 229 *)
| PostPrepare (wallet : string)                      (** line 262 *)
| GetParams                                          (** line 271 *)
| SendAppCall (app : Z) (sender : string) (args : method_args).  (** lines 298–322 *)

(** What the outside world answers to [handleSubmit]'s calls. *)
Record submit_env := {
  env_prepare : result string Z;        (** status of [/submit/prepare], or the fetch rejection *)
  env_params : result string unit;      (** [getTransactionParams()] *)
  env_address : result string unit;     (** [algosdk.decodeAddress(wallet)] *)
  env_execute : result string string;   (** [atc.execute]: the transaction id or the error *)
  env_now_ms : Z                        (** [Date.now()] at line 287 *)
}.

Definition PERA_MISSING : string :=
  "Wallet not connected or Pera Wallet SDK not initialized. Please reconnect.".

(** Lines 260–332: the [try] block.  It returns the outcome and the calls
    made before it settled. *)
Definition submit_try (wallet : string) (pera : bool) (a : analysis) (env : submit_env)
  : result string submit_result * list call :=
  let c1 := [PostPrepare wallet] in
  match env_prepare env with
  | Err m => (Err m, c1)
  | Ok _ =>
    let c2 := (c1 ++ [GetParams])%list in
    match env_params env with
    | Err m => (Err m, c2)
    | Ok _ =>
      let args := submission_args a (env_now_ms env) in
      match env_address env with
      | Err m => (Err m, c2)
      | Ok _ =>
        if negb pera then (Err PERA_MISSING, c2) else
        let c3 := (c2 ++ [SendAppCall APP_ID wallet args])%list in
        match env_execute env with
        | Err m => (Err m, c3)
        | Ok txid =>
            (Ok {| sr_txid := txid; sr_skill_id := arg_domain args; sr_score := arg_score args;
                   sr_status := "confirmed"; sr_explorer_url := EXPLORER ++ txid |}, c3)
        end
      end
    end
  end.

Definition set_error (s : page_state) (e : string) : page_state :=
  {| ps_address := ps_address s; ps_pera := ps_pera s; ps_mode := ps_mode s;
     ps_source := ps_source s; ps_repo_url := ps_repo_url s; ps_file := ps_file s;
     ps_analysis := ps_analysis s; ps_submit_result := ps_submit_result s;
     ps_analyzing := ps_analyzing s; ps_submitting := ps_submitting s; ps_error := e;
     ps_wallet_input := ps_wallet_input s |}.

Definition set_submit (s : page_state) (res : option submit_result) (submitting : bool)
  (e : string) : page_state :=
  {| ps_address := ps_address s; ps_pera := ps_pera s; ps_mode := ps_mode s;
     ps_source := ps_source s; ps_repo_url := ps_repo_url s; ps_file := ps_file s;
     ps_analysis := ps_analysis s; ps_submit_result := res;
     ps_analyzing := ps_analyzing s; ps_submitting := submitting; ps_error := e;
     ps_wallet_input := ps_wallet_input s |}.

(** [wallet.length >= 58]: the length of an Algorand address. *)
Definition wallet_ok (w : string) : bool := truthy (Some w) && (58 <=? String.length w)%nat.

(** Lines 248–257: the synchronous start of [handleSubmit], up to its
    first [await]: the two guards, then [setSubmitting(true)] and
    [setError('')].  When the call goes on, it returns the wallet and
    the analysis the running call has captured (its [useCallback]
    closure). *)
Definition submit_start (s : page_state) : page_state * option (string * analysis) :=
  match ps_analysis s with
  | None => (s, None)
  | Some a =>
      let wallet := js_or_default (Some (ps_address s)) (ps_wallet_input s) in
      if negb (wallet_ok wallet) then (set_error s "Please connect your wallet first.", None)
      else (set_submit s (ps_submit_result s) true "", Some (wallet, a))
  end.

(** Lines 259–339: the rest of the call once its [await]s have settled,
    with the captured [wallet], [peraWallet] and [analysis]; its setters
    act on the page state [s] as it is by then. *)
Definition submit_finish (s : page_state) (wallet : string) (pera : bool) (a : analysis)
  (env : submit_env) : page_state * list call :=
  match submit_try wallet pera a env with
  | (Ok res, calls) => (set_submit s (Some res) false (ps_error s), calls)
  | (Err m, calls) =>
      (set_submit s (ps_submit_result s) false (js_or_default (Some m) "Submission failed"), calls)
  end.

(** Lines 248–340: [handleSubmit] run to completion with nothing else
    happening on the page in between. *)
Definition handle_submit (s : page_state) (env : submit_env) : page_state * list call :=
  match submit_start s with
  | (s1, Some (w, a)) => submit_finish s1 w (ps_pera s) a env
  | (s1, None) => (s1, [])
  end.

(** ** Analysis (lines 205–245), tabs (line 422), "Submit Another" (line 775) *)

(** What the server answers to the analysis request. *)
Inductive analyze_reply :=
| ReplyRejected (msg : string)                   (** [fetch] rejected *)
| ReplyError (status : Z) (detail : option string)  (** non-OK; [detail] of its JSON body *)
| ReplyBadJson (msg : string)                    (** OK, but [res.json()] threw *)
| ReplyOk (data : analysis).

Definition upload_endpoint (k : source_kind) : string :=
  match k with
  | SrcCertificate => "/verify-evidence/certificate/upload"
  | _ => "/verify-evidence/project/upload"
  end.

(** Lines 214–230: the request for the current input, or the error thrown
    when the input is missing. *)
Definition analyze_request (s : page_state) : result string call :=
  match ps_source s with
  | SrcRepo =>
      if truthy (Some (ps_repo_url s))
      then Ok (PostVerifyRepo (ps_repo_url s) (ps_address s) (ps_mode s))
      else Err "Paste a GitHub repo URL."
  | k =>
      match ps_file s with
      | Some _ => Ok (PostUpload (upload_endpoint k) (ps_mode s))
      | None => Err "Please select a file."
      end
  end.

(** Lines 232–238: the analysis, or the message of the thrown error. *)
Definition analyze_result (r : analyze_reply) : result string analysis :=
  match r with
  | ReplyRejected m => Err m
  | ReplyError st d => Err (js_or_default d ("Analysis failed (HTTP " +:+ pretty st +:+ ")"))
  | ReplyBadJson m => Err m
  | ReplyOk a => Ok a
  end.

Definition with_analysis (s : page_state) (a : option analysis) (res : option submit_result)
  (analyzing : bool) (e : string) : page_state :=
  {| ps_address := ps_address s; ps_pera := ps_pera s; ps_mode := ps_mode s;
     ps_source := ps_source s; ps_repo_url := ps_repo_url s; ps_file := ps_file s;
     ps_analysis := a; ps_submit_result := res;
     ps_analyzing := analyzing; ps_submitting := ps_submitting s; ps_error := e;
     ps_wallet_input := ps_wallet_input s |}.

(** Lines 206–209: the synchronous start of [handleAnalyze]; the request
    is made when the input is present. *)
Definition analyze_start (s : page_state) : page_state * list call :=
  let s1 := with_analysis s None None true "" in
  match analyze_request s with
  | Ok c => (s1, [c])
  | Err m => (with_analysis s1 None None false m, [])
  end.

(** Lines 232–244: the reply arrives. *)
Definition analyze_finish (s : page_state) (r : analyze_reply) : page_state :=
  match analyze_result r with
  | Ok a => with_analysis s (Some a) (ps_submit_result s) false (ps_error s)
  | Err m => with_analysis s (ps_analysis s) (ps_submit_result s) false m
  end.

(** [handleAnalyze] run to completion without interleaving. *)
Definition handle_analyze (s : page_state) (r : analyze_reply) : page_state * list call :=
  let '(s1, calls) := analyze_start s in
  match calls with
  | [] => (s1, [])
  | _ => (analyze_finish s1 r, calls)
  end.

(** Line 422: switching the source tab resets the inputs and the panels. *)
Definition select_source (s : page_state) (k : source_kind) : page_state :=
  {| ps_address := ps_address s; ps_pera := ps_pera s; ps_mode := ps_mode s;
     ps_source := k; ps_repo_url := ""; ps_file := None;
     ps_analysis := None; ps_submit_result := None;
     ps_analyzing := ps_analyzing s; ps_submitting := ps_submitting s; ps_error := "";
     ps_wallet_input := ps_wallet_input s |}.

(** Line 775: "Submit Another". *)
Definition submit_another (s : page_state) : page_state :=
  {| ps_address := ps_address s; ps_pera := ps_pera s; ps_mode := ps_mode s;
     ps_source := ps_source s; ps_repo_url := ""; ps_file := None;
     ps_analysis := None; ps_submit_result := None;
     ps_analyzing := ps_analyzing s; ps_submitting := ps_submitting s; ps_error := "";
     ps_wallet_input := ps_wallet_input s |}.

(** ** Strings as bytes *)

(** Every character is 7-bit, so its byte is its UTF-8 encoding. *)
Definition ascii_only (s : string) : bool :=
  forallb (fun c => (nat_of_ascii c <? 128)%nat) (list_ascii_of_string s).

Lemma byte_val_of_ascii (c : ascii) : Codec.byte_val (byte_of_ascii c) = Z.of_nat (nat_of_ascii c).
Proof. destruct c as [[] [] [] [] [] [] [] []]; reflexivity. Qed.

Lemma ascii_utf8_valid (s : string) :
  ascii_only s = true -> Codec.utf8_valid (list_byte_of_string s) = true.
Proof.
  induction s as [|c s IH]; intros H; [reflexivity|].
  simpl in H |- *. apply andb_true_iff in H as [Hc Hs]. apply Nat.ltb_lt in Hc.
  rewrite byte_val_of_ascii.
  replace (Z.of_nat (nat_of_ascii c) <=? 127)%Z with true by (symmetry; apply Z.leb_le; lia).
  now apply IH.
Qed.

Lemma length_list_byte_of_string (s : string) : length (list_byte_of_string s) = String.length s.
Proof. induction s; simpl; auto. Qed.

(** ** What a submission needs to be stored and read back *)

(** The analysis has a score in [[0, 1]], the clock is a uint64 number of
    seconds, and the three strings are 7-bit and fit one ARC-4 frame. *)
Definition submission_storable (a : analysis) (now_ms : Z) : bool :=
  Qle_bool 0 (overall_score a) && Qle_bool (overall_score a) 1 &&
  (0 <=? now_ms)%Z && (now_ms <? 1000 * 2 ^ 64)%Z &&
  ascii_only (mode_arg a) && ascii_only (domain_arg a) && ascii_only (artifact_hash_arg a) &&
  (Z.of_nat (String.length (mode_arg a) + String.length (domain_arg a)
     + String.length (artifact_hash_arg a)) <? 65500)%Z.

Lemma score_arg_range (a : analysis) :
  (0 <= overall_score a <= 1)%Q -> (0 <= score_arg a <= 100)%Z.
Proof.
  intros [H0 H1]. unfold score_arg. apply js_round_bounds.
  unfold inject_Z. split; lra.
Qed.

Lemma storable_record_wf (a : analysis) (now_ms : Z) :
  submission_storable a now_ms = true ->
  Codec.record_wf (record_of_args (submission_args a now_ms)) = true.
Proof.
  unfold submission_storable. intros H.
  repeat rewrite andb_true_iff in H.
  destruct H as [[[[[[[H0 H1] Ht0] Ht1] Hm] Hd] Hh] Hlen].
  apply Qle_bool_iff in H0, H1. apply Z.leb_le in Ht0. apply Z.ltb_lt in Ht1.
  apply Z.ltb_lt in Hlen.
  pose proof (score_arg_range a (conj H0 H1)) as Hs.
  apply Codec.record_wf_iff. unfold record_of_args, submission_args.
  cbn [Codec.mode Codec.domain Codec.score Codec.artifact_hash Codec.timestamp
       arg_mode arg_domain arg_score arg_hash arg_timestamp].
  rewrite !ascii_utf8_valid by assumption.
  split; [reflexivity|]. split; [reflexivity|]. split; [reflexivity|].
  split; [exact Hs|]. split.
  - unfold unix_seconds. split; [apply Z.div_pos; lia|].
    apply Z.div_lt_upper_bound; lia.
  - rewrite Codec.encode_struct_length.
    cbn [Codec.mode Codec.domain Codec.artifact_hash].
    rewrite !length_list_byte_of_string. lia.
Qed.

(** The wallet [handleSubmit] uses (line 251). *)
Definition submit_wallet (s : page_state) : string :=
  js_or_default (Some (ps_address s)) (ps_wallet_input s).

(** The calls of a submission that reached the network. *)
Definition submit_calls (w : string) (a : analysis) (env : submit_env) : list call :=
  [PostPrepare w; GetParams; SendAppCall APP_ID w (submission_args a (env_now_ms env))].

Definition with_prepare (env : submit_env) (r : result string Z) : submit_env :=
  {| env_prepare := r; env_params := env_params env; env_address := env_address env;
     env_execute := env_execute env; env_now_ms := env_now_ms env |}.

Lemma js_or_default_nonempty (m d : string) : d <> "" -> js_or_default (Some m) d <> "".
Proof.
  intros Hd. unfold js_or_default, js_or, truthy.
  destruct (String.eqb_spec m ""); simpl; [exact Hd|exact n].
Qed.

(** A failed step of [submit_try]: the page settles with an error after
    the first [n] calls. *)
Local Ltac fail_branch n Hne :=
  split; [reflexivity|]; right; split; [reflexivity|]; split; [apply Hne|];
  exists n; split; [lia|reflexivity].

(** ** Theorems *)

(** C1: Every record a wallet submits from this page, with an analysis
    score in [0, 1], is stored by the contract's encoder and read back by
    the ledger decoder, in submission order, with the fields the page
    means to send: mode [source_type || 'ai-graded'], the domain of the
    first detected domain, score [Math.round(overall_score * 100)] (so in
    [0, 100], never tripping the decoder's [FieldBoundsError]), the
    metadata's hash, and the time in whole seconds. *)
Theorem submissions_roundtrip (subs : list (analysis * Z)) :
  Forall (fun '(a, t) => submission_storable a t = true) subs ->
  Codec.decode_blob (Codec.encode_blob (map (fun '(a, t) => record_of_args (submission_args a t)) subs))
    = Ok (map (fun '(a, t) =>
                 Codec.mkRecord (list_byte_of_string (js_or_default (source_type a) "ai-graded"))
                   (list_byte_of_string (domain_arg a)) (js_round (overall_score a * 100))
                   (list_byte_of_string (artifact_hash_arg a)) (t / 1000)) subs).
Proof.
  intros H. rewrite Codec.decode_blob_roundtrip
    by (apply Forall_map; eapply Forall_impl; [exact H|];
        intros [a t] Ht; now apply storable_record_wf).
  all: f_equal; apply map_ext; intros [a t]; reflexivity.
Qed.

(** C13: [handleSubmit] does nothing without an analysis; with one, the
    wallet it uses is [address || walletInput], and when that has fewer
    than 58 characters (an Algorand address has 58) it only reports
    "Please connect your wallet first." and makes no call, while with 58
    characters or more it calls [/submit/prepare] for that wallet first. *)
Theorem handle_submit_guards (s : page_state) (env : submit_env) :
  (ps_analysis s = None -> handle_submit s env = (s, [])) /\
  (forall a, ps_analysis s = Some a ->
     (String.length (js_or_default (Some (ps_address s)) (ps_wallet_input s)) < 58)%nat ->
     handle_submit s env = (set_error s "Please connect your wallet first.", [])) /\
  (forall a, ps_analysis s = Some a ->
     (58 <= String.length (js_or_default (Some (ps_address s)) (ps_wallet_input s)))%nat ->
     exists cs, snd (handle_submit s env) =
       PostPrepare (js_or_default (Some (ps_address s)) (ps_wallet_input s)) :: cs).
Proof.
  unfold handle_submit, submit_start. split; [|split].
  - intros ->. reflexivity.
  - intros a -> Hl. unfold wallet_ok.
    rewrite (proj2 (Nat.leb_gt _ _) Hl), andb_false_r. reflexivity.
  - intros a -> Hl. unfold wallet_ok.
    assert (Ht : truthy (Some (js_or_default (Some (ps_address s)) (ps_wallet_input s))) = true).
    { apply truthy_Some. intros E. rewrite E in Hl. simpl in Hl. lia. }
    rewrite Ht, (proj2 (Nat.leb_le _ _) Hl). cbn [andb negb].
    unfold submit_finish, submit_try.
    destruct (env_prepare env); [|eexists; reflexivity].
    destruct (env_params env); [|eexists; reflexivity].
    destruct (env_address env); [|eexists; reflexivity].
    destruct (negb (ps_pera s)); [eexists; reflexivity|].
    destruct (env_execute env); eexists; reflexivity.
Qed.

(** C5: Once past its guards, [handleSubmit] always settles: [submitting]
    is false again, and either the success panel shows the submitted score
    and domain after the prepare, params and application calls, or the
    previous panel is kept, an error message is shown and the calls made
    are a prefix of those. *)
Theorem handle_submit_settles (s : page_state) (env : submit_env) (a : analysis) :
  ps_analysis s = Some a -> wallet_ok (submit_wallet s) = true ->
  ps_submitting (fst (handle_submit s env)) = false /\
  ((exists r, ps_submit_result (fst (handle_submit s env)) = Some r /\
      sr_score r = score_arg a /\ sr_skill_id r = domain_arg a /\
      snd (handle_submit s env) = submit_calls (submit_wallet s) a env) \/
   (ps_submit_result (fst (handle_submit s env)) = ps_submit_result s /\
    ps_error (fst (handle_submit s env)) <> "" /\
    exists n, (1 <= n)%nat /\
      snd (handle_submit s env) = firstn n (submit_calls (submit_wallet s) a env))).
Proof.
  intros Ha Hw. unfold handle_submit, submit_start. rewrite Ha. fold (submit_wallet s). rewrite Hw.
  cbn [negb]. unfold submit_finish, submit_try, submit_calls.
  assert (Hne : forall m, js_or_default (Some m) "Submission failed" <> "")
    by (intros m; apply js_or_default_nonempty; discriminate).
  destruct (env_prepare env); [|fail_branch 1%nat Hne].
  destruct (env_params env); [|fail_branch 2%nat Hne].
  destruct (env_address env); [|fail_branch 2%nat Hne].
  destruct (ps_pera s); cbn [negb]; [|fail_branch 2%nat Hne].
  destruct (env_execute env); [|fail_branch 3%nat Hne].
  split; [reflexivity|]. left. eexists. repeat split.
Qed.

(** The answer of [/submit/prepare] is never inspected: whatever HTTP
    status it returns (a failed box funding included), [handleSubmit]
    behaves the same and goes on to submit the transaction. *)
Theorem prepare_status_ignored (s : page_state) (env : submit_env) (st1 st2 : Z) :
  handle_submit s (with_prepare env (Ok st1)) = handle_submit s (with_prepare env (Ok st2)).
Proof. reflexivity. Qed.

(** ** Concrete instances *)

Definition sample_analysis : analysis :=
  {| overall_score := 87 # 100; meta_artifact_hash := Some "ab12"; meta_sha256 := None;
     meta_project_hash := None;
     domains := [{| de_domain := Some "python"; de_subdomain := Some "web" |}];
     source_type := Some "repo" |}.

Definition sample_page (a : option analysis) : page_state :=
  {| ps_address := "ABCDEFGHIJKLMNOPQRSTUVWXYZABCDEFGHIJKLMNOPQRSTUVWXYZ234567";
     ps_pera := true; ps_mode := "developer"; ps_source := SrcRepo;
     ps_repo_url := "https://github.com/a/one"; ps_file := None; ps_analysis := a;
     ps_submit_result := None; ps_analyzing := false; ps_submitting := false;
     ps_error := ""; ps_wallet_input := "" |}.

Definition sample_env : submit_env :=
  {| env_prepare := Ok 200%Z; env_params := Ok tt; env_address := Ok tt;
     env_execute := Ok "TXID"; env_now_ms := 1700000000000%Z |}.

Lemma submissions_roundtrip_witness :
  Forall (fun '(a, t) => submission_storable a t = true)
    [(sample_analysis, 1700000000000%Z); (sample_analysis, 1700000001000%Z)] /\
  Codec.decode_blob (Codec.encode_blob (map (fun '(a, t) => record_of_args (submission_args a t))
    [(sample_analysis, 1700000000000%Z); (sample_analysis, 1700000001000%Z)]))
    = Ok [Codec.mkRecord (list_byte_of_string "repo") (list_byte_of_string "python:web") 87
            (list_byte_of_string "ab12") 1700000000;
          Codec.mkRecord (list_byte_of_string "repo") (list_byte_of_string "python:web") 87
            (list_byte_of_string "ab12") 1700000001].
Proof.
  assert (H : Forall (fun '(a, t) => submission_storable a t = true)
    [(sample_analysis, 1700000000000%Z); (sample_analysis, 1700000001000%Z)])
    by (repeat constructor; vm_compute; reflexivity).
  split; [exact H|]. rewrite (submissions_roundtrip _ H). reflexivity.
Defined.

Definition short_wallet_page : page_state :=
  {| ps_address := "short"; ps_pera := true; ps_mode := "developer"; ps_source := SrcRepo;
     ps_repo_url := ""; ps_file := None; ps_analysis := Some sample_analysis;
     ps_submit_result := None; ps_analyzing := false; ps_submitting := false;
     ps_error := ""; ps_wallet_input := "" |}.

Lemma handle_submit_guards_witness :
  handle_submit (sample_page None) sample_env = (sample_page None, []) /\
  handle_submit short_wallet_page sample_env
    = (set_error short_wallet_page "Please connect your wallet first.", []).
Proof.
  split.
  - apply (proj1 (handle_submit_guards (sample_page None) sample_env)). reflexivity.
  - apply (proj1 (proj2 (handle_submit_guards short_wallet_page sample_env)) sample_analysis);
      [reflexivity | vm_compute; lia].
Defined.

Lemma handle_submit_settles_witness :
  ps_submitting (fst (handle_submit (sample_page (Some sample_analysis)) sample_env)) = false.
Proof.
  refine (proj1 (handle_submit_settles (sample_page (Some sample_analysis)) sample_env
                   sample_analysis _ _)); reflexivity.
Defined.

End Submit.
