(* ===== verification/SubmitFlow.v ===== *)
(** * SubmitFlow: interleavings of the submission page's events

    The handlers of [Submit] run inside a page whose buttons are enabled
    by the rendered state ([src/unnamed/part_001] lines 392, 422, 440,
    473–477, 517, 705–716, 775).  [handleAnalyze] is asynchronous: its
    start (lines 206–230) and the arrival of its reply (lines 232–244)
    are separate events, and any pending reply may arrive first.  The
    state adds to the page the pending requests; events fire only when
    the page enables them.  [handleSubmit] is asynchronous too: its
    synchronous start ([Submit.submit_start]) and the settling of its
    awaits ([Submit.submit_finish], with the wallet, [peraWallet] and
    analysis its closure captured) are separate events.  Its own button
    is disabled while it runs, but the source tabs (line 422) and the
    Analyze button (line 477) are not, so they can fire in between. *)

From Stdlib Require Import ZArith QArith Lia List String.
From stdpp Require Import base decidable.
From S2P Require Import Prelude Codec Submit.
Import ListNotations Submit.

Module SubmitFlow.

Local Open Scope string_scope.

(** The page with the requests of [handleAnalyze] still waiting for their
    reply and the [handleSubmit] calls still in their awaits, numbered in
    the order they were made. *)
Record flow := {
  fl_page : page_state;
  fl_connected : bool;                  (** [connected] from the wallet context *)
  fl_pending : list (nat * call);
  fl_submits : list (nat * (string * bool * analysis));   (** wallet, peraWallet, analysis *)
  fl_next : nat
}.

(** What the user and the network can do. *)
Inductive ui_event :=
| TypeRepoUrl (u : string)              (** line 439 *)
| PickFile (f : string)                 (** lines 450, 462 *)
| Tab (k : source_kind)                 (** line 422 *)
| ClickAnalyze                          (** lines 473–477 *)
| PressEnter                            (** line 440 *)
| Reply (id : nat) (r : analyze_reply)  (** a pending request is answered *)
| ClickSubmit                           (** lines 713–716 *)
| SubmitReply (id : nat) (env : submit_env)   (** the awaits of a submission settle *)
| ClickSubmitAnother.                   (** line 775 *)

Definition set_repo_url (s : page_state) (u : string) : page_state :=
  {| ps_address := ps_address s; ps_pera := ps_pera s; ps_mode := ps_mode s;
     ps_source := ps_source s; ps_repo_url := u; ps_file := ps_file s;
     ps_analysis := ps_analysis s; ps_submit_result := ps_submit_result s;
     ps_analyzing := ps_analyzing s; ps_submitting := ps_submitting s; ps_error := ps_error s;
     ps_wallet_input := ps_wallet_input s |}.

Definition set_file (s : page_state) (f : string) : page_state :=
  {| ps_address := ps_address s; ps_pera := ps_pera s; ps_mode := ps_mode s;
     ps_source := ps_source s; ps_repo_url := ps_repo_url s; ps_file := Some f;
     ps_analysis := ps_analysis s; ps_submit_result := ps_submit_result s;
     ps_analyzing := ps_analyzing s; ps_submitting := ps_submitting s; ps_error := ps_error s;
     ps_wallet_input := ps_wallet_input s |}.

Definition is_repo (k : source_kind) : bool := match k with SrcRepo => true | _ => false end.

(** Line 477: [disabled={analyzing || (sourceType === 'repo' ? !repoUrl : !selectedFile)}]. *)
Definition analyze_enabled (s : page_state) : bool :=
  negb (ps_analyzing s) &&
  (if is_repo (ps_source s) then truthy (Some (ps_repo_url s))
   else match ps_file s with Some _ => true | None => false end).

(** Lines 347, 517, 705 and 716: the submit button is shown for a loaded
    analysis with no result yet, and enabled unless a submission runs or
    no wallet is known. *)
Definition submit_enabled (s : page_state) (connected : bool) : bool :=
  let needsWallet := negb (truthy (Some (ps_address s))) && negb connected in
  match ps_analysis s with Some _ => true | None => false end &&
  negb (ps_analyzing s) &&
  match ps_submit_result s with Some _ => false | None => true end &&
  negb (ps_submitting s) && negb needsWallet.

(** Start [handleAnalyze]: record the request it made, if any. *)
Definition start_analyze (f : flow) : flow :=
  let '(s1, calls) := analyze_start (fl_page f) in
  match calls with
  | [c] => {| fl_page := s1; fl_connected := fl_connected f;
              fl_pending := (fl_pending f ++ [(fl_next f, c)])%list; fl_submits := fl_submits f;
              fl_next := S (fl_next f) |}
  | _ => {| fl_page := s1; fl_connected := fl_connected f;
            fl_pending := fl_pending f; fl_submits := fl_submits f; fl_next := fl_next f |}
  end.

Definition with_page (f : flow) (s : page_state) : flow :=
  {| fl_page := s; fl_connected := fl_connected f; fl_pending := fl_pending f;
     fl_submits := fl_submits f; fl_next := fl_next f |}.

(** One event, when the page enables it; [None] when it cannot happen.
    The calls it makes to the backend and the chain are returned. *)
Definition ui_exec (f : flow) (e : ui_event) : option (flow * list call) :=
  let s := fl_page f in
  match e with
  | TypeRepoUrl u =>
      if is_repo (ps_source s) then Some (with_page f (set_repo_url s u), []) else None
  | PickFile x =>
      if is_repo (ps_source s) then None else Some (with_page f (set_file s x), [])
  | Tab k => Some (with_page f (select_source s k), [])
  | ClickAnalyze =>
      if analyze_enabled s then
        let f' := start_analyze f in
        Some (f', match analyze_request s with Ok c => [c] | Err _ => [] end)
      else None
  | PressEnter =>
      if is_repo (ps_source s) then
        let f' := start_analyze f in
        Some (f', match analyze_request s with Ok c => [c] | Err _ => [] end)
      else None
  | Reply id r =>
      if existsb (fun p => Nat.eqb (fst p) id) (fl_pending f) then
        Some ({| fl_page := analyze_finish s r; fl_connected := fl_connected f;
                 fl_pending := List.filter (fun p => negb (Nat.eqb (fst p) id)) (fl_pending f);
                 fl_submits := fl_submits f; fl_next := fl_next f |}, [])
      else None
  | ClickSubmit =>
      if submit_enabled s (fl_connected f) then
        match submit_start s with
        | (s1, Some (w, a)) =>
            Some ({| fl_page := s1; fl_connected := fl_connected f; fl_pending := fl_pending f;
                     fl_submits := (fl_submits f ++ [(fl_next f, (w, ps_pera s, a))])%list;
                     fl_next := S (fl_next f) |}, [])
        | (s1, None) => Some (with_page f s1, [])
        end
      else None
  | SubmitReply id env =>
      match List.find (fun p => Nat.eqb (fst p) id) (fl_submits f) with
      | Some (_, (w, pera, a)) =>
          let '(s', calls) := submit_finish s w pera a env in
          Some ({| fl_page := s'; fl_connected := fl_connected f; fl_pending := fl_pending f;
                   fl_submits := List.filter (fun p => negb (Nat.eqb (fst p) id)) (fl_submits f);
                   fl_next := fl_next f |}, calls)
      | None => None
      end
  | ClickSubmitAnother =>
      match ps_submit_result s with
      | Some _ => Some (with_page f (submit_another s), [])
      | None => None
      end
  end.

(** A run of events from a state: each must be enabled when it fires. *)
Fixpoint ui_run (f : flow) (es : list ui_event) : option (flow * list call) :=
  match es with
  | [] => Some (f, [])
  | e :: es' =>
      match ui_exec f e with
      | Some (f1, c1) =>
          match ui_run f1 es' with
          | Some (f2, c2) => Some (f2, (c1 ++ c2)%list)
          | None => None
          end
      | None => None
      end
  end.

(** The page as it mounts (lines 181–191). *)
Definition initial_page (address : string) (pera : bool) : page_state :=
  {| ps_address := address; ps_pera := pera; ps_mode := "developer"; ps_source := SrcRepo;
     ps_repo_url := ""; ps_file := None; ps_analysis := None; ps_submit_result := None;
     ps_analyzing := false; ps_submitting := false; ps_error := "";
     ps_wallet_input := address |}.

Definition initial_flow (address : string) (pera connected : bool) : flow :=
  {| fl_page := initial_page address pera; fl_connected := connected;
     fl_pending := []; fl_submits := []; fl_next := 0 |}.

(** ** At most one analysis in flight when the button is the only trigger *)

(** [analyzing] is set exactly while a request is pending, and at most one is. *)
Definition single_flight (f : flow) : Prop :=
  (ps_analyzing (fl_page f) = true <-> fl_pending f <> []) /\ (length (fl_pending f) <= 1)%nat.

Definition not_enter (e : ui_event) : bool := match e with PressEnter => false | _ => true end.

Lemma submit_start_analyzing (s : page_state) :
  ps_analyzing (fst (submit_start s)) = ps_analyzing s.
Proof. unfold submit_start. destruct (ps_analysis s); [destruct (negb _)|]; reflexivity. Qed.

Lemma submit_finish_analyzing (s : page_state) (w : string) (p : bool) (a : analysis)
    (env : submit_env) :
  ps_analyzing (fst (submit_finish s w p a env)) = ps_analyzing s.
Proof. unfold submit_finish. destruct (submit_try _ _ _ _) as [[r|m] calls]; reflexivity. Qed.

Lemma start_analyze_single (f : flow) :
  fl_pending f = [] -> single_flight (start_analyze f).
Proof.
  intros Hp. unfold start_analyze, analyze_start.
  destruct (analyze_request (fl_page f)); simpl; rewrite Hp; unfold single_flight; simpl;
    split; try lia;
    split; intros H; try discriminate; try reflexivity; exfalso; apply H; reflexivity.
Qed.

Lemma filter_single (id : nat) (l : list (nat * call)) :
  (length l <= 1)%nat -> existsb (fun p => Nat.eqb (fst p) id) l = true ->
  List.filter (fun p => negb (Nat.eqb (fst p) id)) l = [].
Proof.
  destruct l as [|[i c] [|q l]]; simpl; intros Hl He; try lia; try discriminate.
  rewrite orb_false_r in He. simpl in He |- *. now rewrite He.
Qed.

(** Every event but [PressEnter] keeps [single_flight]. *)
Lemma ui_exec_single_flight (f f' : flow) (e : ui_event) (cs : list call) :
  single_flight f -> not_enter e = true -> ui_exec f e = Some (f', cs) -> single_flight f'.
Proof.
  intros [Ha Hl] He Hx. destruct e; simpl in He, Hx; try discriminate.
  - destruct (is_repo _); inversion Hx; subst; split; assumption.
  - destruct (is_repo _); inversion Hx; subst; split; assumption.
  - inversion Hx; subst; split; assumption.
  - destruct (analyze_enabled (fl_page f)) eqn:En; inversion Hx; subst.
    apply start_analyze_single. unfold analyze_enabled in En.
    apply andb_true_iff in En as [En _]. apply negb_true_iff in En.
    destruct (fl_pending f); [reflexivity|].
    exfalso. assert (p :: l <> []) as N by discriminate. apply Ha in N. congruence.
  - destruct (existsb _ _) eqn:Ex; inversion Hx; subst. simpl.
    rewrite filter_single by assumption.
    unfold analyze_finish, single_flight. destruct (analyze_result r); simpl; split; try (simpl; lia);
      split; intros H; try discriminate; exfalso; apply H; reflexivity.
  - destruct (submit_enabled _ _); [|discriminate].
    pose proof (submit_start_analyzing (fl_page f)) as HA.
    destruct (submit_start (fl_page f)) as [s1 [[w a]|]]; inversion Hx; subst;
      unfold single_flight; simpl in HA |- *; rewrite HA; split; assumption.
  - destruct (List.find _ _) as [[i [[w p] a]]|]; [|discriminate].
    pose proof (submit_finish_analyzing (fl_page f) w p a env) as HA.
    destruct (submit_finish (fl_page f) w p a env) as [s' calls].
    inversion Hx; subst. unfold single_flight. simpl in HA |- *. rewrite HA. split; assumption.
  - destruct (ps_submit_result _); inversion Hx; subst; split; assumption.
Qed.

(** Runs keep every property each allowed event keeps. *)
Lemma ui_run_invariant (P : flow -> Prop) (ok : ui_event -> bool) :
  (forall f e f' cs, P f -> ok e = true -> ui_exec f e = Some (f', cs) -> P f') ->
  forall es f f' cs, P f -> forallb ok es = true -> ui_run f es = Some (f', cs) -> P f'.
Proof.
  intros Hstep es. induction es as [|e es IH]; intros f f' cs Hf Hes Hr; simpl in Hr.
  - now inversion Hr; subst.
  - simpl in Hes. apply andb_true_iff in Hes as [He Hes].
    destruct (ui_exec f e) as [[f1 c1]|] eqn:Hx; [|discriminate].
    destruct (ui_run f1 es) as [[f2 c2]|] eqn:Hr'; [|discriminate].
    inversion Hr; subst. eapply IH; [eapply Hstep; eauto | exact Hes | exact Hr'].
Qed.

Lemma ui_run_single_flight (es : list ui_event) (f f' : flow) (cs : list call) :
  single_flight f -> forallb not_enter es = true -> ui_run f es = Some (f', cs) ->
  single_flight f'.
Proof. apply ui_run_invariant. intros; eapply ui_exec_single_flight; eauto. Qed.

Lemma initial_single_flight (a : string) (p c : bool) : single_flight (initial_flow a p c).
Proof. unfold single_flight. simpl. split; [split; [discriminate | intros H; now exfalso] | lia]. Qed.

(** ** Theorems *)

(** ** A submission outlives the analysis it submitted *)

(** C8: The Submit button is disabled while a submission runs, but the
    source tabs are not: when a tab is switched while [handleSubmit] is in
    its awaits, the tab clears the analysis (line 422), and when the
    submission then succeeds its result is set (line 325), so the success
    panel is shown with no analysis beside it. *)
Theorem tab_during_submit_orphans_result (f f1 f2 f3 : flow) (k : source_kind)
    (env : submit_env) (a : analysis) (res : submit_result) (c1 c2 cs : list call) :
  fl_submits f = [] -> ps_analysis (fl_page f) = Some a ->
  fst (submit_try (submit_wallet (fl_page f)) (ps_pera (fl_page f)) a env) = Ok res ->
  ui_exec f ClickSubmit = Some (f1, c1) ->
  ui_exec f1 (Tab k) = Some (f2, c2) ->
  ui_exec f2 (SubmitReply (fl_next f) env) = Some (f3, cs) ->
  ps_submit_result (fl_page f3) = Some res /\ ps_analysis (fl_page f3) = None.
Proof.
  intros Hs Ha Hok H1 H2 H3. simpl in H1.
  destruct (submit_enabled _ _); [|discriminate].
  unfold submit_start in H1. rewrite Ha in H1. fold (submit_wallet (fl_page f)) in H1.
  destruct (negb (wallet_ok _)); injection H1 as <- <-; injection H2 as <- <-;
    simpl in H3; rewrite Hs in H3; simpl in H3; [discriminate|].
  rewrite Nat.eqb_refl in H3. unfold submit_finish in H3.
  destruct (submit_try _ _ _ _) as [r calls] eqn:Ht. simpl in Hok. subst r.
  injection H3 as <- _. split; reflexivity.
Qed.

(** C4: Driven by its buttons alone, the submission page never has more
    than one analysis request in flight, and its spinner ([analyzing]) is
    on exactly while one is pending: replies cannot overtake each other. *)
Theorem button_only_single_flight (addr : string) (pera connected : bool)
    (es : list ui_event) (f' : flow) (cs : list call) :
  forallb not_enter es = true ->
  ui_run (initial_flow addr pera connected) es = Some (f', cs) ->
  (length (fl_pending f') <= 1)%nat /\
  (ps_analyzing (fl_page f') = true <-> fl_pending f' <> []).
Proof.
  intros Hes Hr.
  destruct (ui_run_single_flight es _ _ _ (initial_single_flight addr pera connected) Hes Hr)
    as [H1 H2].
  split; assumption.
Qed.

(** ** The Enter key bypasses the [analyzing] guard *)

Definition demo_wallet : string :=
  "ABCDEFGHIJKLMNOPQRSTUVWXYZABCDEFGHIJKLMNOPQRSTUVWXYZ234567ABCDEF".

Definition demo_analysis (h : string) : analysis :=
  {| overall_score := 4 # 5; meta_artifact_hash := Some h; meta_sha256 := None;
     meta_project_hash := None; domains := [{| de_domain := Some "python"; de_subdomain := None |}];
     source_type := Some "github" |}.

Definition demo_env : submit_env :=
  {| env_prepare := Ok 200%Z; env_params := Ok tt; env_address := Ok tt;
     env_execute := Ok "TXID"; env_now_ms := 1708560000000%Z |}.

(** C24: The Enter key (line 440) starts an analysis without the
    [analyzing] guard of the button.  From any page with a request [i1]
    still pending, Enter sends the URL in the input as a new request;
    when the new request is answered first and [i1] after it, the page
    ends with [i1]'s analysis, the spinner off, and the input still
    holding the URL that Enter sent: the stale analysis is the one shown
    and the one the Submit button would send. *)
Theorem enter_key_stale_submission (f f1 f2 f3 : flow) (i1 : nat) (r1 r2 : analyze_reply)
    (a1 : analysis) (c1 c2 c3 : list call) :
  ui_exec f PressEnter = Some (f1, c1) ->
  ui_exec f1 (Reply (fl_next f) r2) = Some (f2, c2) ->
  ui_exec f2 (Reply i1 r1) = Some (f3, c3) ->
  analyze_result r1 = Ok a1 ->
  i1 <> fl_next f /\ ps_analysis (fl_page f3) = Some a1 /\
  ps_analyzing (fl_page f3) = false /\ ps_repo_url (fl_page f3) = ps_repo_url (fl_page f).
Proof.
  intros H1 H2 H3 Hr. simpl in H1. destruct (is_repo _); [|discriminate].
  injection H1 as <- _. simpl in H2, H3.
  destruct (existsb _ _) eqn:E2 in H2; [|discriminate]. injection H2 as <- _.
  destruct (existsb _ _) eqn:E3 in H3; [|discriminate]. injection H3 as <- _.
  simpl in E3. unfold analyze_finish. rewrite Hr. simpl.
  split; [|destruct (analyze_result r2); simpl; repeat split; unfold start_analyze, analyze_start;
           destruct (analyze_request (fl_page f)); cbn; reflexivity].
  intros ->. apply existsb_exists in E3 as [[i c] [Hin Hi]]. simpl in Hi.
  apply Nat.eqb_eq in Hi. subst i. apply filter_In in Hin as [_ Hn]. simpl in Hn.
  rewrite Nat.eqb_refl in Hn. discriminate.
Qed.

Definition button_run : list ui_event :=
  [TypeRepoUrl "https://github.com/a/one"; ClickAnalyze; Reply 0 (ReplyOk (demo_analysis "h"))].

Lemma button_only_single_flight_witness :
  forallb not_enter button_run = true /\
  match ui_run (initial_flow demo_wallet true true) button_run with
  | Some (f', cs) => (length (fl_pending f') <= 1)%nat
  | None => False
  end.
Proof.
  split; [reflexivity|].
  destruct (ui_run (initial_flow demo_wallet true true) button_run) as [[f' cs]|] eqn:Hr;
    [|vm_compute in Hr; discriminate].
  exact (proj1 (button_only_single_flight demo_wallet true true button_run f' cs eq_refl Hr)).
Defined.

(** A page with an analysis loaded and a wallet, ready to submit. *)
Definition ready_flow : flow :=
  {| fl_page := {| ps_address := demo_wallet; ps_pera := true; ps_mode := "developer";
                   ps_source := SrcRepo; ps_repo_url := "https://github.com/a/one"; ps_file := None;
                   ps_analysis := Some (demo_analysis "h"); ps_submit_result := None;
                   ps_analyzing := false; ps_submitting := false; ps_error := "";
                   ps_wallet_input := demo_wallet |};
     fl_connected := true; fl_pending := []; fl_submits := []; fl_next := 0 |}.

Lemma tab_during_submit_orphans_result_witness :
  match ui_exec ready_flow ClickSubmit with
  | Some (f1, _) =>
      match ui_exec f1 (Tab SrcCertificate) with
      | Some (f2, _) =>
          match ui_exec f2 (SubmitReply 0 demo_env) with
          | Some (f3, _) => ps_analysis (fl_page f3) = None
          | None => False
          end
      | None => False
      end
  | None => False
  end.
Proof.
  destruct (ui_exec ready_flow ClickSubmit) as [[f1 c1]|] eqn:H1; [|vm_compute in H1; discriminate].
  pose proof H1 as H1'. vm_compute in H1'. injection H1' as E1 _.
  destruct (ui_exec f1 (Tab SrcCertificate)) as [[f2 c2]|] eqn:H2;
    [|subst f1; vm_compute in H2; discriminate].
  pose proof H2 as H2'. subst f1. vm_compute in H2'. injection H2' as E2 _.
  destruct (ui_exec f2 (SubmitReply 0 demo_env)) as [[f3 c3]|] eqn:H3;
    [|subst f2; vm_compute in H3; discriminate].
  refine (proj2 (tab_during_submit_orphans_result ready_flow _ f2 f3 SrcCertificate demo_env
                   (demo_analysis "h") _ _ c2 c3 eq_refl eq_refl _ H1 H2 H3)).
  reflexivity.
Defined.

(** A page with one analysis request in flight (started by the button). *)
Definition one_pending : flow :=
  match ui_run (initial_flow demo_wallet true true)
          [TypeRepoUrl "https://github.com/a/one"; ClickAnalyze] with
  | Some (f, _) => f
  | None => initial_flow demo_wallet true true
  end.

Lemma enter_key_stale_submission_witness :
  match ui_exec one_pending PressEnter with
  | Some (f1, _) =>
      match ui_exec f1 (Reply 1 (ReplyOk (demo_analysis "new"))) with
      | Some (f2, _) =>
          match ui_exec f2 (Reply 0 (ReplyOk (demo_analysis "old"))) with
          | Some (f3, _) => ps_analysis (fl_page f3) = Some (demo_analysis "old")
          | None => False
          end
      | None => False
      end
  | None => False
  end.
Proof.
  destruct (ui_exec one_pending PressEnter) as [[f1 c1]|] eqn:H1; [|vm_compute in H1; discriminate].
  pose proof H1 as H1'. vm_compute in H1'. injection H1' as E1 _.
  destruct (ui_exec f1 (Reply 1 (ReplyOk (demo_analysis "new")))) as [[f2 c2]|] eqn:H2;
    [|subst f1; vm_compute in H2; discriminate].
  pose proof H2 as H2'. subst f1. vm_compute in H2'. injection H2' as E2 _.
  destruct (ui_exec f2 (Reply 0 (ReplyOk (demo_analysis "old")))) as [[f3 c3]|] eqn:H3;
    [|subst f2; vm_compute in H3; discriminate].
  exact (proj1 (proj2 (enter_key_stale_submission one_pending _ f2 f3 0 _ _ _ c1 c2 c3 H1 H2 H3
                         eq_refl))).
Defined.

End SubmitFlow.
