(* ===== verification/Wallet.v ===== *)
(** * Wallet: the wallet connection context

    [src/frontend/src/context/WalletContext.jsx] and the Navbar's
    [handleConnect] ([src/unnamed/part_003] lines 8–11).  The provider's
    React state (address, connected, connecting, Pera instance), the
    module-level cached SDK object (line 6) and the [verified_wallet] key
    of [localStorage] form one state; each callback is a function of it
    and of the answers of the Pera SDK.  A JavaScript address may be
    [undefined] (line 44 when [accounts] is empty): it is [None], and
    storing it writes the string ["undefined"].  The operations are also
    gathered in a step relation, with a page reload among them. *)

From Stdlib Require Import ZArith Lia List String.
From stdpp Require Import base decidable.
From S2P Require Import Prelude.
Import ListNotations.

Module Wallet.

Local Open Scope string_scope.

Record wallet_state := {
  w_address : option string;    (** [address]; [None] is [undefined] *)
  w_connected : bool;
  w_connecting : bool;
  w_instance : bool;            (** [peraWalletInstance] is the SDK object *)
  w_sdk : bool;                 (** the module-level [peraWallet] is loaded *)
  w_listeners : nat;            (** ['disconnect'] handlers registered on the connector *)
  w_storage : option string     (** [localStorage.getItem('verified_wallet')] *)
}.

(** [String(x)] as [localStorage.setItem] stores it. *)
Definition stored_string (a : option string) : string :=
  match a with Some s => s | None => "undefined" end.

(** Lines 21–22: the state right after a page load. *)
Definition init (storage : option string) : wallet_state :=
  {| w_address := Some (js_or_default storage "");
     w_connected := truthy storage;
     w_connecting := false; w_instance := false; w_sdk := false; w_listeners := 0;
     w_storage := storage |}.

(** Lines 7–18: [getPeraWallet]; a failed import is not cached. *)
Definition get_pera (s : wallet_state) (sdk_loads : bool) : wallet_state * bool :=
  if w_sdk s then (s, true)
  else if sdk_loads then
    ({| w_address := w_address s; w_connected := w_connected s; w_connecting := w_connecting s;
        w_instance := w_instance s; w_sdk := true; w_listeners := w_listeners s;
        w_storage := w_storage s |}, true)
  else (s, false).

(** Lines 27–32: [handleDisconnect]. *)
Definition handle_disconnect (s : wallet_state) : wallet_state :=
  {| w_address := Some ""; w_connected := false; w_connecting := w_connecting s;
     w_instance := false; w_sdk := w_sdk s; w_listeners := w_listeners s; w_storage := None |}.

(** What [pera.connect()] answers. *)
Inductive connect_answer :=
| Accounts (l : list string)
| ConnectFailed (modal_closed : bool).

(** Lines 34–59: [connectWallet]; returns the new state and its result
    ([None] for [null] or [undefined]).  [has_connector] is whether
    [pera.connector] exists (line 49). *)
Definition connect_wallet (s : wallet_state) (sdk_loads : bool) (ans : connect_answer)
  (has_connector : bool) : wallet_state * option string :=
  let s0 := {| w_address := w_address s; w_connected := w_connected s; w_connecting := true;
               w_instance := w_instance s; w_sdk := w_sdk s; w_listeners := w_listeners s;
               w_storage := w_storage s |} in
  let '(s1, found) := get_pera s0 sdk_loads in
  let done_ (t : wallet_state) :=
    {| w_address := w_address t; w_connected := w_connected t; w_connecting := false;
       w_instance := w_instance t; w_sdk := w_sdk t; w_listeners := w_listeners t;
       w_storage := w_storage t |} in
  if negb found then (done_ s1, None) else
  let s2 := {| w_address := w_address s1; w_connected := w_connected s1;
               w_connecting := w_connecting s1; w_instance := true; w_sdk := w_sdk s1;
               w_listeners := w_listeners s1; w_storage := w_storage s1 |} in
  match ans with
  | ConnectFailed _ => (done_ s2, None)
  | Accounts accounts =>
      let addr := head accounts in
      (done_ {| w_address := addr; w_connected := true; w_connecting := w_connecting s2;
                w_instance := true; w_sdk := w_sdk s2;
                w_listeners := if has_connector then S (w_listeners s2) else w_listeners s2;
                w_storage := Some (stored_string addr) |}, addr)
  end.

(** Lines 61–67: [disconnectWallet]; the SDK is loaded if it was not, and
    a failing [pera.disconnect()] is ignored. *)
Definition disconnect_wallet (s : wallet_state) (sdk_loads : bool) : wallet_state :=
  handle_disconnect (fst (get_pera s sdk_loads)).

(** Lines 70–75: [setManualWallet]. *)
Definition set_manual_wallet (s : wallet_state) (addr : string) : wallet_state :=
  {| w_address := Some addr; w_connected := truthy (Some addr); w_connecting := w_connecting s;
     w_instance := w_instance s; w_sdk := w_sdk s; w_listeners := w_listeners s;
     w_storage := if truthy (Some addr) then Some addr else None |}.

(** Line 85: [shortAddress]. *)
Definition short_address (s : wallet_state) : string :=
  match w_address s with
  | Some a => if truthy (Some a)
              then slice_head 6 a ++ "…" ++ slice_tail 4 a
              else ""
  | None => ""
  end.

(** [src/unnamed/part_003] lines 8–11: the Navbar navigates to the
    dashboard when [connectWallet] returned an address. *)
Definition navbar_connect (s : wallet_state) (sdk_loads : bool) (ans : connect_answer)
  (has_connector : bool) : wallet_state * bool :=
  let '(s', addr) := connect_wallet s sdk_loads ans has_connector in (s', truthy addr).

(** Lines 93–97: [useWallet] outside a [WalletProvider] (no context
    value) throws. *)
Definition use_wallet (ctx : option wallet_state) : result string wallet_state :=
  match ctx with
  | Some s => Ok s
  | None => Err "useWallet must be used within WalletProvider"
  end.

(** [src/unnamed/part_003] lines 13–51: the Navbar's render. *)
Inductive nav_widget :=
| NavLinks                                     (** lines 20–25 *)
| TestnetBadge                                 (** line 28 *)
| AddrBadge (short : string)                   (** line 31 *)
| DisconnectBtn                                (** lines 32–38 *)
| ConnectBtn (enabled : bool) (label : string).   (** lines 41–47 *)

Definition navbar_view (s : wallet_state) : list nav_widget :=
  ([NavLinks; TestnetBadge] ++
   (if w_connected s then [AddrBadge (short_address s); DisconnectBtn]
    else [ConnectBtn (negb (w_connecting s))
                     (if w_connecting s then "⏳ Connecting…" else "⬡ Connect Wallet")]))%list.

(** [SubmitPage.handleSetWallet] ([src/unnamed/part_001] lines 198–202)
    and the manual lookups of the other pages: a manual address is taken
    only when it is at least 58 characters long. *)
Definition handle_set_wallet (s : wallet_state) (input : string) : wallet_state :=
  if (58 <=? String.length input)%nat then set_manual_wallet s input else s.

(** ** The provider as a step relation *)

(** What can happen to the provider, with the SDK's answers. *)
Inductive wallet_event :=
| EvConnect (sdk_loads : bool) (ans : connect_answer) (has_connector : bool)
| EvDisconnect (sdk_loads : bool)
| EvPeraDisconnect                     (** the connector's ['disconnect'] event *)
| EvManual (input : string)            (** a page's manual address *)
| EvReload.                            (** the page is reloaded *)

Definition apply_event (s : wallet_state) (ev : wallet_event) : wallet_state :=
  match ev with
  | EvConnect sdk ans conn => fst (connect_wallet s sdk ans conn)
  | EvDisconnect sdk => disconnect_wallet s sdk
  | EvPeraDisconnect => handle_disconnect s
  | EvManual input => handle_set_wallet s input
  | EvReload => init (w_storage s)
  end.

(** Steps whose events satisfy [ok]. *)
Inductive step (ok : wallet_event -> bool) : wallet_state -> wallet_state -> Prop :=
| step_ev s ev : ok ev = true -> step ok s (apply_event s ev).

Inductive reachable (ok : wallet_event -> bool) (s0 : wallet_state) : wallet_state -> Prop :=
| reach_refl : reachable ok s0 s0
| reach_step s s' : reachable ok s0 s -> step ok s s' -> reachable ok s0 s'.

(** Pera answers with a first account that is a non-empty string. *)
Definition answer_ok (ans : connect_answer) : bool :=
  match ans with
  | Accounts (a :: _) => truthy (Some a)
  | Accounts [] => false
  | ConnectFailed _ => true
  end.

Definition event_ok (ev : wallet_event) : bool :=
  match ev with EvConnect _ ans _ => answer_ok ans | _ => true end.

(** The provider agrees with [localStorage]: connected to a non-empty
    stored address, or disconnected with an empty address and nothing
    stored. *)
Definition consistent (s : wallet_state) : Prop :=
  (w_connected s = true /\ exists a, a <> "" /\ w_address s = Some a /\ w_storage s = Some a) \/
  (w_connected s = false /\ w_address s = Some "" /\ w_storage s = None).

(** A stored value the provider could have written. *)
Definition storage_ok (st : option string) : bool :=
  match st with Some a => truthy (Some a) | None => true end.

(** ** Lemmas *)


Lemma init_consistent (st : option string) : storage_ok st = true -> consistent (init st).
Proof.
  unfold consistent, init, storage_ok. destruct st as [a|]; simpl; intros H.
  - left. split; [exact H|]. exists a. apply truthy_Some in H.
    split; [exact H|]. split; [|reflexivity]. now rewrite js_or_default_truthy.
  - right. repeat split.
Qed.

Lemma consistent_storage_ok (s : wallet_state) : consistent s -> storage_ok (w_storage s) = true.
Proof.
  intros [(_ & a & Ha & _ & ->) | (_ & _ & ->)]; simpl; [now apply truthy_Some | reflexivity].
Qed.

Lemma handle_disconnect_consistent (s : wallet_state) : consistent (handle_disconnect s).
Proof. right. repeat split. Qed.

Lemma get_pera_same (s : wallet_state) (sdk : bool) :
  w_address (fst (get_pera s sdk)) = w_address s /\
  w_connected (fst (get_pera s sdk)) = w_connected s /\
  w_storage (fst (get_pera s sdk)) = w_storage s.
Proof. unfold get_pera. destruct (w_sdk s), sdk; simpl; auto. Qed.

Lemma consistent_ext (s t : wallet_state) :
  w_address t = w_address s -> w_connected t = w_connected s -> w_storage t = w_storage s ->
  consistent s -> consistent t.
Proof. intros Ha Hc Hs. unfold consistent. rewrite Ha, Hc, Hs. tauto. Qed.

(** Each event whose Pera answer is a non-empty account keeps the provider
    consistent with [localStorage]. *)
Lemma apply_event_consistent (s : wallet_state) (ev : wallet_event) :
  consistent s -> event_ok ev = true -> consistent (apply_event s ev).
Proof.
  intros Hs Hev. destruct ev as [sdk ans conn|sdk| |input|]; simpl in Hev |- *.
  - unfold connect_wallet.
    destruct (get_pera _ sdk) as [s1 found] eqn:Hg.
    pose proof (get_pera_same
      {| w_address := w_address s; w_connected := w_connected s; w_connecting := true;
         w_instance := w_instance s; w_sdk := w_sdk s; w_listeners := w_listeners s;
         w_storage := w_storage s |} sdk) as (Ha & Hc & Hst).
    rewrite Hg in Ha, Hc, Hst. simpl in Ha, Hc, Hst.
    destruct found; simpl.
    + destruct ans as [[|a l]|mc]; simpl in Hev; try discriminate.
      * left. split; [reflexivity|]. exists a. apply truthy_Some in Hev. auto.
      * eapply consistent_ext; [exact Ha | exact Hc | exact Hst | exact Hs].
    + eapply consistent_ext; [exact Ha | exact Hc | exact Hst | exact Hs].
  - apply handle_disconnect_consistent.
  - apply handle_disconnect_consistent.
  - unfold handle_set_wallet. destruct (58 <=? String.length input)%nat eqn:Hl; [|exact Hs].
    unfold set_manual_wallet. apply Nat.leb_le in Hl.
    assert (input <> "") as Hne by (intros ->; simpl in Hl; lia).
    assert (truthy (Some input) = true) as Ht by now apply truthy_Some.
    left. cbn [w_connected w_address w_storage]. rewrite Ht.
    split; [reflexivity|]. exists input. auto.
  - apply init_consistent, consistent_storage_ok, Hs.
Qed.

(** ** Theorems *)

(** C3: From any page load whose stored wallet the provider could have
    written, every sequence of connects (with Pera answering a non-empty
    account), disconnects, Pera disconnect events, manual addresses and
    reloads keeps the provider consistent with [localStorage]: connected
    exactly when a non-empty address is stored, and showing that address. *)
Theorem reachable_consistent (st : option string) (s : wallet_state) :
  storage_ok st = true -> reachable event_ok (init st) s -> consistent s.
Proof.
  intros Hst Hr. induction Hr as [|s s' _ IH Hstep].
  - now apply init_consistent.
  - destruct Hstep as [s ev Hok]. now apply apply_event_consistent.
Qed.

(** C23: A reload gives back the session: in a consistent state, the state
    rebuilt from [localStorage] has the same address and connection flag. *)
Theorem reload_preserves_session (s : wallet_state) :
  consistent s ->
  w_address (init (w_storage s)) = w_address s /\ w_connected (init (w_storage s)) = w_connected s.
Proof.
  intros [(Hc & a & Ha & Haddr & Hst) | (Hc & Haddr & Hst)]; unfold init; rewrite Hst; simpl.
  - rewrite js_or_default_truthy by exact Ha. rewrite Haddr, Hc.
    split; [reflexivity|]. now apply truthy_Some.
  - now rewrite Haddr, Hc.
Qed.

(** C34: [connectWallet] does not check that Pera returned an account:
    from any state, once the SDK is available, an empty account list
    returns [undefined], leaves the provider connected with an
    [undefined] address and stores the string ["undefined"], which after
    a reload is taken as the connected wallet. *)
Theorem empty_accounts_connects_undefined (s : wallet_state) (sdk_loads has_connector : bool) :
  w_sdk s = true \/ sdk_loads = true ->
  let '(s1, res) := connect_wallet s sdk_loads (Accounts []) has_connector in
  res = None /\ w_connected s1 = true /\ w_connecting s1 = false /\ w_address s1 = None /\
  w_storage s1 = Some "undefined" /\
  w_address (init (w_storage s1)) = Some "undefined" /\ w_connected (init (w_storage s1)) = true /\
  ~ consistent s1.
Proof.
  intros Hs. unfold connect_wallet, get_pera.
  destruct (w_sdk s), sdk_loads; try (destruct Hs; discriminate); simpl; repeat split;
    intros [(_ & a & _ & H & _) | (H & _)]; discriminate.
Qed.

(** C19: In every state the wallet provider reaches, the Navbar shows the
    short form of the stored wallet ([first 6…last 4]) with a disconnect
    button exactly when a wallet is stored, and the connect button
    otherwise. *)
Theorem navbar_reflects_storage (st : option string) (s : wallet_state) :
  storage_ok st = true -> reachable event_ok (init st) s ->
  navbar_view s = ([NavLinks; TestnetBadge] ++
    match w_storage s with
    | Some a => [AddrBadge (slice_head 6 a ++ "…" ++ slice_tail 4 a); DisconnectBtn]
    | None => [ConnectBtn (negb (w_connecting s))
                 (if w_connecting s then "⏳ Connecting…" else "⬡ Connect Wallet")]
    end)%list.
Proof.
  intros Hst Hr.
  assert (Hc : consistent s).
  { induction Hr as [|s s' _ IH Hstep]; [now apply init_consistent|].
    destruct Hstep as [s ev Hok]. now apply apply_event_consistent. }
  unfold navbar_view, short_address.
  destruct Hc as [(-> & a & Ha & -> & ->) | (-> & _ & ->)]; [|reflexivity].
  rewrite (proj2 (truthy_Some a) Ha). reflexivity.
Qed.

Lemma navbar_reflects_storage_witness :
  navbar_view (init (Some "ABCDEFGHIJKLMNOPQRSTUVWXYZABCDEFGHIJKLMNOPQRSTUVWXYZ234567"))
  = [NavLinks; TestnetBadge; AddrBadge "ABCDEF…4567"; DisconnectBtn].
Proof.
  rewrite (navbar_reflects_storage (Some "ABCDEFGHIJKLMNOPQRSTUVWXYZABCDEFGHIJKLMNOPQRSTUVWXYZ234567"));
    [reflexivity | reflexivity | apply reach_refl].
Defined.

Lemma reachable_consistent_witness :
  storage_ok (Some "ABC") = true /\
  consistent (apply_event (init (Some "ABC")) EvReload).
Proof.
  split; [reflexivity|].
  apply (reachable_consistent (Some "ABC")); [reflexivity|].
  eapply reach_step; [apply reach_refl | apply (step_ev event_ok _ EvReload); reflexivity].
Defined.

Lemma reload_preserves_session_witness :
  consistent (init (Some "ABC")) /\
  w_address (init (w_storage (init (Some "ABC")))) = w_address (init (Some "ABC")).
Proof.
  assert (H : consistent (init (Some "ABC"))) by (apply init_consistent; reflexivity).
  split; [exact H | exact (proj1 (reload_preserves_session _ H))].
Defined.

Lemma empty_accounts_connects_undefined_witness :
  fst (connect_wallet (init None) true (Accounts []) true) =
    {| w_address := None; w_connected := true; w_connecting := false; w_instance := true;
       w_sdk := true; w_listeners := 1; w_storage := Some "undefined" |} /\
  w_address (fst (connect_wallet (init None) true (Accounts []) true)) = None.
Proof.
  split; [reflexivity|].
  exact (proj1 (proj2 (proj2 (proj2 (empty_accounts_connects_undefined (init None) true true
    (or_intror eq_refl)))))).
Defined.

End Wallet.
