(* ===== verification/Pages.v ===== *)
(** * Pages: the Dashboard, Verifier and Explorer lookups

    - [DashboardPage] ([src/frontend/src/pages/RecordsPage.jsx] lines
      17–61): [handleLookup] fetches the reputation and the records of a
      wallet together ([Promise.all]) and [handleManualLookup] takes a
      typed address.
    - [VerifierPage] ([src/unnamed/part_002] lines 15–39): [handleVerify]
      and [handleManualVerify].
    - [ExplorerPage] ([src/unnamed/part_001] lines 797–839 and 870–873):
      [loadProfiles], the search box and the domain filter.
    Every handler is a function of the page state and of the answers to
    its requests, returning the new state and the requests it made.  JSON
    bodies are abstract, with the fields the pages read. *)

From Stdlib Require Import ZArith Lia List String.
From stdpp Require Import base decidable.
From S2P Require Import Prelude.
Import ListNotations.

Module Pages.

Local Open Scope string_scope.

Section WithJson.
Context {Json : Type}.
Context (detail : Json -> option string).              (** [body.detail] *)
Context (records_of : Json -> option (list Json)).     (** [walletData.records] *)
Context (profiles_of : Json -> option (list Json)).    (** [data.profiles] *)
Context (as_list : Json -> option (list Json)).        (** [data] itself, when it is an array *)

(** An answer to a [fetch]: rejected, or a response with its status and
    its body, or the message [res.json()] throws when it is not JSON. *)
Inductive reply :=
| Rejected (msg : string)
| Resp (status : Z) (body : result string Json).

Definition body_opt (b : result string Json) : option Json :=
  match b with Ok j => Some j | Err _ => None end.

(** [x || []] on an optional array (an array is always truthy). *)
Definition js_list_or (o : option (list Json)) : list Json :=
  match o with Some l => l | None => [] end.

Definition reply_ok (st : Z) : bool := (200 <=? st)%Z && (st <=? 299)%Z.

(** Requests the pages make. *)
Inductive request :=
| GetReputation (w : string)      (** [/reputation/${w}] *)
| GetWallet (w : string)          (** [/wallet/${w}] *)
| GetVerify (w : string)          (** [/verify/${w}] *)
| GetExplore (params : list (string * string)).   (** [/reputation/explore?${params}] *)

(** The address a lookup uses ([walletAddr || address || walletInput]),
    when it passes the guard [!w || w.length < 58]. *)
Definition lookup_wallet (wallet_arg : option string) (address input : string) : option string :=
  let w := js_or_default (wallet_arg ||ₛ Some address) input in
  if truthy (Some w) && (58 <=? String.length w)%nat then Some w else None.

(** [(await res.json().catch(() => ({}))).detail || fallback]. *)
Definition error_text (body : result string Json) (fallback : string) : string :=
  js_or_default (body_opt body ≫= detail) fallback.

(** ** Dashboard *)

Record dash_state := {
  d_reputation : option Json;
  d_records : list Json;
  d_loading : bool;
  d_error : string
}.

(** [Promise.all] of the two fetches; when both reject, [rep_first] says
    whose rejection came first. *)
Record dash_env := { de_rep : reply; de_wallet : reply; de_rep_first : bool }.

(** Lines 33–46: the [try] block once both fetches are issued. *)
Definition dash_try (env : dash_env) : result string (Json * list Json) :=
  match de_rep env, de_wallet env with
  | Rejected m1, Rejected m2 => Err (if de_rep_first env then m1 else m2)
  | Rejected m, _ => Err m
  | _, Rejected m => Err m
  | Resp st1 b1, Resp st2 b2 =>
      if negb (reply_ok st1) then Err (error_text b1 "Reputation fetch failed")
      else if negb (reply_ok st2) then Err (error_text b2 "Records fetch failed")
      else match b1, b2 with
           | Ok rep, Ok wal => Ok (rep, js_list_or (records_of wal))
           | Err m, _ => Err m
           | Ok _, Err m => Err m
           end
  end.

(** Lines 28–31: the lookup starts. *)
Definition dash_start (st : dash_state) : dash_state :=
  {| d_reputation := None; d_records := []; d_loading := true; d_error := "" |}.

(** Lines 33–51: both answers are in.  Success writes the reputation and
    the records (lines 43–44), failure the error (line 47), and both end
    with [loading] off (line 49); every other field keeps the value it has
    in [st], the state of the page when the answers arrive. *)
Definition dash_finish (st : dash_state) (env : dash_env) : dash_state :=
  match dash_try env with
  | Ok (rep, recs) =>
      {| d_reputation := Some rep; d_records := recs; d_loading := false; d_error := d_error st |}
  | Err m =>
      {| d_reputation := d_reputation st; d_records := d_records st; d_loading := false;
         d_error := m |}
  end.

(** Lines 24–52: [handleLookup] run to completion. *)
Definition dash_lookup (st : dash_state) (wallet_arg : option string) (address input : string)
  (env : dash_env) : dash_state * list request :=
  match lookup_wallet wallet_arg address input with
  | None => (st, [])
  | Some w => (dash_finish (dash_start st) env, [GetReputation w; GetWallet w])
  end.

(** Lines 18–22: the lookup runs by itself when the connected address is
    long enough. *)
Definition dash_auto_lookup (address : string) : bool :=
  truthy (Some address) && (58 <=? String.length address)%nat.

(** ** Verifier *)

Record verifier_state := {
  v_data : option Json;
  v_loading : bool;
  v_error : string
}.

(** Lines 19–21: the verification starts. *)
Definition verify_start (st : verifier_state) : verifier_state :=
  {| v_data := None; v_loading := true; v_error := "" |}.

(** Lines 15–32: [handleVerify] run to completion. *)
Definition verify (st : verifier_state) (wallet_arg : option string) (address input : string)
  (r : reply) : verifier_state * list request :=
  match lookup_wallet wallet_arg address input with
  | None => (st, [])
  | Some w =>
      let res :=
        match r with
        | Rejected m => Err m
        | Resp status body =>
            if reply_ok status then body else Err (error_text body "Verification failed")
        end in
      (match res with
       | Ok d => {| v_data := Some d; v_loading := false; v_error := "" |}
       | Err m => {| v_data := None; v_loading := false; v_error := m |}
       end, [GetVerify w])
  end.

(** ** Explorer *)

Record explorer_state := {
  ex_profiles : list Json;
  ex_search : string;
  ex_domain : string;
  ex_loading : bool;
  ex_error : string
}.

(** Lines 814–817: the query of [loadProfiles(searchTerm, domainFilter)]
    as the closure of the current render sees [search] and [domain]. *)
Definition explore_params (st : explorer_state) (searchTerm domainFilter : option string)
  : list (string * string) :=
  let q := searchTerm ||ₛ Some (ex_search st) in
  let d := domainFilter ||ₛ Some (ex_domain st) in
  (if truthy q then [("q", js_or_default q "")] else []) ++
  (if truthy d then [("domain", js_or_default d "")] else []) ++ [("limit", "20")].

(** Lines 809–812 and 814–819: the start of [loadProfiles]; the closure
    [st] gives the query, the request is made and the page shows the
    loading state. *)
Definition load_start (st : explorer_state) (searchTerm domainFilter : option string)
  : explorer_state * request :=
  ({| ex_profiles := ex_profiles st; ex_search := ex_search st; ex_domain := ex_domain st;
      ex_loading := true; ex_error := "" |},
   GetExplore (explore_params st searchTerm domainFilter)).

(** Lines 820–832: the answer arrives.  A non-OK answer shows no profile
    (line 822) and an OK one its profiles (line 826), both leaving the
    error as it is in [st]; a rejection or a body that is not JSON sets
    the error and clears the profiles (lines 828–829); [loading] goes off
    (line 831). *)
Definition load_finish (st : explorer_state) (r : reply) : explorer_state :=
  let set (ps : list Json) (e : string) :=
    {| ex_profiles := ps; ex_search := ex_search st; ex_domain := ex_domain st;
       ex_loading := false; ex_error := e |} in
  match r with
  | Rejected m => set [] m
  | Resp status body =>
      if negb (reply_ok status) then set [] (ex_error st)
      else match body with
           | Ok data =>
               set (match profiles_of data with
                    | Some ps => ps
                    | None => js_list_or (as_list data)
                    end) (ex_error st)
           | Err m => set [] m
           end
  end.

(** Lines 809–833: [loadProfiles] run to completion. *)
Definition load_profiles (st : explorer_state) (searchTerm domainFilter : option string)
  (r : reply) : explorer_state * list request :=
  let '(st1, rq) := load_start st searchTerm domainFilter in (load_finish st1 r, [rq]).

Definition set_domain (st : explorer_state) (v : string) : explorer_state :=
  {| ex_profiles := ex_profiles st; ex_search := ex_search st; ex_domain := v;
     ex_loading := ex_loading st; ex_error := ex_error st |}.

(** Line 873: [onChange={e => { setDomain(e.target.value);
    loadProfiles(search, e.target.value); }}]; [loadProfiles] still sees
    the [domain] of the render the event fired in. *)
Definition on_domain_change (st : explorer_state) (v : string) (r : reply)
  : explorer_state * list request :=
  let '(st', calls) := load_profiles st (Some (ex_search st)) (Some v) r in
  (set_domain st' v, calls).

(** Lines 835–837: [handleSearch]. *)
Definition handle_search (st : explorer_state) (r : reply) : explorer_state * list request :=
  load_profiles st (Some (ex_search st)) (Some (ex_domain st)) r.

(** ** Lemmas *)

Lemma lookup_wallet_Some (wa : option string) (address input w : string) :
  lookup_wallet wa address input = Some w ->
  w = js_or_default (wa ||ₛ Some address) input /\ (58 <= String.length w)%nat.
Proof.
  unfold lookup_wallet. destruct (truthy _ && _) eqn:E; [|discriminate].
  intros H. injection H as <-. apply andb_true_iff in E as [_ E].
  split; [reflexivity|]. now apply Nat.leb_le.
Qed.

(** An address long enough is looked up as it is, whatever the fallbacks. *)
Lemma lookup_wallet_long (input address fallback : string) :
  (58 <= String.length input)%nat -> lookup_wallet (Some input) address fallback = Some input.
Proof.
  intros Hl. assert (Hne : input <> "") by (intros ->; simpl in Hl; lia).
  assert (Ht : truthy (Some input) = true) by now apply truthy_Some.
  unfold lookup_wallet. rewrite (js_or_truthy_l _ _ Ht), js_or_default_truthy by exact Hne.
  rewrite Ht. apply Nat.leb_le in Hl. now rewrite Hl.
Qed.

(** [Promise.all] settles the [try] block with the two bodies exactly
    when both responses are OK JSON. *)
Lemma dash_try_ok (env : dash_env) (rep : Json) (recs : list Json) :
  dash_try env = Ok (rep, recs) <->
  exists st1 st2 wal, de_rep env = Resp st1 (Ok rep) /\ reply_ok st1 = true /\
    de_wallet env = Resp st2 (Ok wal) /\ reply_ok st2 = true /\ recs = js_list_or (records_of wal).
Proof.
  split.
  - unfold dash_try. intros H.
    destruct (de_rep env) as [m1|st1 b1], (de_wallet env) as [m2|st2 b2];
      [destruct (de_rep_first env); discriminate H | discriminate H | discriminate H |].
    destruct (reply_ok st1) eqn:O1; simpl in H; [|discriminate H].
    destruct (reply_ok st2) eqn:O2; simpl in H; [|discriminate H].
    destruct b1 as [r1|m], b2 as [w|m']; try discriminate H.
    injection H as <- <-. exists st1, st2, w. repeat split; assumption.
  - intros (st1 & st2 & wal & E1 & O1 & E2 & O2 & ->). unfold dash_try.
    rewrite E1, E2, O1, O2. reflexivity.
Qed.

(** ** Theorems *)

(** C14: The Dashboard and Verifier lookups only ever query a wallet of at
    least 58 characters (the length of an Algorand address), the one
    [walletAddr || address || walletInput] names; otherwise they change
    nothing and make no request. *)
Theorem lookups_guarded (wa : option string) (address input : string)
    (st : dash_state) (env : dash_env) (vs : verifier_state) (r : reply) :
  (forall rq, In rq (snd (dash_lookup st wa address input env)) \/
              In rq (snd (verify vs wa address input r)) ->
     exists w, (58 <= String.length w)%nat /\
       w = js_or_default (wa ||ₛ Some address) input /\
       (rq = GetReputation w \/ rq = GetWallet w \/ rq = GetVerify w)) /\
  (lookup_wallet wa address input = None ->
     dash_lookup st wa address input env = (st, []) /\ verify vs wa address input r = (vs, [])).
Proof.
  unfold dash_lookup, dash_finish, verify. split.
  - destruct (lookup_wallet wa address input) as [w|] eqn:E; simpl;
      [|intros rq [[]|[]]].
    apply lookup_wallet_Some in E as [Hw Hl].
    intros rq Hin. exists w. split; [exact Hl|]. split; [exact Hw|].
    destruct (dash_try env) as [[rep recs]|m]; simpl in Hin;
      destruct Hin as [[<-|[<-|[]]]|[<-|[]]]; auto.
  - intros ->. split; reflexivity.
Qed.

(** C15: A Dashboard lookup of a valid wallet always asks for both the
    reputation and the records and ends with [loading] off; it shows a
    reputation exactly when both answers are OK responses with JSON
    bodies, and then the records are [walletData.records || []] and no
    error is shown; a failed reputation answer is the one reported even
    when the records answer failed too. *)
Theorem dash_lookup_settles (st : dash_state) (wa : option string) (address input w : string)
    (env : dash_env) :
  lookup_wallet wa address input = Some w ->
  snd (dash_lookup st wa address input env) = [GetReputation w; GetWallet w] /\
  d_loading (fst (dash_lookup st wa address input env)) = false /\
  (forall rep, d_reputation (fst (dash_lookup st wa address input env)) = Some rep <->
     exists st1 st2 wal, de_rep env = Resp st1 (Ok rep) /\ reply_ok st1 = true /\
       de_wallet env = Resp st2 (Ok wal) /\ reply_ok st2 = true) /\
  (forall st1 st2 rep wal, de_rep env = Resp st1 (Ok rep) -> reply_ok st1 = true ->
     de_wallet env = Resp st2 (Ok wal) -> reply_ok st2 = true ->
     d_records (fst (dash_lookup st wa address input env)) = js_list_or (records_of wal) /\
     d_error (fst (dash_lookup st wa address input env)) = "") /\
  (forall st1 b1 r2, de_rep env = Resp st1 b1 -> reply_ok st1 = false ->
     de_wallet env = r2 -> (forall m, r2 <> Rejected m) ->
     d_error (fst (dash_lookup st wa address input env)) = error_text b1 "Reputation fetch failed").
Proof.
  intros Hw. unfold dash_lookup, dash_finish. rewrite Hw. cbn [fst snd].
  split; [reflexivity|].
  split; [destruct (dash_try env) as [[]|]; reflexivity|].
  split; [|split].
  - intros rep. split.
    + destruct (dash_try env) as [[rep' recs]|m] eqn:E; simpl; [|discriminate].
      intros H. injection H as <-. apply dash_try_ok in E as (st1 & st2 & wal & ? & ? & ? & ? & _).
      eauto 10.
    + intros (st1 & st2 & wal & E1 & O1 & E2 & O2).
      rewrite (proj2 (dash_try_ok env rep _) (ex_intro _ st1 (ex_intro _ st2
                 (ex_intro _ wal (conj E1 (conj O1 (conj E2 (conj O2 eq_refl)))))))).
      reflexivity.
  - intros st1 st2 rep wal E1 O1 E2 O2. unfold dash_try. rewrite E1, E2, O1, O2. split; reflexivity.
  - intros st1 b1 r2 Hr Hok Hw2 Hnr. unfold dash_try. rewrite Hr, Hw2.
    destruct r2 as [m|st2 b2]; [exfalso; exact (Hnr m eq_refl)|]. rewrite Hok. reflexivity.
Qed.

(** C33: Choosing "All Domains" (the empty value) after a domain filter
    still sends the old filter: the request carries the previous domain
    while the select shows all domains. *)
Theorem explorer_all_domains_stale (st : explorer_state) (r : reply) :
  ex_domain st <> "" ->
  In ("domain", ex_domain st) (match snd (on_domain_change st "" r) with
                                | [GetExplore ps] => ps | _ => [] end) /\
  ex_domain (fst (on_domain_change st "" r)) = "".
Proof.
  intros Hd. unfold on_domain_change, load_profiles, load_start, load_finish. cbn [fst snd].
  assert (Hq : (Some "" ||ₛ Some (ex_domain st)) = Some (ex_domain st)) by reflexivity.
  assert (Ht : truthy (Some (ex_domain st)) = true)
    by (unfold truthy; destruct (String.eqb_spec (ex_domain st) ""); [contradiction|reflexivity]).
  assert (HP : In ("domain", ex_domain st) (explore_params st (Some (ex_search st)) (Some ""))).
  { unfold explore_params. rewrite Hq, Ht.
    apply in_or_app. right. left. now rewrite js_or_default_truthy. }
  destruct r as [m|status body]; [split; [exact HP | reflexivity]|].
  destruct (negb (reply_ok status)); [split; [exact HP | reflexivity]|].
  destruct body; split; first [exact HP | reflexivity].
Qed.

(** A non-empty domain chosen in the filter, or typed search text, is
    always sent, with the page size 20. *)
Theorem explore_params_sent (st : explorer_state) (term v : string) :
  v <> "" ->
  explore_params st (Some term) (Some v) =
    ((if truthy (Some term ||ₛ Some (ex_search st)) then
       [("q", js_or_default (Some term ||ₛ Some (ex_search st)) "")] else []) ++
    [("domain", v); ("limit", "20")])%list.
Proof.
  intros Hv. unfold explore_params.
  assert (Ht : truthy (Some v) = true)
    by (unfold truthy; destruct (String.eqb_spec v ""); [contradiction|reflexivity]).
  rewrite (js_or_truthy_l (Some v)) by exact Ht. rewrite Ht, js_or_default_truthy by exact Hv.
  reflexivity.
Qed.

(** C35: When the explore endpoint answers with an error status, the
    Explorer shows no profile and no error: a failing backend looks like
    an empty directory. *)
Theorem explorer_error_silent (st : explorer_state) (t d : option string) (status : Z)
    (body : result string Json) :
  reply_ok status = false ->
  ex_profiles (fst (load_profiles st t d (Resp status body))) = [] /\
  ex_error (fst (load_profiles st t d (Resp status body))) = "" /\
  ex_loading (fst (load_profiles st t d (Resp status body))) = false.
Proof. intros H. unfold load_profiles, load_start, load_finish. cbn [fst]. rewrite H. repeat split. Qed.

End WithJson.

Arguments reply : clear implicits.
Arguments explorer_state : clear implicits.
Arguments dash_state : clear implicits.
Arguments dash_env : clear implicits.
Arguments verifier_state : clear implicits.

(** ** Concrete instances: JSON bodies as strings, [detail] the body itself. *)

Definition str_detail (j : string) : option string := Some j.
Definition no_list (j : string) : option (list string) := None.

Definition sample_wallet : string :=
  "ABCDEFGHIJKLMNOPQRSTUVWXYZABCDEFGHIJKLMNOPQRSTUVWXYZ234567".

Definition sample_dash : dash_state string :=
  {| d_reputation := None; d_records := []; d_loading := false; d_error := "" |}.

Definition sample_env : dash_env string :=
  {| de_rep := Resp 404 (Ok "Wallet not found"); de_wallet := Resp 500 (Err "bad json");
     de_rep_first := true |}.

Definition python_filter : explorer_state string :=
  {| ex_profiles := []; ex_search := ""; ex_domain := "python"; ex_loading := false;
     ex_error := "" |}.

Lemma lookups_guarded_witness :
  lookup_wallet None "SHORT" "" = None /\
  dash_lookup str_detail no_list sample_dash None "SHORT" "" sample_env = (sample_dash, []).
Proof.
  split; [reflexivity|].
  exact (proj1 (proj2 (lookups_guarded str_detail no_list None "SHORT" "" sample_dash sample_env
    {| v_data := None; v_loading := false; v_error := "" |} (Rejected "x")) eq_refl)).
Defined.

Lemma dash_lookup_settles_witness :
  lookup_wallet None sample_wallet "" = Some sample_wallet /\
  d_error (fst (dash_lookup str_detail no_list sample_dash None sample_wallet "" sample_env))
    = "Wallet not found".
Proof.
  split; [reflexivity|].
  destruct (dash_lookup_settles str_detail no_list sample_dash None sample_wallet "" sample_wallet
              sample_env eq_refl) as (_ & _ & _ & _ & H).
  apply (H 404%Z (Ok "Wallet not found") (Resp 500 (Err "bad json"))); try reflexivity.
  intros m; discriminate.
Defined.

Lemma explorer_all_domains_stale_witness :
  In ("domain", "python")
     (match snd (on_domain_change no_list no_list python_filter "" (Resp 200 (Ok "[]"))) with
      | [GetExplore ps] => ps | _ => [] end) /\
  ex_domain (fst (on_domain_change no_list no_list python_filter "" (Resp 200 (Ok "[]")))) = "".
Proof. apply (explorer_all_domains_stale no_list no_list python_filter). discriminate. Defined.

Lemma explore_params_sent_witness :
  explore_params python_filter (Some "rust") (Some "web")
    = [("q", "rust"); ("domain", "web"); ("limit", "20")].
Proof. rewrite (explore_params_sent python_filter "rust" "web"); [reflexivity|discriminate]. Defined.

Lemma explorer_error_silent_witness :
  ex_profiles (fst (load_profiles no_list no_list python_filter None None (Resp 404 (Ok "x")))) = [] /\
  ex_error (fst (load_profiles no_list no_list python_filter None None (Resp 404 (Ok "x")))) = "" /\
  ex_loading (fst (load_profiles no_list no_list python_filter None None (Resp 404 (Ok "x")))) = false.
Proof. apply explorer_error_silent. reflexivity. Defined.

End Pages.
