(* ===== verification/Startup.v ===== *)
(** * Startup: the quick-start script

    [src/unnamed/part_005] ([start.sh]): check for [.env], start the
    backend in the background, probe its health endpoint, start the
    frontend in the background, install an [INT] trap that stops both,
    and [wait].  The script is the list [script] of its statements; a
    run executes them in order against an oracle for the outside world
    (whether [.env] exists, whether the health probe answers, whether the
    frontend starts), and a Ctrl+C may arrive before any statement.  Bash
    behaviour modelled: the terminal sends the interrupt to the whole
    foreground process group, the script and its background jobs; before
    the trap is installed it ends the script with status 130, and each
    job stops or keeps running as its own program decides ([stops]: with
    job control off a job starts with SIGINT ignored, and a server such
    as uvicorn installs a handler of its own); once the trap is installed
    the interrupt runs the trap, which kills both jobs. *)

From Stdlib Require Import ZArith Lia List String Bool.
From stdpp Require Import base decidable.
From S2P Require Import Prelude.
Import ListNotations.

Module Startup.

Local Open Scope string_scope.

Inductive proc := Backend | Frontend.

#[export] Instance proc_eq_dec : EqDecision proc.
Proof. solve_decision. Defined.

(** The statements of the script. *)
Inductive stmt :=
| Echo (text : string)
| CheckEnv                 (** lines 9–13 *)
| StartBackend             (** lines 17–18: [uvicorn ... &] and [BACKEND_PID=$!] *)
| SleepS (secs : nat)
| HealthCheck              (** lines 24–31 *)
| Cd (dir : string)
| StartFrontend            (** lines 37–38: [npm run dev &] and [FRONTEND_PID=$!] *)
| TrapInt                  (** line 56 *)
| Wait.                    (** line 58 *)

(** What the world answers. *)
Record oracle := {
  env_exists : bool;       (** [ -f .env ] *)
  health_ok : bool;        (** [curl -s http://localhost:8000/health] succeeds *)
  frontend_ok : bool       (** [npm run dev] starts *)
}.

Record shell := {
  sh_running : list proc;  (** background jobs alive *)
  sh_out : list string;    (** lines printed *)
  sh_trap : bool;          (** the [INT] trap is installed *)
  sh_status : option Z;    (** exit status once the script has ended *)
  sh_waiting : bool        (** blocked in [wait] *)
}.

Definition sh0 : shell :=
  {| sh_running := []; sh_out := []; sh_trap := false; sh_status := None; sh_waiting := false |}.

Definition set_running (s : shell) (r : list proc) : shell :=
  {| sh_running := r; sh_out := sh_out s; sh_trap := sh_trap s; sh_status := sh_status s;
     sh_waiting := sh_waiting s |}.

Definition print (s : shell) (ls : list string) : shell :=
  {| sh_running := sh_running s; sh_out := sh_out s ++ ls; sh_trap := sh_trap s;
     sh_status := sh_status s; sh_waiting := sh_waiting s |}.

Definition exit_with (s : shell) (code : Z) : shell :=
  {| sh_running := sh_running s; sh_out := sh_out s; sh_trap := sh_trap s;
     sh_status := Some code; sh_waiting := false |}.

(** One statement; a script that has exited runs nothing more. *)
Definition exec (o : oracle) (s : shell) (c : stmt) : shell :=
  match sh_status s with
  | Some _ => s
  | None =>
      match c with
      | Echo t => print s [t]
      | CheckEnv =>
          if env_exists o then s
          else exit_with (print s ["❌ Error: .env file not found";
                                   "   Please copy .env.example to .env and configure it"]) 1
      | StartBackend => set_running s (Backend :: sh_running s)
      | SleepS _ => s
      | HealthCheck =>
          if health_ok o then
            print s ["✅ Backend API running on http://localhost:8000";
                     "   API docs: http://localhost:8000/docs"]
          else exit_with (set_running (print s ["❌ Backend failed to start"])
                            (List.filter (fun p => negb (bool_decide (p = Backend)))
                               (sh_running s))) 1
      | Cd _ => s
      | StartFrontend =>
          if frontend_ok o then set_running s (Frontend :: sh_running s) else s
      | TrapInt =>
          {| sh_running := sh_running s; sh_out := sh_out s; sh_trap := true;
             sh_status := None; sh_waiting := false |}
      | Wait =>
          {| sh_running := sh_running s; sh_out := sh_out s; sh_trap := sh_trap s;
             sh_status := None; sh_waiting := true |}
      end
  end.

(** Ctrl+C: the trap of line 56 when it is installed, else the default
    action: the script dies, and of its background jobs those that handle
    the signal ([stops]) stop, the others live on. *)
Definition interrupt (stops : proc -> bool) (s : shell) : shell :=
  match sh_status s with
  | Some _ => s
  | None =>
      if sh_trap s then
        exit_with (set_running (print s ["";  "🛑 Stopping services..."; "✅ All services stopped"]) [])
          0
      else exit_with (set_running s (List.filter (fun p => negb (stops p)) (sh_running s))) 130
  end.

(** Lines 5–58. *)
Definition script : list stmt :=
  [ Echo "🚀 Starting VerifiedProtocol..."; Echo "";                       (* 5–6 *)
    CheckEnv;                                                             (* 9–13 *)
    Echo "📡 Starting backend API server..."; StartBackend;               (* 16–18 *)
    SleepS 3;                                                             (* 21 *)
    HealthCheck;                                                          (* 24–31 *)
    Echo ""; Echo "🎨 Starting frontend development server...";           (* 34–35 *)
    Cd "frontend"; StartFrontend; Cd "..";                                (* 36–39 *)
    SleepS 3;                                                             (* 42 *)
    Echo ""; Echo "✅ VerifiedProtocol is running!"; Echo "";             (* 44–46 *)
    Echo "📍 Endpoints:"; Echo "   Backend API: http://localhost:8000";  (* 47–48 *)
    Echo "   API Docs:    http://localhost:8000/docs";                    (* 49 *)
    Echo "   Frontend:    http://localhost:3000"; Echo "";                (* 50–51 *)
    Echo "Press Ctrl+C to stop all services"; Echo "";                    (* 52–53 *)
    TrapInt;                                                              (* 56 *)
    Wait ].                                                               (* 58 *)

Definition run_stmts (o : oracle) (s : shell) (cs : list stmt) : shell :=
  fold_left (exec o) cs s.

(** A run, with a Ctrl+C before statement [k] ([None]: no Ctrl+C); a
    Ctrl+C after the last statement arrives during [wait]. *)
Definition run (o : oracle) (stops : proc -> bool) (intr : option nat) : shell :=
  match intr with
  | None => run_stmts o sh0 script
  | Some k => run_stmts o (interrupt stops (run_stmts o sh0 (firstn k script))) (skipn k script)
  end.

(** Positions in [script]. *)
Definition backend_pos : nat := 4.
Definition trap_pos : nat := 23.

(** Every oracle. *)
Definition oracles : list oracle :=
  b1 ← [true; false]; b2 ← [true; false]; b3 ← [true; false];
  [{| env_exists := b1; health_ok := b2; frontend_ok := b3 |}].

(** ** Lemmas *)

Lemma script_positions :
  nth backend_pos script Wait = StartBackend /\ nth trap_pos script Wait = TrapInt /\
  length script = S (S trap_pos).
Proof. repeat split. Qed.

Lemma run_stmts_exited (o : oracle) (s : shell) (cs : list stmt) (c : Z) :
  sh_status s = Some c -> run_stmts o s cs = s.
Proof.
  unfold run_stmts. revert s. induction cs as [|x cs IH]; intros s Hs; [reflexivity|].
  simpl. unfold exec at 2. rewrite Hs. now apply IH.
Qed.

Lemma interrupt_exited (stops : proc -> bool) (s : shell) :
  exists c, sh_status (interrupt stops s) = Some c.
Proof.
  unfold interrupt. destruct (sh_status s) eqn:E; [eauto|].
  destruct (sh_trap s); simpl; eauto.
Qed.

(** After a Ctrl+C nothing more runs. *)
Lemma run_interrupted (o : oracle) (stops : proc -> bool) (k : nat) :
  run o stops (Some k) = interrupt stops (run_stmts o sh0 (firstn k script)).
Proof.
  simpl. destruct (interrupt_exited stops (run_stmts o sh0 (firstn k script))) as [c Hc].
  now apply (run_stmts_exited o _ _ c).
Qed.

Lemma oracles_complete (o : oracle) : In o oracles.
Proof. destruct o as [[] [] []]; simpl; tauto. Qed.

(** A property of every oracle and every position in [lo, lo + n) holds
    when the boolean check of all of them computes to [true]. *)
Lemma check_all (P : oracle -> nat -> Prop) (p : oracle -> nat -> bool) (lo n : nat) :
  (forall o k, p o k = true -> P o k) ->
  forallb (fun k => forallb (fun o => p o k) oracles) (seq lo n) = true ->
  forall o k, lo <= k < lo + n -> P o k.
Proof.
  intros HP Hall o k Hk. apply HP.
  rewrite forallb_forall in Hall. specialize (Hall k (proj2 (in_seq n lo k) Hk)).
  rewrite forallb_forall in Hall. exact (Hall o (oracles_complete o)).
Qed.

(** ** Theorems *)

(** C26: Run to its end without a Ctrl+C, the script exits with status 1
    and no job left when [.env] is missing or the backend does not answer
    its health probe; otherwise it waits with the backend running, the
    frontend running when it started, and it prints that the protocol is
    running even when the frontend did not start. *)
Theorem run_outcomes (o : oracle) (stops : proc -> bool) :
  let s := run o stops None in
  (env_exists o = false \/ health_ok o = false ->
     sh_status s = Some 1%Z /\ sh_running s = []) /\
  (env_exists o = true -> health_ok o = true ->
     sh_status s = None /\ sh_waiting s = true /\ sh_trap s = true /\
     sh_running s = (if frontend_ok o then [Frontend; Backend] else [Backend]) /\
     In "✅ VerifiedProtocol is running!" (sh_out s)).
Proof.
  destruct o as [[] [] []]; vm_compute; split;
    solve [intros [H|H]; discriminate | intros; split; reflexivity
          | intros H; discriminate H | intros _ H; discriminate H
          | intros _ _; repeat split; simpl; tauto].
Qed.

(** C25: A Ctrl+C once the trap is installed (while the script waits, or
    later) always ends the script and leaves no job running, whether or
    not the jobs handle the interrupt themselves. *)
Theorem interrupt_after_trap_stops_all (o : oracle) (stops : proc -> bool) (k : nat) :
  trap_pos < k ->
  sh_running (run o stops (Some k)) = [] /\ sh_status (run o stops (Some k)) <> None.
Proof.
  intros Hk. rewrite run_interrupted.
  destruct (Nat.le_gt_cases k (S trap_pos)) as [Hle|Hgt].
  - assert (k = S trap_pos) as -> by lia.
    destruct o as [[] [] []]; vm_compute; split; congruence.
  - rewrite firstn_all2 by (unfold trap_pos in *; simpl; lia).
    destruct o as [[] [] []]; vm_compute; split; congruence.
Qed.

Definition all_ok : oracle := {| env_exists := true; health_ok := true; frontend_ok := true |}.

Lemma run_outcomes_witness :
  sh_running (run all_ok (fun _ => true) None) = [Frontend; Backend].
Proof.
  exact (proj1 (proj2 (proj2 (proj2 (proj2 (run_outcomes all_ok (fun _ => true))
    eq_refl eq_refl))))).
Defined.

Lemma interrupt_after_trap_stops_all_witness :
  trap_pos < 24 /\ sh_running (run all_ok (fun _ => false) (Some 24)) = [].
Proof.
  assert (H : trap_pos < 24) by (unfold trap_pos; lia).
  split; [exact H | exact (proj1 (interrupt_after_trap_stops_all all_ok (fun _ => false) 24 H))].
Defined.

End Startup.
