(* ===== verification/StartBat.v ===== *)
(** * StartBat: the Windows quick-start script

    [src/start.bat], the Windows twin of [start.sh] ([Startup]).  It
    checks for [.env], opens the backend in a console window of its own
    ([start "VerifiedProtocol Backend" cmd /k ...]), probes the health
    endpoint, opens the frontend in a second window, waits for a key
    ([pause]) and closes both windows by title ([taskkill /FI
    "WindowTitle eq ..."]).  The script is the list [bat_script] of its
    statements, run against the same oracle as [start.sh].  Behaviour of
    [cmd] modelled: [cmd /k] keeps its window open whether or not its
    command starts, so a started window stays until it is killed; a
    Ctrl+C answered with Y ends the batch file and leaves the other
    windows, which are separate consoles, running. *)

From Stdlib Require Import ZArith Lia List String Bool.
From stdpp Require Import base decidable.
From S2P Require Import Prelude Startup.
Import ListNotations.

Module StartBat.
Import Startup.

Local Open Scope string_scope.

(** The statements of the batch file. *)
Inductive bstmt :=
| BEcho (text : string)
| BCheckEnv                (** lines 9–13 *)
| BStart (p : proc)        (** lines 17 and 36: a window running the service *)
| BTimeout (secs : nat)    (** lines 20 and 40 *)
| BHealthCheck             (** lines 23–30 *)
| BCd (dir : string)
| BPause                   (** line 51: a key is pressed *)
| BTaskKill (p : proc).    (** lines 54–55 *)

(** How the batch file ended: [exit /b], a Ctrl+C, or its last line. *)
Inductive bat_end := Exited (code : Z) | Terminated | Finished.

#[export] Instance bat_end_eq_dec : EqDecision bat_end.
Proof. solve_decision. Defined.

Record console := {
  c_windows : list proc;   (** the service windows open *)
  c_out : list string;     (** lines printed in the launcher's window *)
  c_end : option bat_end
}.

Definition c0 : console := {| c_windows := []; c_out := []; c_end := None |}.

Definition c_print (c : console) (ls : list string) : console :=
  {| c_windows := c_windows c; c_out := c_out c ++ ls; c_end := c_end c |}.

Definition c_set_windows (c : console) (ws : list proc) : console :=
  {| c_windows := ws; c_out := c_out c; c_end := c_end c |}.

Definition c_stop (c : console) (e : bat_end) : console :=
  {| c_windows := c_windows c; c_out := c_out c; c_end := Some e |}.

(** One statement; a batch file that has ended runs nothing more. *)
Definition bexec (o : oracle) (c : console) (st : bstmt) : console :=
  match c_end c with
  | Some _ => c
  | None =>
      match st with
      | BEcho t => c_print c [t]
      | BCheckEnv =>
          if env_exists o then c
          else c_stop (c_print c ["❌ Error: .env file not found";
                                  "   Please copy .env.example to .env and configure it"]) (Exited 1)
      | BStart p => c_set_windows c (p :: c_windows c)
      | BTimeout _ => c
      | BHealthCheck =>
          if health_ok o then
            c_print c ["✅ Backend API running on http://localhost:8000";
                       "   API docs: http://localhost:8000/docs"]
          else c_stop (c_print c ["❌ Backend failed to start"]) (Exited 1)
      | BCd _ => c
      | BPause => c
      | BTaskKill p =>
          c_set_windows c (List.filter (fun q => negb (bool_decide (q = p))) (c_windows c))
      end
  end.

(** Lines 5–57. *)
Definition bat_script : list bstmt :=
  [ BEcho "🚀 Starting VerifiedProtocol..."; BEcho "";                      (* 5–6 *)
    BCheckEnv;                                                            (* 9–13 *)
    BEcho "📡 Starting backend API server..."; BStart Backend;            (* 16–17 *)
    BTimeout 5;                                                           (* 20 *)
    BHealthCheck;                                                         (* 23–30 *)
    BEcho ""; BEcho "🎨 Starting frontend development server...";          (* 33–34 *)
    BCd "frontend"; BStart Frontend; BCd "..";                            (* 35–37 *)
    BTimeout 3;                                                           (* 40 *)
    BEcho ""; BEcho "✅ VerifiedProtocol is running!"; BEcho "";            (* 42–44 *)
    BEcho "📍 Endpoints:"; BEcho "   Backend API: http://localhost:8000"; (* 45–46 *)
    BEcho "   API Docs:    http://localhost:8000/docs";                   (* 47 *)
    BEcho "   Frontend:    http://localhost:3000"; BEcho "";               (* 48–49 *)
    BEcho "Press any key to stop all services...";                        (* 50 *)
    BPause;                                                               (* 51 *)
    BTaskKill Backend; BTaskKill Frontend;                                (* 54–55 *)
    BEcho "✅ All services stopped" ].                                     (* 57 *)

Definition run_bstmts (o : oracle) (c : console) (ss : list bstmt) : console :=
  fold_left (bexec o) ss c.

(** Ctrl+C in the launcher's window, answered with Y. *)
Definition terminate (c : console) : console :=
  match c_end c with Some _ => c | None => c_stop c Terminated end.

(** A run, with a Ctrl+C before statement [k] ([None]: none; the key is
    pressed at [pause]). *)
Definition bat_run (o : oracle) (intr : option nat) : console :=
  match intr with
  | None =>
      let c := run_bstmts o c0 bat_script in
      match c_end c with Some _ => c | None => c_stop c Finished end
  | Some k => terminate (run_bstmts o c0 (firstn k bat_script))
  end.

(** Positions in [bat_script]. *)
Definition bat_backend_pos : nat := 4.
Definition bat_kill_pos : nat := 23.

(** ** Lemmas *)

Lemma bat_script_positions :
  nth bat_backend_pos bat_script BPause = BStart Backend /\
  nth bat_kill_pos bat_script BPause = BTaskKill Backend /\ length bat_script = 26%nat.
Proof. repeat split. Qed.

(** The check behind [bat_ctrl_c_leaves_windows]. *)
Definition bat_orphan_check (o : oracle) (k : nat) : bool :=
  let c := bat_run o (Some k) in
  negb (env_exists o) || (negb (Nat.leb k 6) && negb (health_ok o)) ||
  (existsb (fun p => bool_decide (p = Backend)) (c_windows c) &&
   bool_decide (c_end c = Some Terminated)).

Lemma bat_orphan_check_sound (o : oracle) (k : nat) :
  bat_orphan_check o k = true ->
  env_exists o = true -> ((k <= 6)%nat \/ health_ok o = true) ->
  In Backend (c_windows (bat_run o (Some k))) /\ c_end (bat_run o (Some k)) = Some Terminated.
Proof.
  unfold bat_orphan_check. intros Hp He Hh. rewrite He in Hp. simpl in Hp.
  assert (Hn : negb (Nat.leb k 6) && negb (health_ok o) = false).
  { destruct Hh as [Hh|Hh]; [apply Nat.leb_le in Hh; now rewrite Hh | now rewrite Hh, andb_false_r]. }
  rewrite Hn in Hp. simpl in Hp. apply andb_true_iff in Hp as [H1 H2].
  apply bool_decide_eq_true in H2. split; [|exact H2].
  apply existsb_exists in H1 as [p [Hin Hp]]. apply bool_decide_eq_true in Hp. now subst.
Qed.

(** ** Theorems *)

(** C27: Run to its end (the key pressed at [pause]), the batch file exits
    with status 1 and no window when [.env] is missing; when the backend
    does not answer its health probe it exits with status 1 and leaves the
    backend's window open; otherwise it closes both windows and says so. *)
Theorem bat_run_outcomes (o : oracle) :
  let c := bat_run o None in
  (env_exists o = false -> c_end c = Some (Exited 1) /\ c_windows c = []) /\
  (env_exists o = true -> health_ok o = false ->
     c_end c = Some (Exited 1) /\ c_windows c = [Backend]) /\
  (env_exists o = true -> health_ok o = true ->
     c_end c = Some Finished /\ c_windows c = [] /\ In "✅ All services stopped" (c_out c)).
Proof.
  destruct o as [[] [] []]; vm_compute;
    repeat split; try discriminate; intros; try discriminate; simpl; tauto.
Qed.

(** C21: A Ctrl+C in the launcher's window after it has opened the backend
    and before it closes it ends the batch file and leaves the backend's
    window running. *)
Theorem bat_ctrl_c_leaves_windows (o : oracle) (k : nat) :
  bat_backend_pos < k <= bat_kill_pos -> env_exists o = true ->
  ((k <= 6)%nat \/ health_ok o = true) ->
  In Backend (c_windows (bat_run o (Some k))) /\ c_end (bat_run o (Some k)) = Some Terminated.
Proof.
  intros Hk He Hh.
  apply (check_all _ bat_orphan_check 5 19 bat_orphan_check_sound);
    [vm_compute; reflexivity | | exact He | exact Hh].
  unfold bat_backend_pos, bat_kill_pos in Hk. lia.
Qed.

(** A backend that never answers its health probe. *)
Definition no_health : oracle := {| env_exists := true; health_ok := false; frontend_ok := true |}.

Lemma bat_run_outcomes_witness :
  c_windows (bat_run no_health None) = [Backend].
Proof. exact (proj2 (proj1 (proj2 (bat_run_outcomes no_health)) eq_refl eq_refl)). Defined.

(** A Ctrl+C at the pause, where a [start.sh] user would press it. *)
Lemma bat_ctrl_c_leaves_windows_witness :
  In Backend (c_windows (bat_run all_ok (Some 22))).
Proof.
  refine (proj1 (bat_ctrl_c_leaves_windows all_ok 22 _ eq_refl (or_intror eq_refl))).
  unfold bat_backend_pos, bat_kill_pos. lia.
Defined.

End StartBat.
