(* ===== verification/ExplorerFlow.v ===== *)
(** * ExplorerFlow: the Explorer page with requests in flight

    [src/unnamed/part_001] lines 797–983 ([ExplorerPage]).  The page is a
    state machine over [Pages.explorer_state] and the list of explore
    requests in flight.  Its events are those the rendered page offers:
    typing in the search box (866), the
    Enter key (867), the Search button (888–890, disabled while loading),
    the domain select (873, never disabled), the Retry button shown with
    an error (897–903), and the arrival of the answer to one request.
    [loadProfiles] sets [loading] and clears the error when it starts
    ([Pages.load_start]) and writes the profiles, the error and
    [loading = false] when its answer arrives ([Pages.load_finish]),
    whatever other request is still in flight.  The page starts mounted:
    the mount effect (lines 805–807) has issued its first request. *)

From Stdlib Require Import ZArith Lia List String.
From stdpp Require Import base decidable.
From S2P Require Import Prelude Pages.
Import ListNotations.

Module ExplorerFlow.
Import Pages.

Local Open Scope string_scope.

Section WithJson.
Context {Json : Type}.
Context (profiles_of : Json -> option (list Json)).   (** [data.profiles] *)
Context (as_list : Json -> option (list Json)).       (** [data] itself, when it is an array *)

Record flow := {
  ef_page : explorer_state Json;
  ef_pending : list (nat * list (string * string));   (** request id and its query *)
  ef_next : nat
}.

Inductive ex_event :=
| ExType (q : string)                  (** line 866 *)
| ExEnter                              (** line 867: [handleSearch()] *)
| ExClickSearch                        (** lines 888–890 *)
| ExDomain (v : string)                (** line 873 *)
| ExRetry                              (** lines 900–903: [loadProfiles(search, domain)] *)
| ExReply (id : nat) (r : reply Json). (** the answer to request [id] *)

Definition ids (f : flow) : list nat := map fst (ef_pending f).

(** A [loadProfiles] call: its start, with the request recorded. *)
Definition issue (f : flow) (page : explorer_state Json) (closure : explorer_state Json)
  (term dom : option string) : flow :=
  let '(page', rq) := load_start closure term dom in
  let q := match rq with GetExplore ps => ps | _ => [] end in
  {| ef_page := {| ex_profiles := ex_profiles page'; ex_search := ex_search page;
                   ex_domain := ex_domain page; ex_loading := ex_loading page';
                   ex_error := ex_error page' |};
     ef_pending := ef_pending f ++ [(ef_next f, q)];
     ef_next := S (ef_next f) |}.

Definition set_search (st : explorer_state Json) (q : string) : explorer_state Json :=
  {| ex_profiles := ex_profiles st; ex_search := q; ex_domain := ex_domain st;
     ex_loading := ex_loading st; ex_error := ex_error st |}.

(** One event; [None] when the page does not offer it. *)
Definition ex_exec (f : flow) (e : ex_event) : option flow :=
  let st := ef_page f in
  match e with
  | ExType q =>
      Some {| ef_page := set_search st q; ef_pending := ef_pending f; ef_next := ef_next f |}
  | ExEnter => Some (issue f st st (Some (ex_search st)) (Some (ex_domain st)))
  | ExClickSearch =>
      if ex_loading st then None
      else Some (issue f st st (Some (ex_search st)) (Some (ex_domain st)))
  | ExDomain v => Some (issue f (set_domain st v) st (Some (ex_search st)) (Some v))
  | ExRetry =>
      if truthy (Some (ex_error st))
      then Some (issue f st st (Some (ex_search st)) (Some (ex_domain st)))
      else None
  | ExReply id r =>
      if existsb (Nat.eqb id) (ids f) then
        Some {| ef_page := load_finish profiles_of as_list st r;
                ef_pending := List.filter (fun p => negb (Nat.eqb (fst p) id)) (ef_pending f);
                ef_next := ef_next f |}
      else None
  end.

Fixpoint ex_run (f : flow) (es : list ex_event) : option flow :=
  match es with
  | [] => Some f
  | e :: es' => match ex_exec f e with Some f' => ex_run f' es' | None => None end
  end.

(** Lines 798–802: the initial state. *)
Definition ex_init : flow :=
  {| ef_page := {| ex_profiles := []; ex_search := ""; ex_domain := ""; ex_loading := false;
                   ex_error := "" |};
     ef_pending := []; ef_next := 0 |}.

(** Lines 805–807: the mount effect runs [loadProfiles()]. *)
Definition ex_mounted : flow := issue ex_init (ef_page ex_init) (ef_page ex_init) None None.

Inductive ex_reachable : flow -> Prop :=
| ex_reach_init : ex_reachable ex_mounted
| ex_reach_step f e f' : ex_reachable f -> ex_exec f e = Some f' -> ex_reachable f'.

(** Answers arriving, one after another; an answer to a request that is
    not in flight is not an event of the page and changes nothing. *)
Definition deliver (f : flow) (a : nat * reply Json) : flow :=
  match ex_exec f (ExReply (fst a) (snd a)) with Some f' => f' | None => f end.

Definition deliver_all (f : flow) (rs : list (nat * reply Json)) : flow :=
  fold_left deliver rs f.

Lemma load_finish_shape (st : explorer_state Json) (r : reply Json) :
  ex_loading (load_finish profiles_of as_list st r) = false /\
  ex_domain (load_finish profiles_of as_list st r) = ex_domain st.
Proof.
  unfold load_finish. destruct r as [|status [|]]; simpl;
    [|destruct (negb (reply_ok status))..]; split; reflexivity.
Qed.

(** ** Invariant: a page that shows [loading] has a request in flight *)

Definition loading_inv (f : flow) : Prop :=
  ex_loading (ef_page f) = true -> ef_pending f <> [].

Lemma issue_inv (f : flow) (page closure : explorer_state Json) (t d : option string) :
  loading_inv (issue f page closure t d).
Proof. intros _. simpl. destruct (ef_pending f); discriminate. Qed.

Lemma ex_exec_inv (f f' : flow) (e : ex_event) :
  loading_inv f -> ex_exec f e = Some f' -> loading_inv f'.
Proof.
  intros Hi He. destruct e as [q| | |v| |id r]; simpl in He;
    repeat match type of He with
    | context [if ?b then _ else _] => destruct b
    end; injection He as <- || discriminate He; try apply issue_inv.
  - exact Hi.
  - unfold loading_inv. simpl. rewrite (proj1 (load_finish_shape _ r)). discriminate.
Qed.

Lemma reachable_inv (f : flow) : ex_reachable f -> loading_inv f.
Proof. induction 1; [apply issue_inv | eapply ex_exec_inv; eauto]. Qed.

(** ** Delivering answers *)

Lemma filter_none {A} (p : A -> bool) (l : list A) :
  (forall x, In x l -> p x = false) -> List.filter p l = [].
Proof.
  induction l as [|x l IH]; intros H; [reflexivity|]. simpl.
  rewrite (H x (or_introl eq_refl)). apply IH. intros y Hy. apply H. now right.
Qed.

Lemma filter_filter_and {A} (p q : A -> bool) (l : list A) :
  List.filter q (List.filter p l) = List.filter (fun x => p x && q x) l.
Proof.
  induction l as [|x l IH]; simpl; [reflexivity|].
  destruct (p x); simpl; [destruct (q x); simpl|]; congruence.
Qed.

Lemma filter_ext_eq {A} (p q : A -> bool) (l : list A) :
  (forall x, p x = q x) -> List.filter p l = List.filter q l.
Proof. intros H. induction l as [|x l IH]; simpl; [reflexivity|]. now rewrite H, IH. Qed.

Lemma filter_true {A} (l : list A) : List.filter (fun _ => true) l = l.
Proof. induction l as [|x l IH]; simpl; congruence. Qed.

Lemma filter_miss (id : nat) (l : list (nat * list (string * string))) :
  existsb (Nat.eqb id) (map fst l) = false ->
  List.filter (fun p => negb (Nat.eqb (fst p) id)) l = l.
Proof.
  induction l as [|[k q] l IH]; simpl; [reflexivity|]. intros H.
  apply orb_false_iff in H as [H1 H2]. rewrite Nat.eqb_sym, H1. simpl. now rewrite IH.
Qed.

Lemma deliver_pending (f : flow) (a : nat * reply Json) :
  ef_pending (deliver f a) = List.filter (fun p => negb (Nat.eqb (fst p) (fst a))) (ef_pending f).
Proof.
  unfold deliver. simpl. destruct (existsb _ (ids f)) eqn:E; [reflexivity|].
  symmetry. now apply filter_miss.
Qed.

Lemma deliver_loading (f : flow) (a : nat * reply Json) :
  ex_loading (ef_page (deliver f a)) =
  if existsb (Nat.eqb (fst a)) (ids f) then false else ex_loading (ef_page f).
Proof.
  unfold deliver. simpl. destruct (existsb _ (ids f)); [|reflexivity].
  apply load_finish_shape.
Qed.

Lemma deliver_all_pending (f : flow) (rs : list (nat * reply Json)) :
  ef_pending (deliver_all f rs) =
  List.filter (fun p => negb (existsb (Nat.eqb (fst p)) (map fst rs))) (ef_pending f).
Proof.
  unfold deliver_all. revert f. induction rs as [|a rs IH]; intros f; simpl.
  - symmetry. apply filter_true.
  - rewrite IH, deliver_pending, filter_filter_and. apply filter_ext_eq. intros [k q]. simpl.
    now rewrite negb_orb.
Qed.

Lemma deliver_all_idle (f : flow) (rs : list (nat * reply Json)) :
  ex_loading (ef_page f) = false -> ex_loading (ef_page (deliver_all f rs)) = false.
Proof.
  unfold deliver_all. revert f. induction rs as [|a rs IH]; intros f H; [exact H|].
  simpl. apply IH. rewrite deliver_loading, H. now destruct (existsb _ _).
Qed.

Lemma deliver_all_loading (f : flow) (rs : list (nat * reply Json)) :
  ex_loading (ef_page (deliver_all f rs)) = true ->
  ex_loading (ef_page f) = true /\ forall a, In a rs -> ~ In (fst a) (ids f).
Proof.
  unfold deliver_all. revert f. induction rs as [|a rs IH]; intros f H; [split; [exact H|easy]|].
  simpl in H. destruct (existsb (Nat.eqb (fst a)) (ids f)) eqn:E.
  - exfalso. assert (Hl : ex_loading (ef_page (deliver f a)) = false)
      by (rewrite deliver_loading, E; reflexivity).
    pose proof (deliver_all_idle _ rs Hl) as Hc. unfold deliver_all in Hc. congruence.
  - assert (Hd : deliver f a = f) by (unfold deliver; simpl; now rewrite E).
    rewrite Hd in H. destruct (IH f H) as [Hf Hrs]. split; [exact Hf|].
    intros b [Hab|Hb]; [subst b|exact (Hrs b Hb)].
    intros Hin.
    assert (existsb (Nat.eqb (fst a)) (ids f) = true)
      by (apply existsb_exists; exists (fst a); split; [exact Hin | apply Nat.eqb_refl]).
    congruence.
Qed.

Lemma deliver_domain (f : flow) (a : nat * reply Json) :
  ex_domain (ef_page (deliver f a)) = ex_domain (ef_page f).
Proof.
  unfold deliver. simpl. destruct (existsb _ (ids f)); [|reflexivity].
  apply load_finish_shape.
Qed.

Lemma load_finish_profiles (st st' : explorer_state Json) (r : reply Json) :
  ex_profiles (load_finish profiles_of as_list st r) = ex_profiles (load_finish profiles_of as_list st' r).
Proof.
  unfold load_finish. destruct r as [|status [|]]; [reflexivity| |];
    destruct (negb (reply_ok status)); reflexivity.
Qed.

(** ** Theorems *)

(** C7: Whatever the page has been through, once an answer has arrived
    for every request in flight (in any order, with any content, answers
    to other requests being ignored), no request is left in flight and
    the page no longer shows [loading]. *)
Theorem explorer_settles (f : flow) (rs : list (nat * reply Json)) :
  ex_reachable f -> (forall id, In id (ids f) -> In id (map fst rs)) ->
  ef_pending (deliver_all f rs) = [] /\ ex_loading (ef_page (deliver_all f rs)) = false.
Proof.
  intros Hr Hcov. split.
  - rewrite deliver_all_pending. apply filter_none. intros [k q] Hin.
    assert (Hk : In k (map fst rs)) by (apply Hcov; exact (in_map fst _ _ Hin)).
    apply negb_false_iff, existsb_exists. exists k. split; [exact Hk | apply Nat.eqb_refl].
  - destruct (ex_loading (ef_page (deliver_all f rs))) eqn:E; [exfalso|reflexivity].
    destruct (deliver_all_loading f rs E) as [Hl Hmiss].
    pose proof (reachable_inv f Hr Hl) as Hne.
    destruct (ef_pending f) as [|[k q] l] eqn:Ep; [contradiction|].
    assert (Hk : In k (ids f)) by (unfold ids; rewrite Ep; now left).
    destruct (proj1 (in_map_iff _ _ _) (Hcov k Hk)) as [a [Ha Hin]].
    apply (Hmiss a Hin). now rewrite Ha.
Qed.

(** C11: The answers are not matched to the query that is current: when
    two requests are in flight, the profiles shown after both answers are
    those of the answer that arrived last, even when it answers the older
    query, while the filter shows the newer one. *)
Theorem last_answer_wins (f : flow) (i j : nat) (ri rj : reply Json) :
  In i (ids f) -> In j (ids f) -> i <> j ->
  ex_profiles (ef_page (deliver_all f [(j, rj); (i, ri)])) =
    ex_profiles (load_finish profiles_of as_list (ef_page f) ri) /\
  ex_domain (ef_page (deliver_all f [(j, rj); (i, ri)])) = ex_domain (ef_page f).
Proof.
  intros Hi Hj Hij. unfold deliver_all. simpl.
  assert (Hj' : existsb (Nat.eqb j) (ids f) = true)
    by (apply existsb_exists; exists j; split; [exact Hj | apply Nat.eqb_refl]).
  assert (Hi' : existsb (Nat.eqb i) (ids (deliver f (j, rj))) = true).
  { apply existsb_exists. exists i. split; [|apply Nat.eqb_refl].
    unfold ids. rewrite deliver_pending. apply in_map_iff in Hi as [[k q] [Hk Hin]].
    simpl in Hk. subst k. apply in_map_iff. exists (i, q). split; [reflexivity|].
    apply filter_In. split; [exact Hin|]. simpl. now apply negb_true_iff, Nat.eqb_neq. }
  split; [|now rewrite !deliver_domain].
  unfold deliver at 1. simpl. rewrite Hi'. simpl. apply load_finish_profiles.
Qed.

End WithJson.

Arguments flow : clear implicits.
Arguments ex_event : clear implicits.

(** ** Concrete runs: a JSON answer is a string standing for one profile. *)

Definition one_profile (j : string) : option (list string) := Some [j].
Definition not_array (j : string) : option (list string) := None.

Definition two_filters : list (ex_event string) :=
  [ExReply 0 (Resp 200 (Ok "featured")); ExDomain "python"; ExDomain "rust"].

Definition two_in_flight : flow string :=
  match ex_run one_profile not_array ex_mounted two_filters with Some f => f | None => ex_mounted end.

(** Choosing "python" then "rust" in the domain filter sends two
    requests; when the "rust" answer comes first the page stops showing
    [loading] although the "python" request is still in flight, and when
    the "python" answer comes next the page shows the Python profiles
    under the "rust" filter. *)
Example explorer_out_of_order :
  ex_run one_profile not_array ex_mounted two_filters = Some two_in_flight /\
  ids two_in_flight = [1; 2] /\
  match ex_run one_profile not_array two_in_flight [ExReply 2 (Resp 200 (Ok "rust-dev"))] with
  | Some f1 =>
      ex_loading (ef_page f1) = false /\ ids f1 = [1] /\
      match ex_run one_profile not_array f1 [ExReply 1 (Resp 200 (Ok "python-dev"))] with
      | Some f2 => ex_profiles (ef_page f2) = ["python-dev"] /\ ex_domain (ef_page f2) = "rust"
      | None => False
      end
  | None => False
  end.
Proof. vm_compute. repeat split. Qed.

Lemma ex_run_reachable {Json} (pof al : Json -> option (list Json)) (f f' : flow Json) es :
  ex_reachable pof al f -> ex_run pof al f es = Some f' -> ex_reachable pof al f'.
Proof.
  revert f. induction es as [|e es IH]; intros f Hf H; simpl in H; [congruence|].
  destruct (ex_exec pof al f e) eqn:E; [|discriminate].
  exact (IH _ (ex_reach_step _ _ _ _ _ Hf E) H).
Qed.

Lemma explorer_settles_witness :
  ef_pending (deliver_all one_profile not_array two_in_flight
                [(2, Resp 200 (Ok "rust-dev")); (1, Resp 500 (Err "down"))]) = [].
Proof.
  refine (proj1 (explorer_settles one_profile not_array two_in_flight _ _ _)).
  - apply (ex_run_reachable _ _ ex_mounted _ two_filters); [apply ex_reach_init | reflexivity].
  - vm_compute. intros id [<-|[<-|[]]]; tauto.
Defined.

Lemma last_answer_wins_witness :
  ex_domain (ef_page (deliver_all one_profile not_array two_in_flight
                        [(2, Resp 200 (Ok "rust-dev")); (1, Resp 200 (Ok "python-dev"))]))
  = ex_domain (ef_page two_in_flight).
Proof.
  refine (proj2 (last_answer_wins one_profile not_array two_in_flight 1 2 _ _ _ _ _));
    [vm_compute; tauto | vm_compute; tauto | discriminate].
Defined.

End ExplorerFlow.
