(* ===== verification/DashView.v ===== *)
(** * DashView: what the Dashboard shows, and its manual lookup

    [src/frontend/src/pages/RecordsPage.jsx] lines 54–228: the page's
    render as the list of the panels and values it shows for a state of
    [Pages.dash_state], the wallet context's [connected] and [address]
    and the typed [walletInput]; and [handleManualLookup] (lines 54–59)
    composed with the wallet context ([Wallet.set_manual_wallet]) and the
    effect on [address] (lines 18–22): the handler's lookup and the
    effect's both start before either is answered, and their answers
    come in either order, each writing only the fields [Pages.dash_finish]
    writes.  The reputation JSON is abstract,
    with the fields the page reads as Section variables. *)

From Stdlib Require Import ZArith QArith Lia List String.
From stdpp Require Import base decidable.
From S2P Require Import Prelude Wallet Pages.
Import ListNotations.

Module DashView.
Import Pages.

Local Open Scope string_scope.

Section WithJson.
Context {Json : Type}.
Context (detail : Json -> option string) (records_of : Json -> option (list Json)).
(** The fields of the reputation profile. *)
Context (total_reputation : Json -> Q) (total_records : Json -> Z)
  (credibility_level : Json -> string) (trust_index : Json -> Q)
  (verification_badge : Json -> bool)          (** its truthiness *)
  (top_domain : Json -> option string) (active_since : Json -> Z)   (** [0] when absent *)
  (domain_scores : Json -> list Json).

Inductive dwidget :=
| ConnectCard (lookup_enabled lookup_loading : bool) (error : option string)   (** lines 73–107 *)
| LoadingCard (head tail : string)                                    (** lines 110–117 *)
| ErrorCard (msg : string)                                            (** lines 120–127 *)
| AddressBadge (address : string)                                     (** lines 132–137 *)
| StatsGrid (score : Z) (trust_width : Q) (records : Z) (level level_class : string)
    (trust_tenths : Z)                                                (** lines 140–162 *)
| BadgeW (verified : bool)                                            (** lines 166–168 *)
| TopDomainW (d : string)                                             (** lines 169–171 *)
| ActiveSinceW (ts : Z)                                               (** lines 172–176 *)
| DomainChartW (scores : list Json)                                   (** lines 181–190 *)
| ScoreRingW (score size : Z) (label : string)                        (** lines 193–202 *)
| TimelineW (count : nat) (records : list Json)                       (** lines 206–215 *)
| EmptyStateW.                                                        (** lines 220–226 *)

(** Line 61. *)
Definition tier_class (rep : option Json) : string :=
  match rep with Some r => "tier-" ++ credibility_level r | None => "" end.

(** Lines 129–217: the profile. *)
Definition reputation_view (rep : Json) (connected : bool) (address : string)
  (records : list Json) : list dwidget :=
  (if connected then [AddressBadge address] else []) ++
  [StatsGrid (js_round (total_reputation rep)) (trust_index rep * 100) (total_records rep)
     (credibility_level rep) (tier_class (Some rep)) (js_to_fixed 1 (trust_index rep * 100));
   BadgeW (verification_badge rep)] ++
  (match top_domain rep with
   | Some t => if truthy (Some t) then [TopDomainW t] else []
   | None => []
   end) ++
  (if negb (active_since rep =? 0)%Z then [ActiveSinceW (active_since rep)] else []) ++
  [DomainChartW (domain_scores rep);
   ScoreRingW (js_round (total_reputation rep)) 160 (credibility_level rep);
   TimelineW (length records) records].

(** Lines 63–228. *)
Definition dash_view (d : dash_state Json) (connected : bool) (address input : string)
  : list dwidget :=
  let err := d_error d in
  (if negb connected then
     [ConnectCard (negb (d_loading d) && (58 <=? String.length input)%nat) (d_loading d)
        (if truthy (Some err) then Some err else None)]
   else []) ++
  (if connected && d_loading d then [LoadingCard (slice_head 6 address) (slice_tail 4 address)]
   else []) ++
  (if connected && truthy (Some err) && negb (d_loading d) then [ErrorCard err] else []) ++
  (match d_reputation d with
   | Some rep => reputation_view rep connected address (d_records d)
   | None => []
   end) ++
  (if negb (d_loading d) && (match d_reputation d with Some _ => false | None => true end) &&
      connected && negb (truthy (Some err))
   then [EmptyStateW] else []).

(** The panels that say where the lookup stands. *)
Definition is_status (w : dwidget) : bool :=
  match w with
  | LoadingCard _ _ | ErrorCard _ | StatsGrid _ _ _ _ _ _ | EmptyStateW => true
  | _ => false
  end.

Definition status_count (ws : list dwidget) : nat := length (List.filter is_status ws).

(** The states a lookup leaves: no profile while loading or after an
    error. *)
Definition dash_wf (d : dash_state Json) : Prop :=
  (d_loading d = true -> d_reputation d = None /\ d_error d = "") /\
  (d_error d <> "" -> d_reputation d = None).

(** Lines 54–59: [handleManualLookup], then the effect of lines 18–22 when
    [setManualWallet] changed [address].  Both lookups start before
    either answer arrives (the effect runs right after the render that
    [setManualWallet] causes), and their answers arrive in either order:
    [effect_first] says whether the effect's lookup is answered first.
    Each answer writes only the fields [dash_finish] writes. *)
Definition manual_lookup (ws : Wallet.wallet_state) (d : dash_state Json) (input : string)
  (env1 env2 : dash_env Json) (effect_first : bool)
  : Wallet.wallet_state * dash_state Json * list request :=
  if (58 <=? String.length input)%nat then
    let ws' := Wallet.set_manual_wallet ws input in
    let address := js_or_default (Wallet.w_address ws) "" in
    match lookup_wallet (Some input) address input with
    | None => (ws', d, [])
    | Some w =>
        let d1 := dash_start d in
        if negb (bool_decide (Wallet.w_address ws' = Wallet.w_address ws)) &&
           dash_auto_lookup input then
          let d2 := dash_start d1 in
          let d3 := if effect_first then dash_finish detail records_of (dash_finish detail records_of d2 env2) env1
                    else dash_finish detail records_of (dash_finish detail records_of d2 env1) env2 in
          (ws', d3, [GetReputation w; GetWallet w; GetReputation input; GetWallet input])
        else (ws', dash_finish detail records_of d1 env1, [GetReputation w; GetWallet w])
    end
  else (ws, d, []).

(** ** Lemmas *)

Lemma status_count_app (a b : list dwidget) :
  status_count (a ++ b) = (status_count a + status_count b)%nat.
Proof. unfold status_count. now rewrite filter_app, length_app. Qed.

Lemma reputation_view_status (rep : Json) (c : bool) (a : string) (rs : list Json) :
  status_count (reputation_view rep c a rs) = 1%nat.
Proof.
  unfold reputation_view. rewrite !status_count_app.
  destruct c, (top_domain rep) as [t|]; try destruct (truthy (Some t));
    destruct (negb (active_since rep =? 0)%Z); reflexivity.
Qed.

Lemma dash_start_wf (d : dash_state Json) : dash_wf (dash_start d).
Proof. split; [split; reflexivity | intros H; reflexivity]. Qed.

Lemma dash_finish_wf (d : dash_state Json) (env : dash_env Json) :
  dash_wf (dash_finish detail records_of (dash_start d) env).
Proof.
  unfold dash_finish. destruct (dash_try _ _ env) as [[rep recs]|m]; split; simpl;
    try discriminate; try reflexivity; intros H; now exfalso.
Qed.

(** Two answers to lookups started one after the other, one a failure
    with a message and one a success: the page keeps the message of the
    failure and the profile of the success, whichever came first. *)
Lemma dash_finish_mixed (d : dash_state Json) (ok bad e1 e2 : dash_env Json) (rep : Json)
    (recs : list Json) (m : string) :
  dash_try detail records_of ok = Ok (rep, recs) -> dash_try detail records_of bad = Err m ->
  (e1 = ok /\ e2 = bad) \/ (e1 = bad /\ e2 = ok) ->
  let d' := dash_finish detail records_of (dash_finish detail records_of
              (dash_start (dash_start d)) e1) e2 in
  d_reputation d' = Some rep /\ d_error d' = m /\ d_loading d' = false.
Proof.
  intros Hok Hbad [[-> ->]|[-> ->]]; unfold dash_finish; rewrite ?Hok, ?Hbad; simpl;
    rewrite ?Hok, ?Hbad; repeat split.
Qed.

Lemma dash_wf_one_status (d : dash_state Json) (address input : string) :
  dash_wf d -> status_count (dash_view d true address input) = 1%nat.
Proof.
  intros [Hl He]. unfold dash_view. rewrite !status_count_app.
  destruct (d_loading d) eqn:L.
  - destruct (Hl eq_refl) as [-> ->]. reflexivity.
  - destruct (d_reputation d) as [rep|] eqn:R.
    + assert (Herr : d_error d = "") by (destruct (String.eqb_spec (d_error d) "") as [E|E];
        [exact E | specialize (He E); congruence]).
      rewrite Herr, reputation_view_status. reflexivity.
    + destruct (truthy (Some (d_error d))); reflexivity.
Qed.

(** A profile shown together with a non-empty error: two status panels. *)
Lemma error_and_profile (d : dash_state Json) (rep : Json) (address input : string) :
  d_reputation d = Some rep -> d_error d <> "" -> d_loading d = false ->
  status_count (dash_view d true address input) = 2%nat.
Proof.
  intros R E L. apply truthy_Some in E. unfold dash_view.
  rewrite !status_count_app, R, E, L, reputation_view_status. reflexivity.
Qed.

(** ** Theorems *)

(** C9: With a wallet connected, a lookup that runs by itself (started,
    or started and answered, whatever the answers and whatever the page
    showed before) leaves the Dashboard showing exactly one of: the
    loading card, the error card, the profile, or the empty state. *)
Theorem dash_view_one_status (d : dash_state Json) (env : dash_env Json) (address input : string) :
  status_count (dash_view (dash_start d) true address input) = 1%nat /\
  status_count (dash_view (dash_finish detail records_of (dash_start d) env) true address input)
    = 1%nat.
Proof. split; apply dash_wf_one_status; [apply dash_start_wf | apply dash_finish_wf]. Qed.

(** C10: Two lookups of the same wallet overlap on every manual lookup of
    a new address (the handler's and the effect's); when one of them fails
    with a message and the other succeeds, in either order, the Dashboard
    ends showing both the error card and the profile. *)
Theorem overlapping_lookups_two_status (ws : Wallet.wallet_state) (d : dash_state Json)
    (input : string) (ok bad : dash_env Json) (rep : Json) (recs : list Json) (m : string)
    (i : string) (effect_first : bool) :
  (58 <= String.length input)%nat -> Wallet.w_address ws <> Some input ->
  dash_try detail records_of ok = Ok (rep, recs) -> dash_try detail records_of bad = Err m ->
  m <> "" ->
  status_count (dash_view (snd (fst (manual_lookup ws d input ok bad effect_first))) true input i)
    = 2%nat /\
  status_count (dash_view (snd (fst (manual_lookup ws d input bad ok effect_first))) true input i)
    = 2%nat.
Proof.
  intros Hl Hne Hok Hbad Hm.
  assert (Hd : forall e1 e2, (e1 = ok /\ e2 = bad) \/ (e1 = bad /\ e2 = ok) ->
    snd (fst (manual_lookup ws d input e1 e2 effect_first)) =
    dash_finish detail records_of (dash_finish detail records_of (dash_start (dash_start d))
      (if effect_first then e2 else e1)) (if effect_first then e1 else e2)).
  { intros e1 e2 _. unfold manual_lookup.
    rewrite (proj2 (Nat.leb_le _ _) Hl), lookup_wallet_long by exact Hl.
    cbn [Wallet.w_address Wallet.set_manual_wallet].
    rewrite bool_decide_false by exact (fun H => Hne (eq_sym H)).
    unfold dash_auto_lookup. rewrite (proj2 (truthy_Some input)) by (intros ->; simpl in Hl; lia).
    rewrite (proj2 (Nat.leb_le _ _) Hl). destruct effect_first; reflexivity. }
  split; (rewrite Hd by tauto;
    edestruct (dash_finish_mixed d ok bad) as (R & E & L); [exact Hok | exact Hbad | |
      apply (error_and_profile _ rep); [exact R | rewrite E; exact Hm | exact L]];
    destruct effect_first; tauto).
Qed.


(** C28: A manual lookup of a new address asks for its reputation and
    records twice: once from [handleManualLookup], and once more from the
    effect on [address], which [setManualWallet] has just changed. *)
Theorem manual_lookup_twice (ws : Wallet.wallet_state) (d : dash_state Json) (input : string)
    (env1 env2 : dash_env Json) (effect_first : bool) :
  (58 <= String.length input)%nat -> Wallet.w_address ws <> Some input ->
  snd (manual_lookup ws d input env1 env2 effect_first) =
    [GetReputation input; GetWallet input; GetReputation input; GetWallet input].
Proof.
  intros Hl Hne. unfold manual_lookup.
  assert (Hb : (58 <=? String.length input)%nat = true) by now apply Nat.leb_le.
  assert (Ht : truthy (Some input) = true)
    by (apply truthy_Some; intros ->; simpl in Hl; lia).
  pose proof (lookup_wallet_long input (js_or_default (Wallet.w_address ws) "") input Hl) as Hw.
  rewrite Hb, Hw. cbn [Wallet.w_address Wallet.set_manual_wallet].
  rewrite bool_decide_false by exact (fun H => Hne (eq_sym H)).
  unfold dash_auto_lookup. rewrite Ht, Hb. reflexivity.
Qed.

End WithJson.

Arguments dwidget : clear implicits.

Definition sample_input : string :=
  "ABCDEFGHIJKLMNOPQRSTUVWXYZABCDEFGHIJKLMNOPQRSTUVWXYZ234567".

Definition blank_dash : dash_state string :=
  {| d_reputation := None; d_records := []; d_loading := false; d_error := "" |}.

Definition no_answer : dash_env string :=
  {| de_rep := Rejected "Failed to fetch"; de_wallet := Rejected "Failed to fetch";
     de_rep_first := true |}.

Definition answered : dash_env string :=
  {| de_rep := Resp 200 (Ok "rep"); de_wallet := Resp 200 (Ok "wallet"); de_rep_first := true |}.

(** The profile of the lookup that succeeded beside the error card of the
    one whose fetches were rejected. *)
Lemma overlapping_lookups_two_status_witness :
  status_count (dash_view (fun _ => 0%Q) (fun _ => 0%Z) (fun j => j) (fun _ => 0%Q)
     (fun _ => false) (fun _ => None) (fun _ => 0%Z) (fun _ => [])
     (snd (fst (manual_lookup (fun _ => None) (fun _ => None) (Wallet.init None) blank_dash
        sample_input answered no_answer true))) true sample_input "") = 2%nat.
Proof.
  refine (proj1 (overlapping_lookups_two_status (fun _ => None) (fun _ => None)
    (fun _ => 0%Q) (fun _ => 0%Z) (fun j => j) (fun _ => 0%Q) (fun _ => false) (fun _ => None)
    (fun _ => 0%Z) (fun _ => []) (Wallet.init None) blank_dash sample_input answered no_answer
    "rep" [] "Failed to fetch" "" true _ _ _ _ _)); [vm_compute; lia | discriminate |
    reflexivity | reflexivity | discriminate].
Defined.

Lemma manual_lookup_twice_witness :
  snd (manual_lookup (fun j => Some j) (fun _ => None) (Wallet.init None) blank_dash sample_input
         no_answer no_answer true) =
    [GetReputation sample_input; GetWallet sample_input;
     GetReputation sample_input; GetWallet sample_input].
Proof. apply manual_lookup_twice; [vm_compute; lia | discriminate]. Defined.

End DashView.
