(* ===== verification/VerifierView.v ===== *)
(** * VerifierView: what the Verifier shows, and its buttons

    [src/unnamed/part_002] lines 34–219 ([VerifierPage]): the render as
    the list of widgets it shows for a [Pages.verifier_state], the wallet
    context's [connected] and [address] and the typed [walletInput];
    [handleManualVerify] (lines 34–39) and the Verify button and Enter key
    (lines 85, 89–96), which call [handleVerify(address)] when a wallet
    is connected and [handleManualVerify()] otherwise.  The tier ladders
    are those of [Tier]; the verification JSON is abstract, with the
    fields the page reads as Section variables. *)

From Stdlib Require Import ZArith QArith Lia List String.
From stdpp Require Import base decidable.
From S2P Require Import Prelude Tier Wallet Pages.
Import ListNotations.

Module VerifierView.
Import Pages.

Local Open Scope string_scope.

Section WithJson.
Context {Json : Type}.
Context (detail : Json -> option string).
(** The fields of the verification answer; a numeric field is [None]
    when it is absent (or falsy, for those the page reads with [||]). *)
Context (credibility_score : Json -> option Q) (verified : Json -> bool)
  (total_records : Json -> option Z) (trust_index : Json -> option Q)
  (top_domain : Json -> option string) (domain_scores : Json -> list Json)
  (records : Json -> list Json).
(** The fields of one record: [score] ([??] keeps a 0), [domain], [mode],
    [timestamp] ([0] when absent). *)
Context (r_score : Json -> option Q) (r_domain r_mode : Json -> option string)
  (r_timestamp : Json -> Z).

(** One row of the record list (lines 190–210). *)
Record row := {
  row_domain : string; row_mode : string; row_score : Q; row_tier : string;
  row_date : option Z
}.

Inductive vwidget :=
| ConnectVerifyBtn                                   (** lines 68–75 *)
| WalletInput (value : string) (read_only : bool)    (** lines 79–88 *)
| VerifyBtn (enabled loading : bool)                 (** lines 89–96 *)
| ConnectedNote (head tail : string)                 (** lines 99–103 *)
| ErrorW (msg : string)                              (** line 105 *)
| LoadingW                                           (** lines 109–116 *)
| Hero (score : Q) (verified : bool) (records : Z) (trust_tenths : Z) (tier : string)
                                                     (** lines 122–138 *)
| Stats (records : Z) (top_domain : string) (trust_pct : Z) (trust_width : Q)
    (verified : bool)                                (** lines 141–163 *)
| DomainChartW (scores : list Json)                  (** lines 166–177 *)
| RecordList (count : nat) (rows : list row).        (** lines 180–214 *)

Definition num_or (o : option Q) : Q := match o with Some q => q | None => 0%Q end.

(** Lines 191–207. *)
Definition record_row (r : Json) : row :=
  {| row_domain := js_or_default (r_domain r) "Unknown";
     row_mode := js_or_default (r_mode r) "ai-graded";
     row_score := num_or (r_score r);
     row_tier := Tier.record_tier (r_score r);
     row_date := if (r_timestamp r =? 0)%Z then None else Some (r_timestamp r) |}.

(** Lines 119–215: the results. *)
Definition result_view (data : Json) : list vwidget :=
  let trust := (num_or (trust_index data) * 100)%Q in
  let recs := match total_records data with Some n => n | None => 0%Z end in
  [Hero (num_or (credibility_score data)) (verified data) recs (js_to_fixed 1 trust)
     (Tier.verifier_tier_label true (credibility_score data));
   Stats recs (js_or_default (top_domain data) "N/A") (js_to_fixed 0 trust) trust (verified data)] ++
  (if (0 <? length (domain_scores data))%nat then [DomainChartW (domain_scores data)] else []) ++
  (if (0 <? length (records data))%nat
   then [RecordList (length (records data)) (map record_row (records data))] else []).

(** Lines 48–219. *)
Definition verifier_view (v : verifier_state Json) (connected : bool) (address input : string)
  : list vwidget :=
  (if connected then [] else [ConnectVerifyBtn]) ++
  [WalletInput (if connected then address else input) connected;
   VerifyBtn (negb (v_loading v || (negb connected && (String.length input <? 58)%nat)))
             (v_loading v)] ++
  (if connected then [ConnectedNote (slice_head 8 address) (slice_tail 4 address)] else []) ++
  (if truthy (Some (v_error v)) then [ErrorW (v_error v)] else []) ++
  (if v_loading v then [LoadingW] else []) ++
  (match v_data v with
   | Some d => if v_loading v then [] else result_view d
   | None => []
   end).

(** Lines 34–39 and 85, 92: the Verify button (or Enter), with the answer
    [r] to the request it makes; [setManualWallet] acts on the wallet
    context. *)
Definition click_verify (ws : Wallet.wallet_state) (v : verifier_state Json) (input : string)
  (r : reply Json) : Wallet.wallet_state * verifier_state Json * list request :=
  let address := js_or_default (Wallet.w_address ws) "" in
  if Wallet.w_connected ws then
    let '(v', c) := verify detail v (Some address) address input r in (ws, v', c)
  else if (58 <=? String.length input)%nat then
    let ws' := Wallet.set_manual_wallet ws input in
    let '(v', c) := verify detail v (Some input) address input r in (ws', v', c)
  else (ws, v, []).

(** Whether the Verify button of a render is enabled. *)
Definition btn_enabled (w : vwidget) : bool :=
  match w with VerifyBtn e _ => e | _ => false end.

Definition verify_enabled (ws : list vwidget) : bool := existsb btn_enabled ws.

Lemma result_view_no_button (d : Json) : existsb btn_enabled (result_view d) = false.
Proof.
  unfold result_view. rewrite !existsb_app.
  destruct (0 <? length (domain_scores d))%nat, (0 <? length (records d))%nat; reflexivity.
Qed.

Lemma verify_enabled_view (v : verifier_state Json) (c : bool) (a i : string) :
  verify_enabled (verifier_view v c a i) =
  negb (v_loading v || (negb c && (String.length i <? 58)%nat)).
Proof.
  unfold verify_enabled, verifier_view. rewrite !existsb_app.
  destruct (v_loading v) eqn:L, (v_data v) as [d|], c, (truthy (Some (v_error v)));
    cbn -[result_view];
    rewrite ?L, ?result_view_no_button, ?orb_false_r; reflexivity.
Qed.

(** ** Theorems *)

(** C17: Without a connected wallet, the Verify button is enabled exactly
    when pressing it verifies the typed address: it then asks
    [/verify/<input>] for that address and nothing else. *)
Theorem manual_verify_button (ws : Wallet.wallet_state) (v : verifier_state Json)
    (address input : string) (r : reply Json) :
  Wallet.w_connected ws = false -> v_loading v = false ->
  (verify_enabled (verifier_view v false address input) = true <->
   snd (click_verify ws v input r) = [GetVerify input]).
Proof.
  intros Hc Hl. rewrite verify_enabled_view, Hl. unfold click_verify. rewrite Hc.
  destruct (Nat.leb_spec 58 (String.length input)) as [Hle|Hgt].
  - assert (Hb : (String.length input <? 58)%nat = false) by (apply Nat.ltb_ge; lia).
    rewrite Hb. unfold verify. rewrite (lookup_wallet_long _ _ _ Hle).
    simpl. split; intros _; reflexivity.
  - assert (Hb : (String.length input <? 58)%nat = true) by (apply Nat.ltb_lt; lia).
    rewrite Hb. simpl. split; discriminate.
Qed.

(** C29: With a wallet connected whose address is shorter than an Algorand
    address (such as the ["undefined"] a reload restores after an empty
    Pera answer), the Verify button is enabled but pressing it does
    nothing: no request, no message. *)
Theorem connected_short_address_dead (ws : Wallet.wallet_state) (v : verifier_state Json)
    (a input : string) (r : reply Json) :
  Wallet.w_connected ws = true -> Wallet.w_address ws = Some a -> a <> "" ->
  (String.length a < 58)%nat -> v_loading v = false ->
  verify_enabled (verifier_view v true a input) = true /\ click_verify ws v input r = (ws, v, []).
Proof.
  intros Hc Ha Hne Hlen Hl. rewrite verify_enabled_view, Hl. split; [reflexivity|].
  unfold click_verify. rewrite Hc, Ha, js_or_default_truthy by exact Hne.
  unfold verify, lookup_wallet.
  assert (Ht : truthy (Some a) = true) by now apply truthy_Some.
  rewrite (js_or_truthy_l _ _ Ht), js_or_default_truthy by exact Hne. rewrite Ht.
  assert (Hb : (58 <=? String.length a)%nat = false) by (apply Nat.leb_gt; lia).
  now rewrite Hb.
Qed.

End WithJson.

Arguments vwidget : clear implicits.

Definition idle_verifier : verifier_state string :=
  {| v_data := None; v_loading := false; v_error := "" |}.

Lemma manual_verify_button_witness :
  snd (click_verify (fun j => Some j) (Wallet.init None) idle_verifier
         "ABCDEFGHIJKLMNOPQRSTUVWXYZABCDEFGHIJKLMNOPQRSTUVWXYZ234567" (Rejected "offline"))
  = [GetVerify "ABCDEFGHIJKLMNOPQRSTUVWXYZABCDEFGHIJKLMNOPQRSTUVWXYZ234567"].
Proof.
  apply (manual_verify_button _ (fun _ => None) (fun _ => false) (fun _ => None) (fun _ => None)
           (fun _ => None) (fun _ => []) (fun _ => []) (fun _ => None) (fun _ => None)
           (fun _ => None) (fun _ => 0%Z) (Wallet.init None) idle_verifier "");
    reflexivity.
Defined.

(** After [connectWallet] with an empty account list and a reload, the
    wallet context holds the address ["undefined"]. *)
Lemma connected_short_address_dead_witness :
  click_verify (fun j => Some j) (Wallet.init (Some "undefined")) idle_verifier "" (Rejected "offline")
  = (Wallet.init (Some "undefined"), idle_verifier, []).
Proof.
  refine (proj2 (connected_short_address_dead _ (fun _ => None) (fun _ => false) (fun _ => None)
           (fun _ => None) (fun _ => None) (fun _ => []) (fun _ => []) (fun _ => None)
           (fun _ => None) (fun _ => None) (fun _ => 0%Z) (Wallet.init (Some "undefined"))
           idle_verifier "undefined" "" (Rejected "offline") eq_refl eq_refl _ _ eq_refl));
    [discriminate | vm_compute; lia].
Defined.

End VerifierView.
