(* ===== verification/SubmitView.v ===== *)
(** * SubmitView: what the Submit page shows

    [src/unnamed/part_001] lines 156–175 (the colour and icon tables),
    342–347 (the values derived from the analysis) and 349–783 (the
    render): the wallet card, the source tabs and input, the Analyze
    button, the error panel, the analyzing skeleton, the analysis panel
    (score hero, per-source details, language pills, signal cards,
    domains, explanation, Submit button) and the success panel.  The
    render is a function of [Submit.page_state], the wallet context and
    the parts of the analysis JSON it reads ([analysis_json]).  The
    language pills are sorted with the Standard Library's merge sort on
    the comparator of line 638; [Array.prototype.sort] is stable, as is
    that merge, so ties keep the order of the entries. *)

From Stdlib Require Import ZArith QArith Qfield Qround Lia Lqa List String Ascii Permutation Sorted.
From Stdlib Require Import Orders Mergesort.
From stdpp Require Import base decidable.
From S2P Require Import Prelude Tier Submit SubmitFlow.
Import ListNotations.

Module SubmitView.
Import Submit.

Local Open Scope string_scope.

(** ** Tables *)

(** Lines 157–164 and 642: [LANG_COLORS[lang.toLowerCase()] || '#888']. *)
Definition lang_color (lang : string) : string :=
  match to_lower lang with
  | "javascript" => "#f1e05a" | "typescript" => "#3178c6" | "python" => "#3572A5"
  | "java" => "#b07219" | "go" => "#00ADD8" | "rust" => "#dea584" | "cpp" => "#f34b7d"
  | "c++" => "#f34b7d" | "c" => "#555555" | "ruby" => "#701516" | "php" => "#4F5D95"
  | "swift" => "#F05138" | "kotlin" => "#A97BFF" | "dart" => "#00B4AB" | "html" => "#e34c26"
  | "css" => "#563d7c" | "shell" => "#89e051" | "solidity" => "#AA6746" | "c#" => "#178600"
  | "scala" => "#c22d40" | "lua" => "#000080" | "r" => "#198CE7" | "perl" => "#0298c3"
  | _ => "#888"
  end.

(** Lines 167–175 and 663: [SIGNAL_ICONS[s.signal_name] || '📊']. *)
Definition signal_icon (name : string) : string :=
  match name with
  | "commit_activity" => "🔥" | "code_volume" => "📦" | "language_diversity" => "🌐"
  | "community_signals" => "👥" | "documentation" => "📝" | "recency" => "⏱️"
  | "repo_maturity" => "🏛️" | "code_quality_signals" => "✅" | "originality" => "🎯"
  | "content_presence" => "📄" | "recent_activity" => "⏱️" | "commit_consistency" => "📊"
  | "language_verification" => "🔤" | "file_integrity" => "🔒" | "file_type" => "📋"
  | "file_size" => "📐" | "name_plausibility" => "🏷️" | "project_structure" => "🗂️"
  | "hash_integrity" => "🔐"
  | _ => "📊"
  end.

(** Line 663: [s.signal_name.replace(/_/g, ' ')]. *)
Fixpoint underscores_to_spaces (s : string) : string :=
  match s with
  | EmptyString => EmptyString
  | String c s' => String (if Ascii.eqb c "_"%char then " "%char else c) (underscores_to_spaces s')
  end.

(** ** Language pills (lines 342–345 and 631–650) *)

(** Line 638: [(a, b) => b[1] - a[1]], the larger byte count first. *)
Module LangOrder <: Orders.TotalLeBool.
Definition t : Type := string * Z.
Definition leb (x y : t) : bool := (snd y <=? snd x)%Z.
Theorem leb_total : forall a1 a2, leb a1 a2 = true \/ leb a2 a1 = true.
Proof. intros [] []. unfold leb. simpl. destruct (Z.leb_spec z z0); [right|left]; lia. Qed.
End LangOrder.

Module LangSort := Sort LangOrder.

(** Line 345: [reduce(...) || 1]. *)
Definition total_bytes (langs : list (string * Z)) : Z :=
  let s := fold_right (fun e acc => (snd e + acc)%Z) 0%Z langs in
  if (s =? 0)%Z then 1%Z else s.

Definition share (langs : list (string * Z)) (bytes : Z) : Q :=
  (inject_Z bytes / inject_Z (total_bytes langs) * 100)%Q.

Record pill := { pill_lang : string; pill_color : string; pill_pct : Z }.

(** Lines 638–647. *)
Definition language_pills (langs : list (string * Z)) : list pill :=
  map (fun e => {| pill_lang := fst e; pill_color := lang_color (fst e);
                   pill_pct := js_to_fixed 0 (share langs (snd e)) |})
      (LangSort.sort langs).

(** ** The analysis JSON, as the render reads it *)

Record meta := {
  m_full_name : option string; m_repo : option string; m_original_filename : option string;
  m_filename : option string; m_description : option string; m_extension : option string;
  m_size_bytes : Q;                 (** [meta.size_bytes || 0] *)
  m_code_files : Z; m_total_files : Z;   (** [|| 0] *)
  m_stars : option Z;               (** [None]: [meta.stars === undefined] *)
  m_forks : Z; m_contributors : Z; m_file_count : Z;
  m_sha256 : string; m_project_hash : string;   (** [|| ''] *)
  m_languages : list (string * Z);  (** line 343: [[]] unless a plain object *)
  m_explanation : option string
}.

Record analysis_json := {
  aj_overall : Q;
  aj_meta : meta;                   (** line 342: [analysis?.metadata || {}] *)
  aj_verified : bool;
  aj_signals : list (string * Q * string);   (** name, normalized, detail *)
  aj_domains : list (string * Q);            (** domain, confidence *)
  aj_explanation : option string
}.

(** Lines 532–536: the line under the title; numbers as [toFixed] prints
    them ([kb_tenths] is [size / 1024] to one decimal, in tenths). *)
Inductive hero_desc :=
| DescText (t : string)
| DescFile (filename extension : string) (kb_tenths : Z)
| DescProject (code_files total_files : Z).

Inductive swidget :=
| WalletCard (connected : bool) (title : string) (address : option string)
    (use_address_enabled : bool)                                  (** lines 359–398 *)
| SourceTabs (active : source_kind)                               (** lines 412–427 *)
| SourceInput (label : string)                                    (** lines 430–470 *)
| AnalyzeBtn (enabled analyzing : bool)                           (** lines 473–481 *)
| ErrorPanel (msg : string)                                       (** lines 483–487 *)
| Skeleton (what hint : string)                                   (** lines 490–512 *)
| ScoreHero (score : Z) (title : string) (description : hero_desc) (tier : string)         (** lines 521–547 *)
| CommunityStats (stars forks contributors files : Z)             (** lines 549–573 *)
| CertificateStats (extension : string) (kb : Z) (sha8 : string) (valid : string)
                                                                   (** lines 575–601 *)
| ProjectStats (total code : Z) (hash8 : string) (valid : string)  (** lines 603–629 *)
| LanguagePills (pills : list pill)                                (** lines 631–650 *)
| SignalCards (cards : list (string * string * Z * string * Q))    (** lines 652–675 *)
| DomainTags (tags : list (string * Z))                            (** lines 677–692 *)
| Explanation (text : string)                                      (** lines 694–702 *)
| SubmitBlock (warn enabled submitting : bool)                     (** lines 704–724 *)
| SuccessPanel (domain : string) (score : Z) (href txid16 status : string).
                                                                   (** lines 726–780 *)

Definition source_word (k : source_kind) : string :=
  match k with SrcRepo => "repository" | SrcCertificate => "certificate" | SrcProject => "project" end.

Definition source_label (k : source_kind) : string :=
  match k with
  | SrcRepo => "GitHub Repository URL"
  | SrcCertificate => "Upload Certificate (PDF, PNG, JPG, WEBP)"
  | SrcProject => "Upload Project (ZIP Archive)"
  end.

Definition skeleton_hint (k : source_kind) : string :=
  match k with
  | SrcRepo => "Fetching repo metadata, computing signals, detecting domains"
  | SrcCertificate => "Validating file integrity, checking format, computing hash"
  | SrcProject => "Scanning project structure, analyzing code files, detecting domains"
  end.

(** Lines 525–536. *)
Definition hero_title (k : source_kind) (m : meta) : string :=
  match k with
  | SrcRepo => js_or_default (m_full_name m ||ₛ m_repo m) "Repository Analysis"
  | SrcCertificate => js_or_default (m_original_filename m ||ₛ m_filename m) "Certificate Analysis"
  | SrcProject => js_or_default (m_original_filename m) "Project Analysis"
  end.

Definition hero_description (k : source_kind) (m : meta) : hero_desc :=
  match k with
  | SrcRepo => DescText (js_or_default (m_description m) "AI-powered repository credibility assessment.")
  | SrcCertificate =>
      DescFile (js_or_default (m_filename m) "Unknown") (js_or_default (m_extension m) "")
        (js_to_fixed 1 (m_size_bytes m / 1024))
  | SrcProject => DescProject (m_code_files m) (m_total_files m)
  end.

(** Lines 521–547: the score hero. *)
Definition score_hero (k : source_kind) (aj : analysis_json) : swidget :=
  let score := js_round (aj_overall aj * 100) in
  ScoreHero score (hero_title k (aj_meta aj)) (hero_description k (aj_meta aj))
    (Tier.submit_tier_label score).

(** Lines 549–573: GitHub's counters, when [meta.stars] is defined. *)
Definition community_stats (k : source_kind) (m : meta) : list swidget :=
  match k, m_stars m with
  | SrcRepo, Some st => [CommunityStats st (m_forks m) (m_contributors m) (m_file_count m)]
  | _, _ => []
  end.

(** Lines 575–629: the file panel of an upload. *)
Definition file_stats (k : source_kind) (aj : analysis_json) : list swidget :=
  let m := aj_meta aj in
  match k with
  | SrcCertificate =>
      [CertificateStats (js_or_default (m_extension m) "?") (js_to_fixed 0 (m_size_bytes m / 1024))
         (slice_head 8 (m_sha256 m)) (if aj_verified aj then "Valid" else "Check")]
  | SrcProject =>
      [ProjectStats (m_total_files m) (m_code_files m) (slice_head 8 (m_project_hash m))
         (if aj_verified aj then "Valid" else "Minimal")]
  | SrcRepo => []
  end.

(** Lines 652–675: one card per signal: icon, name, score, detail and
    the width of its bar. *)
Definition signal_cards (sigs : list (string * Q * string)) : list swidget :=
  if (0 <? length sigs)%nat then
    [SignalCards (map (fun '(n, x, d) =>
       (signal_icon n, underscores_to_spaces n, js_to_fixed 0 (x * 100), d, (x * 100)%Q)) sigs)]
  else [].

(** Lines 677–692: one tag per detected domain with its confidence. *)
Definition domain_tags (ds : list (string * Q)) : list swidget :=
  if (0 <? length ds)%nat then [DomainTags (map (fun '(d, c) => (d, js_to_fixed 0 (c * 100))) ds)]
  else [].

(** Lines 694–702: [meta.explanation || analysis.explanation]. *)
Definition explanation (m : meta) (aj : analysis_json) : list swidget :=
  match m_explanation m ||ₛ aj_explanation aj with
  | Some e => if truthy (Some e) then [Explanation e] else []
  | None => []
  end.

(** Lines 704–724: the submit block, while no result is shown. *)
Definition submit_block (needs_wallet submitting shown_result : bool) : list swidget :=
  if shown_result then []
  else [SubmitBlock needs_wallet (negb (submitting || needs_wallet)) submitting].

(** Lines 517–724: the analysis panel. *)
Definition analysis_panel (k : source_kind) (aj : analysis_json) (needs_wallet submitting : bool)
  (shown_result : bool) : list swidget :=
  let m := aj_meta aj in
  [score_hero k aj] ++ community_stats k m ++ file_stats k aj ++
  (if (0 <? length (m_languages m))%nat then [LanguagePills (language_pills (m_languages m))]
   else []) ++
  signal_cards (aj_signals aj) ++ domain_tags (aj_domains aj) ++ explanation m aj ++
  submit_block needs_wallet submitting shown_result.

(** Lines 729–780. *)
Definition success_panel (r : submit_result) : swidget :=
  SuccessPanel (sr_skill_id r) (sr_score r)
    (js_or_default (Some (sr_explorer_url r)) (EXPLORER ++ sr_txid r))
    (slice_head 16 (sr_txid r))
    (if String.eqb (sr_status r) "confirmed" then "✓ Confirmed" else "⏳ Pending Confirmation").

(** Lines 347–783: the page, with [connected] and the analysis JSON of
    [ps_analysis]. *)
Definition submit_view (s : page_state) (connected : bool) (aj : option analysis_json)
  : list swidget :=
  let needs_wallet := negb (truthy (Some (ps_address s))) && negb connected in
  [WalletCard connected (if connected then "Wallet Connected" else "Connect Wallet")
     (if connected then Some (ps_address s) else None)
     (negb connected && (58 <=? String.length (ps_wallet_input s))%nat);
   SourceTabs (ps_source s); SourceInput (source_label (ps_source s));
   AnalyzeBtn (SubmitFlow.analyze_enabled s) (ps_analyzing s)] ++
  (if truthy (Some (ps_error s)) then [ErrorPanel (ps_error s)] else []) ++
  (if ps_analyzing s then [Skeleton (source_word (ps_source s)) (skeleton_hint (ps_source s))]
   else []) ++
  (match aj with
   | Some a => if ps_analyzing s then []
               else analysis_panel (ps_source s) a needs_wallet (ps_submitting s)
                      (match ps_submit_result s with Some _ => true | None => false end)
   | None => []
   end) ++
  (match ps_submit_result s with Some r => [success_panel r] | None => [] end).

(** ** Lemmas *)

Lemma sum_nonneg_le (langs : list (string * Z)) (e : string * Z) :
  Forall (fun e => (0 <= snd e)%Z) langs -> In e langs ->
  (snd e <= fold_right (fun e acc => (snd e + acc)%Z) 0%Z langs)%Z.
Proof.
  induction 1 as [|x l Hx Hl IH]; simpl; [tauto|].
  assert (0 <= fold_right (fun e acc => (snd e + acc)%Z) 0%Z l)%Z.
  { clear IH. induction Hl; simpl; lia. }
  intros [<-|Hin]; [lia | specialize (IH Hin); lia].
Qed.

Lemma js_to_fixed_0 (q : Q) : (0 <= q)%Q -> js_to_fixed 0 q = js_round q.
Proof.
  intros Hq. unfold js_to_fixed. apply Qle_bool_iff in Hq. rewrite Hq.
  unfold js_round. apply Qfloor_comp. change (inject_Z (10 ^ Z.of_nat 0)) with 1%Q. ring.
Qed.

Lemma share_bounds (langs : list (string * Z)) (e : string * Z) :
  Forall (fun e => (0 <= snd e)%Z) langs -> In e langs ->
  (0 <= share langs (snd e) <= 100)%Q.
Proof.
  intros Hall Hin. pose proof (sum_nonneg_le langs e Hall Hin) as Hle.
  assert (H0 : (0 <= snd e)%Z) by (rewrite Forall_forall in Hall; exact (Hall e Hin)).
  unfold share, total_bytes.
  set (S := fold_right (fun e acc => (snd e + acc)%Z) 0%Z langs) in *.
  set (T := if (S =? 0)%Z then 1%Z else S).
  assert (HT : (0 < inject_Z T)%Q)
    by (change 0%Q with (inject_Z 0); rewrite <- Zlt_Qlt; unfold T; destruct (Z.eqb_spec S 0); lia).
  assert (HbT : (inject_Z (snd e) <= inject_Z T)%Q)
    by (rewrite <- Zle_Qle; unfold T; destruct (Z.eqb_spec S 0); lia).
  assert (Hb0 : (0 <= inject_Z (snd e))%Q) by (change 0%Q with (inject_Z 0); rewrite <- Zle_Qle; lia).
  assert (Hd0 : (0 <= inject_Z (snd e) / inject_Z T)%Q)
    by (apply Qle_shift_div_l; [exact HT | now rewrite Qmult_0_l]).
  assert (Hd1 : (inject_Z (snd e) / inject_Z T <= 1)%Q)
    by (apply Qle_shift_div_r; [exact HT | now rewrite Qmult_1_l]).
  split.
  - apply Qmult_le_0_compat; [exact Hd0 | discriminate].
  - pose proof (Qmult_le_compat_r _ _ 100 Hd1 ltac:(discriminate)) as H. now rewrite Qmult_1_l in H.
Qed.

Lemma sum_shares (langs l : list (string * Z)) :
  ~ (inject_Z (total_bytes langs) == 0)%Q ->
  (fold_right (fun e acc => share langs (snd e) + acc) 0 l ==
   inject_Z (fold_right (fun e acc => (snd e + acc)%Z) 0%Z l) / inject_Z (total_bytes langs) * 100)%Q.
Proof.
  intros HT. induction l as [|x l IH]; simpl.
  - field. exact HT.
  - rewrite IH, inject_Z_plus. unfold share. field. exact HT.
Qed.

Lemma sorted_bytes (l : list (string * Z)) :
  LocallySorted (fun x y => is_true (LangOrder.leb x y)) l ->
  LocallySorted (fun a b => (b <= a)%Z) (map snd l).
Proof.
  induction 1 as [|x|x y l Hs IH Hxy]; simpl; constructor; try exact IH.
  unfold is_true, LangOrder.leb in Hxy. cbv beta. apply Z.leb_le. exact Hxy.
Qed.

Definition is_submit_block (w : swidget) : bool :=
  match w with SubmitBlock _ _ _ => true | _ => false end.

Lemma analysis_panel_no_block (k : source_kind) (aj : analysis_json) (nw sub : bool) :
  existsb is_submit_block (analysis_panel k aj nw sub true) = false.
Proof.
  unfold analysis_panel, community_stats, file_stats, signal_cards, domain_tags, explanation,
    submit_block. rewrite !existsb_app.
  destruct k, (m_stars (aj_meta aj)), (0 <? length (m_languages (aj_meta aj)))%nat,
    (0 <? length (aj_signals aj))%nat, (0 <? length (aj_domains aj))%nat,
    (m_explanation (aj_meta aj) ||ₛ aj_explanation aj) as [e|];
    try destruct (truthy (Some e)); reflexivity.
Qed.

(** The outcome of a submission whose every call succeeds. *)
Lemma handle_submit_success (s : page_state) (env : submit_env) (a : analysis) (st : Z)
    (txid : string) :
  ps_analysis s = Some a -> wallet_ok (submit_wallet s) = true -> ps_pera s = true ->
  env_prepare env = Ok st -> env_params env = Ok tt -> env_address env = Ok tt ->
  env_execute env = Ok txid ->
  ps_submit_result (fst (handle_submit s env)) =
    Some {| sr_txid := txid; sr_skill_id := domain_arg a; sr_score := score_arg a;
            sr_status := "confirmed"; sr_explorer_url := EXPLORER ++ txid |} /\
  ps_analysis (fst (handle_submit s env)) = Some a /\
  ps_analyzing (fst (handle_submit s env)) = ps_analyzing s.
Proof.
  intros Ha Hw Hp H1 H2 H3 H4. unfold handle_submit, submit_start. rewrite Ha.
  fold (submit_wallet s). rewrite Hw. unfold submit_finish, submit_try. rewrite H1, H2, H3, Hp, H4. simpl. repeat split; auto.
Qed.

(** ** Theorems *)

(** C18: The language pills list every language of the analysis once,
    the largest byte count first, and, byte counts being non-negative,
    each shows a percentage between 0 and 100; the exact shares they are
    rounded from add up to 100 whenever some bytes were counted. *)
Theorem language_pills_spec (langs : list (string * Z)) :
  Forall (fun e => (0 <= snd e)%Z) langs ->
  Permutation (map pill_lang (language_pills langs)) (map fst langs) /\
  LocallySorted (fun a b => (b <= a)%Z) (map snd (LangSort.sort langs)) /\
  Forall (fun p => (0 <= pill_pct p <= 100)%Z) (language_pills langs) /\
  ((0 < fold_right (fun e acc => (snd e + acc)%Z) 0%Z langs)%Z ->
   (fold_right (fun e acc => share langs (snd e) + acc) 0 langs == 100)%Q).
Proof.
  intros Hall. pose proof (LangSort.Permuted_sort langs) as Hp.
  split; [|split; [|split]].
  - unfold language_pills. rewrite map_map. simpl. symmetry. now apply Permutation_map.
  - apply sorted_bytes, LangSort.LocallySorted_sort.
  - unfold language_pills. apply Forall_map. apply Forall_forall. intros e He. simpl.
    pose proof (share_bounds langs e Hall (Permutation_in _ (Permutation_sym Hp) He)) as [H0 H1].
    rewrite js_to_fixed_0 by exact H0. apply js_round_bounds. split; [exact H0|exact H1].
  - intros Hpos. assert (HT : total_bytes langs = fold_right (fun e acc => (snd e + acc)%Z) 0%Z langs)
      by (unfold total_bytes;
          destruct (Z.eqb_spec (fold_right (fun e acc => (snd e + acc)%Z) 0%Z langs) 0); lia).
    assert (HT0 : ~ (inject_Z (total_bytes langs) == 0)%Q).
    { rewrite HT. change 0%Q with (inject_Z 0). rewrite inject_Z_injective. lia. }
    rewrite sum_shares by exact HT0. rewrite <- HT. field. exact HT0.
Qed.

(** C16: After a submission whose calls all succeed, the page shows the
    success panel with the submitted domain and score, a link to the
    transaction on the explorer, the first 16 characters of its id and
    "✓ Confirmed", and no Submit button any more: the record cannot be
    submitted twice from the same analysis. *)
Theorem success_panel_after_submit (s : page_state) (env : submit_env) (a : analysis)
    (st : Z) (txid : string) (connected : bool) (aj : analysis_json) :
  ps_analysis s = Some a -> wallet_ok (submit_wallet s) = true -> ps_pera s = true ->
  env_prepare env = Ok st -> env_params env = Ok tt -> env_address env = Ok tt ->
  env_execute env = Ok txid ->
  In (SuccessPanel (domain_arg a) (score_arg a) (EXPLORER ++ txid) (slice_head 16 txid) "✓ Confirmed")
     (submit_view (fst (handle_submit s env)) connected (Some aj)) /\
  existsb is_submit_block (submit_view (fst (handle_submit s env)) connected (Some aj)) = false.
Proof.
  intros Ha Hw Hp H1 H2 H3 H4.
  destruct (handle_submit_success s env a st txid Ha Hw Hp H1 H2 H3 H4) as (Hr & _ & _).
  set (s' := fst (handle_submit s env)) in *. unfold submit_view. rewrite Hr. split.
  - apply in_or_app. right. repeat (apply in_or_app; right).
    left. unfold success_panel. simpl. rewrite js_or_default_truthy by (destruct txid; discriminate).
    reflexivity.
  - rewrite !existsb_app. destruct (ps_analyzing s'); [|rewrite analysis_panel_no_block];
      destruct (truthy (Some (ps_error s'))); reflexivity.
Qed.

Definition sample_meta : meta :=
  {| m_full_name := Some "a/one"; m_repo := None; m_original_filename := None; m_filename := None;
     m_description := None; m_extension := None; m_size_bytes := 0; m_code_files := 0;
     m_total_files := 0; m_stars := Some 3%Z; m_forks := 0; m_contributors := 1; m_file_count := 9;
     m_sha256 := ""; m_project_hash := "";
     m_languages := [("Python", 600%Z); ("Rust", 300%Z); ("Shell", 100%Z)];
     m_explanation := None |}.

Definition sample_json : analysis_json :=
  {| aj_overall := 87 # 100; aj_meta := sample_meta; aj_verified := true; aj_signals := [];
     aj_domains := [("python", 9 # 10)]; aj_explanation := None |}.

Lemma language_pills_spec_witness :
  Forall (fun p => (0 <= pill_pct p <= 100)%Z) (language_pills (m_languages sample_meta)) /\
  map pill_pct (language_pills (m_languages sample_meta)) = [60; 30; 10]%Z.
Proof.
  split; [|vm_compute; reflexivity].
  apply (language_pills_spec (m_languages sample_meta)). repeat constructor; discriminate.
Defined.

Lemma success_panel_after_submit_witness :
  In (SuccessPanel (domain_arg sample_analysis) (score_arg sample_analysis) (EXPLORER ++ "TXID")
        (slice_head 16 "TXID") "✓ Confirmed")
     (submit_view (fst (handle_submit (sample_page (Some sample_analysis)) sample_env)) true
        (Some sample_json)).
Proof.
  exact (proj1 (success_panel_after_submit (sample_page (Some sample_analysis)) sample_env
                  sample_analysis 200 "TXID" true sample_json
                  eq_refl eq_refl eq_refl eq_refl eq_refl eq_refl eq_refl)).
Defined.

End SubmitView.
