(* ===== verification/ExplorerView.v ===== *)
(** * ExplorerView: what the Explorer shows

    [src/unnamed/part_001] lines 789–795 (the domain colours) and 839–981
    (the render of [ExplorerPage]): the search card with its domain
    select, the error panel with its Retry button, the grid of profile
    cards, or the empty state.  A card's score and tier are those of
    [Tier.explorer_score] and [Tier.explorer_tier]; the profile JSON is
    abstract, with the fields the card reads as Section variables. *)

From Stdlib Require Import ZArith QArith Lia List String.
From stdpp Require Import base decidable.
From S2P Require Import Prelude Tier Pages.
Import ListNotations.

Module ExplorerView.
Import Pages.

Local Open Scope string_scope.

(** Lines 790–795 and 959: [DOMAIN_COLORS[ds.domain?.toLowerCase()] || '#888']. *)
Definition domain_color (d : option string) : string :=
  match option_map to_lower d with
  | Some "backend" => "#3178c6" | Some "frontend" => "#f1e05a" | Some "python" => "#3572A5"
  | Some "blockchain" => "#AA6746" | Some "ai/ml" => "#ff6b6b" | Some "devops" => "#00ADD8"
  | Some "mobile" => "#F05138" | Some "data-science" => "#198CE7" | Some "security" => "#c22d40"
  | Some "web" => "#e34c26" | Some "systems" => "#555555"
  | _ => "#888"
  end.

(** Lines 876–885: the options of the domain select, value and label. *)
Definition domain_options : list (string * string) :=
  [("", "All Domains"); ("backend", "Backend"); ("frontend", "Frontend"); ("python", "Python");
   ("blockchain", "Blockchain"); ("ai/ml", "AI/ML"); ("web", "Web"); ("devops", "DevOps");
   ("mobile", "Mobile"); ("data-science", "Data Science")].

Section WithJson.
Context {Json : Type}.
(** The fields of a profile; numbers are [None] when absent or [0]. *)
Context (total_reputation credibility_score : Json -> option Q) (wallet : Json -> option string)
  (verification_badge : Json -> bool) (total_records : Json -> option Z)
  (top_domain : Json -> option string) (trust_index : Json -> option Q)
  (domain_scores : Json -> list Json) (ds_domain : Json -> option string).

Record card := {
  c_score : Z; c_tier : string; c_wallet_head : string; c_wallet_tail : string;
  c_verified : bool; c_records : Z; c_top_domain : option string; c_trust_pct : Z;
  c_pills : list (string * option string)     (** colour and domain *)
}.

Inductive ewidget :=
| SearchCard (search domain : string) (search_enabled loading : bool)   (** lines 851–895 *)
| ErrorPanel (msg : string)                                             (** lines 897–908 *)
| Grid (cards : list card)                                              (** lines 911–968 *)
| EmptyState.                                                           (** lines 970–978 *)

(** Lines 914–965. *)
Definition profile_card (p : Json) : card :=
  let w := js_or_default (wallet p) "" in
  {| c_score := Tier.explorer_score (total_reputation p) (credibility_score p);
     c_tier := Tier.explorer_tier (total_reputation p) (credibility_score p);
     c_wallet_head := slice_head 8 w; c_wallet_tail := slice_tail 6 w;
     c_verified := verification_badge p;
     c_records := match total_records p with Some n => n | None => 0%Z end;
     c_top_domain := match top_domain p with
                     | Some t => if truthy (Some t) then Some t else None
                     | None => None
                     end;
     c_trust_pct := js_to_fixed 0 (match trust_index p with Some t => t | None => 0 end * 100)%Q;
     c_pills := map (fun ds => (domain_color (ds_domain ds), ds_domain ds))
                    (firstn 3 (domain_scores p)) |}.

(** Lines 841–981. *)
Definition explorer_view (st : explorer_state Json) : list ewidget :=
  [SearchCard (ex_search st) (ex_domain st) (negb (ex_loading st)) (ex_loading st)] ++
  (if truthy (Some (ex_error st)) then [ErrorPanel (ex_error st)] else []) ++
  (if (0 <? length (ex_profiles st))%nat then [Grid (map profile_card (ex_profiles st))]
   else if ex_loading st then [] else [EmptyState]).

Lemma profile_card_consistent (p : Json) :
  let c := profile_card p in
  c_tier c = Tier.tier_class (Tier.tier_of (inject_Z (c_score c))) /\
  Tier.score_circle_color (inject_Z (c_score c)) = Tier.tier_color (Tier.tier_of (inject_Z (c_score c))) /\
  (length (c_pills c) <= 3)%nat.
Proof.
  simpl. rewrite Tier.explorer_tier_label, Tier.submit_tier_label_class, Tier.score_circle_color_tier.
  split; [reflexivity|]. split; [reflexivity|]. rewrite length_map. apply firstn_le_length.
Qed.

(** C32: Every card of the Explorer grid draws its score ring in the
    colour of the tier its badge names, both computed from the same
    rounded score, and shows at most three domain pills; the empty state
    shows exactly when no profile is loaded and nothing is loading. *)
Theorem explorer_cards_consistent (st : explorer_state Json) :
  (forall cs c, In (Grid cs) (explorer_view st) -> In c cs ->
     c_tier c = Tier.tier_class (Tier.tier_of (inject_Z (c_score c))) /\
     Tier.score_circle_color (inject_Z (c_score c)) =
       Tier.tier_color (Tier.tier_of (inject_Z (c_score c))) /\
     (length (c_pills c) <= 3)%nat) /\
  (In EmptyState (explorer_view st) <-> ex_profiles st = [] /\ ex_loading st = false).
Proof.
  unfold explorer_view. split.
  - intros cs c Hg Hc.
    assert (Hcs : cs = map profile_card (ex_profiles st)).
    { destruct (truthy (Some (ex_error st))), (0 <? length (ex_profiles st))%nat, (ex_loading st);
        simpl in Hg; intuition congruence. }
    subst cs. apply in_map_iff in Hc as [p [<- _]]. apply profile_card_consistent.
  - destruct (ex_profiles st) as [|p ps], (ex_loading st), (truthy (Some (ex_error st)));
      simpl; intuition congruence.
Qed.

End WithJson.

Arguments ewidget : clear implicits.

(** One profile with a total reputation of 89.5: ring and badge both say
    "exceptional" (the score is rounded to 90 first). *)
Definition one_profile : explorer_state unit :=
  {| ex_profiles := [tt]; ex_search := ""; ex_domain := ""; ex_loading := false; ex_error := "" |}.

Definition card_of_one : card :=
  profile_card (fun _ => Some (179 # 2)) (fun _ => None) (fun _ => Some "ABCDEFGHIJKL")
    (fun _ => true) (fun _ => Some 3%Z) (fun _ => Some "python") (fun _ => Some (9 # 10))
    (fun _ => [tt; tt; tt; tt]) (fun _ => Some "python") tt.

Lemma explorer_cards_consistent_witness :
  In (Grid [card_of_one])
     (explorer_view (fun _ => Some (179 # 2)) (fun _ => None) (fun _ => Some "ABCDEFGHIJKL")
        (fun _ => true) (fun _ => Some 3%Z) (fun _ => Some "python") (fun _ => Some (9 # 10))
        (fun _ => [tt; tt; tt; tt]) (fun _ => Some "python") one_profile) /\
  c_tier card_of_one = Tier.tier_class (Tier.tier_of (inject_Z (c_score card_of_one))).
Proof.
  assert (H : In (Grid [card_of_one])
     (explorer_view (fun _ => Some (179 # 2)) (fun _ => None) (fun _ => Some "ABCDEFGHIJKL")
        (fun _ => true) (fun _ => Some 3%Z) (fun _ => Some "python") (fun _ => Some (9 # 10))
        (fun _ => [tt; tt; tt; tt]) (fun _ => Some "python") one_profile))
    by (simpl; tauto).
  split; [exact H|].
  exact (proj1 (proj1 (explorer_cards_consistent _ _ _ _ _ _ _ _ _ one_profile) _ card_of_one H
                 (or_introl eq_refl))).
Defined.

End ExplorerView.
