(* ===== verification/Transport.v ===== *)
(** * Transport: how the pages reach the backend

    The pages do not use the [api] client of [src/unnamed/part_001]
    (lines 69–144, modelled in [Api] over [Retry]): each declares its own
    [const API = 'http://localhost:8000'] (part_001 lines 152 and 787,
    part_002 line 6, [RecordsPage.jsx] line 7) and calls [fetch] once per
    request, with no abort timer and no retry.  This file gives the URL
    each page request fetches, and the answer a page sees for the outcome
    of one attempt, so that the pages of [Pages] can be run against the
    same network as [Retry.fetch_default].  [URLSearchParams#toString]
    and the message of a failed [res.json()] are library behaviour, kept
    as Section variables. *)

From Stdlib Require Import ZArith Lia List String.
From stdpp Require Import base decidable.
From S2P Require Import Prelude Retry Api Pages.
Import ListNotations.

Module Transport.
Import Pages.

Local Open Scope string_scope.

(** part_001 lines 152 and 787, part_002 line 6, RecordsPage.jsx line 7. *)
Definition API : string := "http://localhost:8000".

Section WithJson.
Context {Json : Type} (detail : Json -> option string).
Context (query_string : list (string * string) -> string).   (** [`${params}`] *)
Context (syntax_msg : string).   (** the message [res.json()] throws on a body that is not JSON *)

(** The URL of each request (RecordsPage.jsx lines 35–36, part_002 line
    24, part_001 line 819). *)
Definition page_url (rq : request) : string :=
  match rq with
  | GetReputation w => API ++ "/reputation/" ++ w
  | GetWallet w => API ++ "/wallet/" ++ w
  | GetVerify w => API ++ "/verify/" ++ w
  | GetExplore ps => API ++ "/reputation/explore?" ++ query_string ps
  end.

(** What one plain [fetch] gives the page for the outcome of an attempt:
    the response with its status and its parsed body, or the rejection.
    A page's [fetch] has no abort signal, so an attempt the client's
    timer would abort is, for the page, no answer yet ([None]). *)
Definition page_reply (a : Retry.attempt Json) : option (reply Json) :=
  match a with
  | Retry.Aborted => None
  | Retry.NetworkFailure => Some (Rejected "Failed to fetch")
  | Retry.Response st _ body =>
      Some (Resp st (match body with Some j => Ok j | None => Err syntax_msg end))
  end.

Lemma page_url_prefix (rq : request) : String.prefix (API ++ "/") (page_url rq) = true.
Proof. destruct rq; reflexivity. Qed.

(** C12: The pages bypass the api client.  Whatever [VITE_API_URL] is set
    to, every page request goes to [http://localhost:8000]; and where the
    client would retry, the page does not: on a backend that answers a
    429 or 5xx first and the verification on the next attempt, the
    client's call returns the verification while the Verifier shows an
    error and no result. *)
Theorem pages_bypass_api_client (u : string) (rq : request) (lat : nat -> Z)
    (out : nat -> Retry.attempt Json) (st0 st1 : Z) (txt0 txt1 : string) (b0 : option Json)
    (j : Json) (v : verifier_state Json) (w a i : string) :
  u <> "" ->
  out 0%nat = Retry.Response st0 txt0 b0 -> Retry.transient (out 0%nat) = true ->
  out 1%nat = Retry.Response st1 txt1 (Some j) -> Retry.response_ok st1 = true ->
  (lat 0%nat < Retry.TIMEOUT)%Z -> (lat 1%nat < Retry.TIMEOUT)%Z ->
  (58 <= String.length w)%nat ->
  Api.api_url (Some u) = u /\ String.prefix (API ++ "/") (page_url rq) = true /\
  fst (Retry.fetch_default detail (fun k => Retry.timed (lat k) (out k))) = Ok j /\
  exists r, page_reply (out 0%nat) = Some r /\
    v_data (fst (verify detail v (Some w) a i r)) = None /\
    v_error (fst (verify detail v (Some w) a i r)) <> "".
Proof.
  intros Hu H0 Ht H1 Hok Hl0 Hl1 Hw.
  split; [now apply js_or_default_truthy|]. split; [apply page_url_prefix|]. split.
  - unfold Retry.fetch_default, Retry.MAX_RETRIES. cbn [Retry.fetch_with_retry].
    unfold Retry.timed. rewrite (proj2 (Z.leb_gt _ _) Hl0), (proj2 (Z.leb_gt _ _) Hl1).
    rewrite H0. rewrite H0 in Ht. simpl in Ht |- *.
    destruct (Retry.response_ok st0) eqn:E0.
    + exfalso. unfold Retry.response_ok in E0. apply andb_true_iff in E0 as [E1 E2].
      apply Z.leb_le in E1, E2. apply orb_true_iff in Ht as [Ht|Ht];
        [apply Z.eqb_eq in Ht | apply Z.leb_le in Ht]; lia.
    + simpl. rewrite Ht, H1. simpl. now rewrite Hok.
  - rewrite H0. simpl. eexists. split; [reflexivity|].
    unfold verify. rewrite lookup_wallet_long by exact Hw.
    rewrite H0 in Ht. simpl in Ht.
    assert (Hs : reply_ok st0 = false).
    { unfold reply_ok. apply orb_true_iff in Ht as [Ht|Ht];
        [apply Z.eqb_eq in Ht | apply Z.leb_le in Ht]; subst; try reflexivity.
      destruct (Z.leb_spec 200 st0), (Z.leb_spec st0 299); simpl; try reflexivity; lia. }
    rewrite Hs. simpl. split; [reflexivity|]. unfold error_text.
    destruct (body_opt _ ≫= detail) as [d|] eqn:D.
    + unfold js_or_default, js_or. destruct (truthy (Some d)) eqn:T; [|discriminate].
      now apply truthy_Some.
    + discriminate.
Qed.

End WithJson.

(** A backend that is briefly unavailable: 503, then the verification. *)
Definition flaky_backend (k : nat) : Retry.attempt string :=
  match k with
  | O => Retry.Response 503 "Service Unavailable" None
  | _ => Retry.Response 200 "OK" (Some "verified")
  end.

Definition loading_verifier : verifier_state string :=
  {| v_data := None; v_loading := true; v_error := "" |}.

Lemma pages_bypass_api_client_witness :
  Api.api_url (Some "https://api.example.org") = "https://api.example.org" /\
  fst (Retry.fetch_default (fun j : string => Some j)
         (fun k => Retry.timed 100 (flaky_backend k))) = Ok "verified".
Proof.
  destruct (pages_bypass_api_client (fun j : string => Some j) (fun _ => "") "Unexpected token"
    "https://api.example.org" (GetVerify "ABCDEFGHIJKLMNOPQRSTUVWXYZABCDEFGHIJKLMNOPQRSTUVWXYZ234567")
    (fun _ => 100%Z) flaky_backend 503 200 "Service Unavailable" "OK" None "verified"
    loading_verifier "ABCDEFGHIJKLMNOPQRSTUVWXYZABCDEFGHIJKLMNOPQRSTUVWXYZ234567" "" "")
    as (H1 & _ & H3 & _);
    [discriminate | reflexivity | reflexivity | reflexivity | reflexivity
    | reflexivity | reflexivity | vm_compute; lia | ].
  split; assumption.
Defined.

End Transport.
